(** * Image customizer and live-root assembler: a shallow embedding

    The development follows the sources of the repository:

    - [toolkit/tools/pkg/imagecustomizerlib/customizeverity.go]: the
      dm-verity helpers ([enableVerityPartition], [buildDracutModule],
      [updateMarinerCfgWithInitramfs], [updateGrubConfig],
      [idToPartitionBlockDevicePath], [systemdFormatPartitionId],
      [findFreeNBDDevice]) and the earlier validator of its second half;
    - the orchestrator ([CustomizeImage] and its stages, the configuration
      validator, [customizeVerityImageHelper]);
    - the boot-time script [dmsquash-live-root.sh] (backing of the live
      image, media check, read-write decision, overlay specification,
      overlay driver, temporary overlay allocation, thin-pool sizes).

    Go strings are byte sequences and are modelled by [string]; Go [error]
    values are modelled by their message.  Calls that leave the sources
    (external tools, the file system, functions of other packages) are
    operations answered by an oracle and recorded in a trace. *)

From Stdlib Require Import ZArith NArith List String Ascii Bool Lia DecimalString.
Import ListNotations.

Open Scope list_scope.
Open Scope string_scope.

(* ================================================================== *)
(** * The parts of the Go standard library the sources call *)
(* ================================================================== *)

(** ** [unicode/utf8] and [unicode.IsSpace], on byte lists *)

Module utf8.

Definition rune := N.

Definition RuneError : rune := 0xFFFD%N.
Definition RuneSelf : N := 0x80%N.
Definition UTFMax : Z := 4%Z.

Definition between (lo hi b : N) : bool := ((lo <=? b) && (b <=? hi))%N.

(** The table [first] together with [acceptRanges]: for a leading byte of
    a multi-byte sequence, the size of the sequence and the range the
    second byte must lie in.  [None] stands for the entries [as] (ASCII)
    and [xx] (invalid). *)
Definition first (b : N) : option (nat * N * N) :=
  if between 0xC2 0xDF b then Some (2%nat, 0x80%N, 0xBF%N)
  else if (b =? 0xE0)%N then Some (3%nat, 0xA0%N, 0xBF%N)
  else if between 0xE1 0xEC b then Some (3%nat, 0x80%N, 0xBF%N)
  else if (b =? 0xED)%N then Some (3%nat, 0x80%N, 0x9F%N)
  else if between 0xEE 0xEF b then Some (3%nat, 0x80%N, 0xBF%N)
  else if (b =? 0xF0)%N then Some (4%nat, 0x90%N, 0xBF%N)
  else if between 0xF1 0xF3 b then Some (4%nat, 0x80%N, 0xBF%N)
  else if (b =? 0xF4)%N then Some (4%nat, 0x80%N, 0x8F%N)
  else None.

Definition cont (b : N) : N := N.land b 0x3F.

(** [utf8.DecodeRuneInString]: the first rune of [s] and its width. *)
Definition DecodeRuneInString (s : list N) : rune * nat :=
  match s with
  | [] => (RuneError, 0)
  | s0 :: t =>
    if (s0 <? RuneSelf)%N then (s0, 1)
    else
      match first s0 with
      | None => (RuneError, 1)
      | Some (sz, lo, hi) =>
        if (List.length s <? sz)%nat then (RuneError, 1)
        else
          match t with
          | [] => (RuneError, 1)
          | s1 :: t1 =>
            if negb (between lo hi s1) then (RuneError, 1)
            else if (sz <=? 2)%nat then
              (N.lor (N.shiftl (N.land s0 0x1F) 6) (cont s1), 2)
            else
              match t1 with
              | [] => (RuneError, 1)
              | s2 :: t2 =>
                if negb (between 0x80 0xBF s2) then (RuneError, 1)
                else if (sz <=? 3)%nat then
                  (N.lor (N.shiftl (N.land s0 0x0F) 12)
                     (N.lor (N.shiftl (cont s1) 6) (cont s2)), 3)
                else
                  match t2 with
                  | [] => (RuneError, 1)
                  | s3 :: _ =>
                    if negb (between 0x80 0xBF s3) then (RuneError, 1)
                    else
                      (N.lor (N.shiftl (N.land s0 0x07) 18)
                         (N.lor (N.shiftl (cont s1) 12)
                            (N.lor (N.shiftl (cont s2) 6) (cont s3))), 4)
                  end
              end
          end
      end
  end.

(** [utf8.RuneStart]: the byte is not a continuation byte. *)
Definition RuneStart (b : N) : bool := negb (N.land b 0xC0 =? 0x80)%N.

Definition byteAt (s : list N) (i : Z) : N := nth (Z.to_nat i) s 0%N.

(** The backwards scan of [DecodeLastRuneInString]:
    [for start--; start >= lim; start-- { if RuneStart(s[start]) break }],
    entered with [start] already decremented. *)
Fixpoint scanBack (fuel : nat) (s : list N) (start lim : Z) : Z :=
  match fuel with
  | O => start
  | S fuel' =>
    if (start <? lim)%Z then start
    else if RuneStart (byteAt s start) then start
    else scanBack fuel' s (start - 1)%Z lim
  end.

(** [utf8.DecodeLastRuneInString]: the last rune of [s] and its width. *)
Definition DecodeLastRuneInString (s : list N) : rune * nat :=
  let end_ := Z.of_nat (List.length s) in
  if (end_ =? 0)%Z then (RuneError, 0)
  else
    let start := (end_ - 1)%Z in
    let r := byteAt s start in
    if (r <? RuneSelf)%N then (r, 1)
    else
      let lim := Z.max 0 (end_ - UTFMax) in
      let start := scanBack 5 s (start - 1)%Z lim in
      let start := Z.max 0 start in
      let '(r, size) := DecodeRuneInString (skipn (Z.to_nat start) s) in
      if negb (start + Z.of_nat size =? end_)%Z then (RuneError, 1)
      else (r, size).

End utf8.

Module unicode.

(** [unicode.IsSpace]: the Latin-1 cases, then the [White_Space] table
    without its Latin-1 part. *)
Definition IsSpace (r : utf8.rune) : bool :=
  if (r <=? 0xFF)%N then
    (r =? 0x09)%N || (r =? 0x0A)%N || (r =? 0x0B)%N || (r =? 0x0C)%N
    || (r =? 0x0D)%N || (r =? 0x20)%N || (r =? 0x85)%N || (r =? 0xA0)%N
  else
    (r =? 0x1680)%N || utf8.between 0x2000 0x200A r
    || utf8.between 0x2028 0x2029 r || (r =? 0x202F)%N
    || (r =? 0x205F)%N || (r =? 0x3000)%N.

End unicode.

(** ** Package [strings] *)

Module strings.

Definition bytes (s : string) : list N :=
  map N_of_ascii (list_ascii_of_string s).

Definition ofBytes (b : list N) : string :=
  string_of_list_ascii (map ascii_of_N b).

(** [strings.HasPrefix(s, prefix)]: [s] is at least as long as [prefix]
    and starts with its bytes. *)
Fixpoint HasPrefix (s prefix : string) : bool :=
  match prefix, s with
  | EmptyString, _ => true
  | String a prefix', String b s' => Ascii.eqb a b && HasPrefix s' prefix'
  | String _ _, EmptyString => false
  end.

(** The table [asciiSpace]. *)
Definition asciiSpace (c : N) : bool :=
  (c =? 0x09)%N || (c =? 0x0A)%N || (c =? 0x0B)%N || (c =? 0x0C)%N
  || (c =? 0x0D)%N || (c =? 0x20)%N.

(** [indexFunc(s, f, truth)]: the byte index of the first rune on which
    [f] answers [truth]; [None] is Go's -1.  Every rune of a non-empty
    string is at least one byte wide, so [length s] steps are enough. *)
Fixpoint indexFuncFrom (fuel : nat) (s : list N) (i : nat)
         (f : utf8.rune -> bool) (truth : bool) : option nat :=
  match fuel with
  | O => None
  | S fuel' =>
    match s with
    | [] => None
    | _ =>
      let '(r, size) := utf8.DecodeRuneInString s in
      if Bool.eqb (f r) truth then Some i
      else indexFuncFrom fuel' (skipn size s) (i + size) f truth
    end
  end.

Definition indexFunc (s : list N) (f : utf8.rune -> bool) (truth : bool)
  : option nat :=
  indexFuncFrom (List.length s) s 0 f truth.

(** [lastIndexFunc(s, f, truth)], scanning runes from the end. *)
Fixpoint lastIndexFuncFrom (fuel : nat) (s : list N) (i : nat)
         (f : utf8.rune -> bool) (truth : bool) : option nat :=
  match fuel with
  | O => None
  | S fuel' =>
    if (0 <? i)%nat then
      let '(r, size) := utf8.DecodeLastRuneInString (firstn i s) in
      let i := i - size in
      if Bool.eqb (f r) truth then Some i
      else lastIndexFuncFrom fuel' s i f truth
    else None
  end.

Definition lastIndexFunc (s : list N) (f : utf8.rune -> bool) (truth : bool)
  : option nat :=
  lastIndexFuncFrom (List.length s) s (List.length s) f truth.

Definition TrimLeftFuncB (s : list N) (f : utf8.rune -> bool) : list N :=
  match indexFunc s f false with
  | None => []
  | Some i => skipn i s
  end.

Definition TrimRightFuncB (s : list N) (f : utf8.rune -> bool) : list N :=
  match lastIndexFunc s f false with
  | Some i =>
    if (utf8.RuneSelf <=? nth i s 0)%N then
      let '(_, wid) := utf8.DecodeRuneInString (skipn i s) in
      firstn (i + wid) s
    else firstn (i + 1) s
  | None => firstn 0 s
  end.

Definition TrimFuncB (s : list N) (f : utf8.rune -> bool) : list N :=
  TrimRightFuncB (TrimLeftFuncB s f) f.

(** The first loop of [TrimSpace]: skip ASCII white space; the flag tells
    that a non-ASCII byte stopped the loop. *)
Fixpoint trimStart (s : list N) : bool * list N :=
  match s with
  | [] => (false, [])
  | c :: t =>
    if (utf8.RuneSelf <=? c)%N then (true, s)
    else if asciiSpace c then trimStart t
    else (false, s)
  end.

(** [strings.TrimSpace] on bytes; the second loop runs on the reversed
    remainder. *)
Definition TrimSpaceB (s : list N) : list N :=
  let '(slow, s1) := trimStart s in
  if slow then TrimFuncB s1 unicode.IsSpace
  else
    let '(slow2, r2) := trimStart (rev s1) in
    if slow2 then TrimRightFuncB (rev r2) unicode.IsSpace
    else rev r2.

Definition TrimSpace (s : string) : string := ofBytes (TrimSpaceB (bytes s)).

(** [strings.TrimLeftFunc(s, unicode.IsSpace)]: only leading white space
    is removed. *)
Definition TrimLeftSpace (s : string) : string :=
  ofBytes (TrimLeftFuncB (bytes s) unicode.IsSpace).

(** [strings.ToUpper] on its ASCII path (every byte below [RuneSelf]):
    the bytes ['a'..'z'] are shifted to ['A'..'Z'].  The sources apply it
    to the three identifier-type names only, which are ASCII; bytes at or
    above [RuneSelf] are left as they are here. *)
Definition upperByte (c : N) : N :=
  if utf8.between 0x61 0x7A c then (c - 0x20)%N else c.

Definition ToUpper (s : string) : string := ofBytes (map upperByte (bytes s)).

(** [strings.TrimSuffix(s, suffix)]. *)
Definition HasSuffix (s suffix : string) : bool :=
  (String.length suffix <=? String.length s)%nat
  && String.eqb (substring (String.length s - String.length suffix)
                           (String.length suffix) s) suffix.

Definition TrimSuffix (s suffix : string) : string :=
  if HasSuffix s suffix
  then substring 0 (String.length s - String.length suffix) s
  else s.

End strings.

Module filepath.

(** [filepath.Ext] (Unix): the suffix starting at the last dot of the last
    path element, empty when that element has no dot.  The scan goes from
    the end of the path; [acc] is the part already passed. *)
Fixpoint extScan (rpath : list ascii) (acc : list ascii) : list ascii :=
  match rpath with
  | [] => []
  | c :: rest =>
    if Ascii.eqb c "/" then []
    else if Ascii.eqb c "." then c :: acc
    else extScan rest (c :: acc)
  end.

Definition Ext (path : string) : string :=
  string_of_list_ascii (extScan (rev (list_ascii_of_string path)) []).

End filepath.

(** ** Package [regexp], for the patterns the sources compile

    A compiled pattern is its syntax tree.  Matching is the backtracking
    search that defines Go's leftmost-first semantics: at each start
    position, from left to right, alternatives are tried in priority order
    (a greedy repetition tries the longest run first), and the first success
    is the match.  The patterns of the sources are ASCII, so matching bytes
    and matching runes agree. *)

Module regexp.

Inductive Regexp : Type :=
| Str (lit : string)                (* a literal string *)
| Class (p : ascii -> bool)         (* one character of a class *)
| Plus (p : ascii -> bool)          (* [c+], greedy, for a class [c] *)
| Cat (r1 r2 : Regexp)              (* concatenation *)
| Capture (r : Regexp).             (* a capturing group *)

(** The text consumed between the input [s] and its suffix [rest]. *)
Definition consumed (s rest : string) : string :=
  substring 0 (String.length s - String.length rest) s.

Fixpoint dropPrefix (lit s : string) : option string :=
  match lit, s with
  | EmptyString, _ => Some s
  | String a lit', String b s' =>
    if Ascii.eqb a b then dropPrefix lit' s' else None
  | String _ _, EmptyString => None
  end.

Fixpoint plusK {A : Type} (p : ascii -> bool) (s : string)
         (k : string -> option A) : option A :=
  match s with
  | EmptyString => None
  | String c s' =>
    if p c then
      match plusK p s' k with
      | Some m => Some m
      | None => k s'
      end
    else None
  end.

Fixpoint matchK {A : Type} (r : Regexp) (s : string) (caps : list string)
         (k : string -> list string -> option A) : option A :=
  match r with
  | Str lit =>
    match dropPrefix lit s with
    | Some s' => k s' caps
    | None => None
    end
  | Class p =>
    match s with
    | String c s' => if p c then k s' caps else None
    | EmptyString => None
    end
  | Plus p => plusK p s (fun s' => k s' caps)
  | Cat r1 r2 => matchK r1 s caps (fun s' caps' => matchK r2 s' caps' k)
  | Capture r1 =>
    matchK r1 s caps (fun s' caps' => k s' (caps' ++ [consumed s s'])%list)
  end.

(** A match that starts at the beginning of [s]: the whole match followed
    by the groups. *)
Definition matchHere (r : Regexp) (s : string) : option (list string) :=
  matchK r s [] (fun s' caps => Some (consumed s s' :: caps)).

Fixpoint findFrom (r : Regexp) (s : string) : option (list string) :=
  match matchHere r s with
  | Some m => Some m
  | None =>
    match s with
    | EmptyString => None
    | String _ s' => findFrom r s'
    end
  end.

(** [Regexp.FindStringSubmatch]: the leftmost match and its groups; the
    nil slice (here the empty list) when there is no match. *)
Definition FindStringSubmatch (r : Regexp) (s : string) : list string :=
  match findFrom r s with
  | Some m => m
  | None => []
  end.

(** Perl class [\s], which Go defines as [[\t\n\f\r ]]. *)
Definition perlSpace (c : ascii) : bool :=
  let n := N_of_ascii c in
  ((n =? 0x09) || (n =? 0x0A) || (n =? 0x0C) || (n =? 0x0D) || (n =? 0x20))%N.

(** The class [[0-9a-fA-F]]. *)
Definition hexDigit (c : ascii) : bool :=
  let n := N_of_ascii c in
  utf8.between 0x30 0x39 n || utf8.between 0x61 0x66 n
  || utf8.between 0x41 0x46 n.

End regexp.

(* ================================================================== *)
(** * Values shared by the Go sources *)
(* ================================================================== *)

(** A Go [error] is modelled by its message; [fmt.Errorf] with [%s], [%v]
    and [%w] verbs is concatenation. *)
Definition error := string.

(** The pair [(T, error)] a Go function returns. *)
Inductive result (A : Type) : Type :=
| Ok (a : A)
| Err (e : error).
Arguments Ok {A} a.
Arguments Err {A} e.

(** ** Package [imagecustomizerapi] *)

Module imagecustomizerapi.

(** The declarations of the configuration schema are not among the
    sources.  The definitions of this module follow the data model of the
    specification ([CustomizationConfig]), with the field names the sources
    use; a Go pointer that may be nil is an [option]. *)

(** Modelled from the spec: the type [IdType], a string type (the sources
    convert it with [string(idType)]). *)
Definition IdType := string.

(** Modelled from the spec: the three identifier types, [idType] being one
    of uuid, partuuid, partlabel. *)
Definition IdTypePartlabel : IdType := "partlabel".
Definition IdTypeUuid : IdType := "uuid".
Definition IdTypePartuuid : IdType := "partuuid".

(** Modelled from the spec: a partition named in the verity section, an
    identifier type and a value. *)
Record IdentifiedPartition : Type := {
  IdType_ : IdType;
  Id : string
}.

(** Modelled from the spec: [OS.Verity]. *)
Record Verity : Type := {
  DataPartition : IdentifiedPartition;
  HashPartition : IdentifiedPartition;
  BootPartition : IdentifiedPartition;
  VerityErrorBehavior : string
}.

(** Modelled from the spec: an entry of [PostInstallScripts] or
    [FinalizeImageScripts]; the sources read its path only. *)
Record Script : Type := {
  Path : string
}.

(** Modelled from the spec: [OS.Packages]. *)
Record Packages : Type := {
  UpdateExistingPackages : bool;
  InstallLists : list string;
  Install : list string;
  RemoveLists : list string;
  Remove : list string;
  UpdateLists : list string;
  Update : list string
}.

(** Modelled from the spec: [AdditionalFiles], a Go map from source path
    to destinations; the list gives the order in which one [range] over the
    map visits the keys. *)
Definition AdditionalFilesMap := list (string * list string).

(** Modelled from the spec: the [OS] section. *)
Record OS : Type := {
  Packages_ : Packages;
  AdditionalFiles : AdditionalFilesMap;
  PostInstallScripts : list Script;
  FinalizeImageScripts : list Script;
  Verity_ : option Verity
}.

(** Modelled from the spec: the [Iso] section. *)
Record Iso : Type := {
  IsoAdditionalFiles : AdditionalFilesMap
}.

(** Modelled from the spec: the [Storage] section; the orchestrator only
    looks at its presence. *)
Inductive Storage : Type := StorageSection.

(** Modelled from the spec: the root record, each section optional. *)
Record Config : Type := {
  Storage_ : option Storage;
  Iso_ : option Iso;
  OS_ : option OS
}.

End imagecustomizerapi.

(** ** Package [diskutils] *)

Module diskutils.

(** Modelled from the spec: [diskutils.PartitionInfo] is declared outside
    the sources; the fields are those of the specification's
    [PartitionInfo]. *)
Record PartitionInfo : Type := {
  Path : string;
  FileSystemType : string;
  Uuid : string;
  PartUuid : string;
  PartLabel : string;
  PartitionNumber : nat
}.

End diskutils.

(* ================================================================== *)
(** * [customizeverity.go]: pure helpers *)
(* ================================================================== *)

Import imagecustomizerapi.

(** [idToPartitionBlockDevicePath]: the loop over the partitions with the
    [switch] on the identifier type inside it. *)
Fixpoint idToPartitionBlockDevicePath (idType : IdType) (id : string)
         (nbdDevice : string) (diskPartitions : list diskutils.PartitionInfo)
  : result string :=
  match diskPartitions with
  | [] => Err ("no partition found for " ++ idType ++ ": " ++ id)
  | partition :: rest =>
    if String.eqb idType IdTypePartlabel then
      if String.eqb (diskutils.PartLabel partition) id
      then Ok (diskutils.Path partition)
      else idToPartitionBlockDevicePath idType id nbdDevice rest
    else if String.eqb idType IdTypeUuid then
      if String.eqb (diskutils.Uuid partition) id
      then Ok (diskutils.Path partition)
      else idToPartitionBlockDevicePath idType id nbdDevice rest
    else if String.eqb idType IdTypePartuuid then
      if String.eqb (diskutils.PartUuid partition) id
      then Ok (diskutils.Path partition)
      else idToPartitionBlockDevicePath idType id nbdDevice rest
    else Err ("invalid idType provided (" ++ idType ++ ")")
  end.

(** [systemdFormatPartitionId]. *)
Definition systemdFormatPartitionId (idType : IdType) (id : string)
  : result string :=
  if String.eqb idType IdTypePartlabel || String.eqb idType IdTypeUuid
     || String.eqb idType IdTypePartuuid
  then Ok (strings.ToUpper idType ++ "=" ++ id)
  else Err ("invalid idType provided (" ++ idType ++ ")").

(** The arguments [updateGrubConfig] appends to a [linux] line
    ([fmt.Sprintf] of its format string). *)
Definition verityArgs (rootHash formattedDataPartition formattedHashPartition
                       : string) : string :=
  "rd.systemd.verity=1 roothash=" ++ rootHash
  ++ " systemd.verity_root_data=" ++ formattedDataPartition
  ++ " systemd.verity_root_hash=" ++ formattedHashPartition
  ++ " systemd.verity_root_options=panic-on-corruption".

(** The body of the loop of [updateGrubConfig] for one line: the two [if]
    statements in sequence, then the [append]. *)
Definition updateGrubLine (newArgs : string) (updatedLines : list string)
           (line : string) : list string :=
  let trimmedLine := strings.TrimSpace line in
  let line :=
    if strings.HasPrefix trimmedLine "linux "
    then line ++ " " ++ newArgs
    else line in
  let line :=
    if strings.HasPrefix trimmedLine "set rootdevice=PARTUUID="
    then "set rootdevice=/dev/mapper/root"
    else line in
  (updatedLines ++ [line])%list.

(** The loop of [updateGrubConfig] over the lines read. *)
Definition updateGrubLines (newArgs : string) (lines : list string)
  : list string :=
  fold_left (updateGrubLine newArgs) lines [].

(** The format names of the orchestrator. *)
Definition ImageFormatVhd := "vhd".
Definition ImageFormatVhdx := "vhdx".
Definition ImageFormatQCow2 := "qcow2".
Definition ImageFormatIso := "iso".
Definition ImageFormatRaw := "raw".
Definition QemuFormatVpc := "vpc".
Definition BaseImageName := "image.raw".
Definition tmpParitionDirName := "tmppartition".

(** [toQemuImageFormat]; the sources hold it twice, once with the names
    written out, and the two agree. *)
Definition toQemuImageFormat (imageFormat : string) : result string :=
  if String.eqb imageFormat ImageFormatVhd then Ok QemuFormatVpc
  else if String.eqb imageFormat ImageFormatVhdx
          || String.eqb imageFormat ImageFormatRaw
          || String.eqb imageFormat ImageFormatQCow2
  then Ok imageFormat
  else Err ("unsupported image format (supported: vhd, vhdx, raw, qcow2): "
            ++ imageFormat).

(** The pattern [Root hash:\s+([0-9a-fA-F]+)] of
    [customizeVerityImageHelper]. *)
Definition rootHashRegex : regexp.Regexp :=
  regexp.Cat (regexp.Str "Root hash:")
    (regexp.Cat (regexp.Plus regexp.perlSpace)
       (regexp.Capture (regexp.Plus regexp.hexDigit))).

(** The root-hash extraction of [customizeVerityImageHelper]:
    [FindStringSubmatch], the test [len(rootHashMatches) <= 1], and
    [rootHashMatches[1]]. *)
Definition parseRootHash (verityOutput : string) : result string :=
  let rootHashMatches := regexp.FindStringSubmatch rootHashRegex verityOutput in
  if (List.length rootHashMatches <=? 1)%nat
  then Err "failed to parse root hash from veritysetup output"
  else Ok (nth 1 rootHashMatches "").

(* ================================================================== *)
(** * Calls that leave the sources *)
(* ================================================================== *)

(** What [os.Stat] answers: the mode bits of the file, or an error together
    with what [os.IsNotExist] says of it. *)
Inductive StatResult : Type :=
| StatOk (mode : N)
| StatErr (notExist : bool) (e : error).

(** Objects of other packages the orchestrator only holds and hands on. *)
Inductive ImageConnection : Type := ImageConnectionRef (id : nat).
Inductive Mount : Type := MountRef (id : nat).
Inductive LiveOSIsoBuilder : Type := LiveOSIsoBuilderRef (id : nat).
Record Loopback : Type := { DevicePath : string }.

(** One constructor per function called outside the sources, indexed by the
    type of its answer.  An [option error] answer is Go's [error] with
    [None] for nil. *)
Inductive op : Type -> Type :=
(* package imagecustomizerapi *)
| ConfigIsValid (config : Config) : op (option error)
(* package file *)
| FileIsFile (path : string) : op (bool * option error)
| FileReadLines (path : string) : op (result (list string))
| FileWriteLines (lines : list string) (path : string) : op (option error)
| FileRemoveFileIfExists (path : string) : op (option error)
(* os, ioutil, filepath: the calls that look at the file system *)
| OsStat (path : string) : op StatResult
| OsMkdirAll (path : string) (perm : N) : op (option error)
| IoutilTempDir (dir pattern : string) : op (result string)
| FilepathAbs (path : string) : op (result string)
| FilepathGlob (pattern : string) : op (result (list string))
(* package shell *)
| ShellExecute (program : string) (args : list string)
  : op (string * string * option error)
| ShellExecuteLiveWithErr (stderrLines : nat) (program : string)
                          (args : list string) : op (option error)
(* packages diskutils, safeloopback, safemount *)
| GetDiskPartitions (device : string) : op (result (list diskutils.PartitionInfo))
| NewLoopback (file : string) : op (result Loopback)
| LoopbackClose (l : Loopback) : op unit
| LoopbackCleanClose (l : Loopback) : op (option error)
| NewMount (source target fstype : string) (flags : N) (data : string)
           (makeAndDelete : bool) : op (result Mount)
| MountClose (m : Mount) : op unit
| MountCleanClose (m : Mount) : op (option error)
(* package imagecustomizerlib, files that are not among the sources *)
| CollectPackagesList (baseConfigPath : string) (lists inline : list string)
  : op (result (list string))
| CustomizePartitions (buildDir configPath : string) (config : Config)
                      (rawImageFile : string) : op (result (bool * string))
| ConnectToExistingImage (rawImageFile buildDir chrootDir : string)
                         (includeDefaultMounts : bool)
  : op (result ImageConnection)
| DoCustomizations (buildDir baseConfigPath : string) (config : Config)
                   (c : ImageConnection) (rpmsSources : list string)
                   (useBaseImageRpmRepos partitionsCustomized : bool)
  : op (option error)
| ImageConnectionClose (c : ImageConnection) : op unit
| ImageConnectionCleanClose (c : ImageConnection) : op (option error)
| ShrinkFilesystems (device : string) : op (option error)
| ExtractPartitions (device outDir basename format : string) : op (option error)
| CheckFileSystems (rawImageFile : string) : op (option error)
| FindSystemBootPartition (parts : list diskutils.PartitionInfo)
  : op (result diskutils.PartitionInfo)
| FindBootPartitionFromEsp (esp : diskutils.PartitionInfo)
                           (parts : list diskutils.PartitionInfo)
                           (buildDir : string)
  : op (result diskutils.PartitionInfo)
| CopyIsoImageContentsToFolder (buildDir isoFile folder : string)
  : op (option error)
| IsoBuilderFromFolder (buildDir folder : string) : op (result LiveOSIsoBuilder)
| CreateWriteableImageFromSquashfs (b : LiveOSIsoBuilder)
                                   (buildDir rawImageFile : string)
  : op (option error)
| CreateLiveOSIsoImage (buildDir configPath : string) (iso : option Iso)
                       (rawImageFile outDir outBase : string)
  : op (option error)
| RecreateLiveOSIsoImage (b : option LiveOSIsoBuilder) (configPath : string)
                         (iso : option Iso) (outDir outBase : string)
  : op (option error).

(** A call together with its answer. *)
Inductive event : Type :=
| Call {R : Type} (o : op R) (r : R).

Definition trace := list event.

(** The answers: a function of the call and of what happened before it. *)
Definition Oracle := trace -> forall R : Type, op R -> R.

(** Functions of [path/filepath] and of package [file] that only rewrite the
    text of a path. *)
Record PathLib : Type := {
  Join : list string -> string;
  Base : string -> string;
  Dir : string -> string;
  IsLocal : string -> bool;
  GetAbsPathWithBase : string -> string -> string
}.

(** How a Go function ends: it returns (a value and a nil error), it returns
    a non-nil error, or it panics. *)
Inductive outcome (A : Type) : Type :=
| Return (a : A)
| Error (e : error)
| Panic (msg : string).
Arguments Return {A} a.
Arguments Error {A} e.
Arguments Panic {A} msg.

Definition nilDereference : string :=
  "runtime error: invalid memory address or nil pointer dereference".

(** A computation over a mutable object of type [S] (the receiver of a
    method; unused by plain functions) and the trace of calls. *)
Definition M (S A : Type) : Type := S -> trace -> outcome A * S * trace.

Definition ret {S A : Type} (a : A) : M S A := fun s t => (Return a, s, t).

Definition bind {S A B : Type} (m : M S A) (k : A -> M S B) : M S B :=
  fun s t =>
    match m s t with
    | (Return a, s', t') => k a s' t'
    | (Error e, s', t') => (Error e, s', t')
    | (Panic p, s', t') => (Panic p, s', t')
    end.

Definition fail {S A : Type} (e : error) : M S A := fun s t => (Error e, s, t).
Definition panic {S A : Type} (msg : string) : M S A :=
  fun s t => (Panic msg, s, t).

Definition get {S : Type} : M S S := fun s t => (Return s, s, t).

(** An assignment to a field of the object. *)
Definition modify {S : Type} (f : S -> S) : M S unit :=
  fun s t => (Return tt, f s, t).

Declare Scope go_scope.
Delimit Scope go_scope with go.
Notation "x <- m ;; k" := (bind m (fun x => k))
  (at level 100, m at next level, right associativity) : go_scope.
Notation "' p <- m ;; k" := (bind m (fun x => let p := x in k))
  (at level 100, p pattern, m at next level, right associativity) : go_scope.
Notation "m ;; k" := (bind m (fun _ => k))
  (at level 100, right associativity) : go_scope.
Open Scope go_scope.

(** [if err != nil { return fmt.Errorf(..., err) }] around a call. *)
Definition wrapErr {S A : Type} (f : error -> error) (m : M S A) : M S A :=
  fun s t =>
    match m s t with
    | (Error e, s', t') => (Error (f e), s', t')
    | r => r
    end.

(** [defer cleanup()] in front of [body]: the cleanup runs when the body is
    left, however it is left, and what the cleanup yields is dropped (no
    function of the sources has a named result a deferred call could set). *)
Definition defer {S A : Type} (cleanup : M S unit) (body : M S A) : M S A :=
  fun s t =>
    let '(r, s1, t1) := body s t in
    let '(_, s2, t2) := cleanup s1 t1 in
    (r, s2, t2).

(** A method call on a fresh object: the object is dropped afterwards. *)
Definition withObject {S S' A : Type} (obj : S') (m : M S' A) : M S A :=
  fun s t => let '(r, _, t') := m obj t in (r, s, t').

Definition liftR {S A : Type} (r : result A) : M S A :=
  match r with
  | Ok a => ret a
  | Err e => fail e
  end.

Definition liftE {S : Type} (e : option error) : M S unit :=
  match e with
  | None => ret tt
  | Some e => fail e
  end.

(** [for i, x := range l { ... }], leaving at the first error. *)
Fixpoint forRange {S A : Type} (f : nat -> A -> M S unit) (i : nat)
         (l : list A) : M S unit :=
  match l with
  | [] => ret tt
  | x :: rest => f i x ;; forRange f (Datatypes.S i) rest
  end.

Definition itoa (n : nat) : string := NilEmpty.string_of_uint (Nat.to_uint n).

(* ================================================================== *)
(** * The Go functions of the sources *)
(* ================================================================== *)

(** [CommonParameters], the state of one run of the orchestrator. *)
Record CommonParameters : Type := {
  buildDir : string;
  buildDirAbs : string;
  inputImageFile : string;
  configPath : string;
  config : Config;
  customizeOSPartitions : bool;
  useBaseImageRpmRepos : bool;
  rpmsSources : list string;
  enableShrinkFilesystems : bool;
  outputSplitPartitionsFormat : string;
  rawImageFile : string;
  outputImageFormat : string;
  qemuOutputImageFormat : string;
  outputImageFile : string;
  outputImageDir : string;
  outputImageBase : string;
  isoBuilder : option LiveOSIsoBuilder
}.

(** The assignments [cp.rawImageFile = ...] and [cp.isoBuilder = ...]. *)
Definition set_rawImageFile (v : string) (cp : CommonParameters)
  : CommonParameters :=
  {| buildDir := buildDir cp; buildDirAbs := buildDirAbs cp;
     inputImageFile := inputImageFile cp; configPath := configPath cp;
     config := config cp; customizeOSPartitions := customizeOSPartitions cp;
     useBaseImageRpmRepos := useBaseImageRpmRepos cp;
     rpmsSources := rpmsSources cp;
     enableShrinkFilesystems := enableShrinkFilesystems cp;
     outputSplitPartitionsFormat := outputSplitPartitionsFormat cp;
     rawImageFile := v; outputImageFormat := outputImageFormat cp;
     qemuOutputImageFormat := qemuOutputImageFormat cp;
     outputImageFile := outputImageFile cp;
     outputImageDir := outputImageDir cp;
     outputImageBase := outputImageBase cp; isoBuilder := isoBuilder cp |}.

Definition set_isoBuilder (v : option LiveOSIsoBuilder)
           (cp : CommonParameters) : CommonParameters :=
  {| buildDir := buildDir cp; buildDirAbs := buildDirAbs cp;
     inputImageFile := inputImageFile cp; configPath := configPath cp;
     config := config cp; customizeOSPartitions := customizeOSPartitions cp;
     useBaseImageRpmRepos := useBaseImageRpmRepos cp;
     rpmsSources := rpmsSources cp;
     enableShrinkFilesystems := enableShrinkFilesystems cp;
     outputSplitPartitionsFormat := outputSplitPartitionsFormat cp;
     rawImageFile := rawImageFile cp;
     outputImageFormat := outputImageFormat cp;
     qemuOutputImageFormat := qemuOutputImageFormat cp;
     outputImageFile := outputImageFile cp;
     outputImageDir := outputImageDir cp;
     outputImageBase := outputImageBase cp; isoBuilder := v |}.

(** The assignments of [validatePackageLists] to [config.Packages]. *)
Definition set_Packages (p : Packages) (os : OS) : OS :=
  {| Packages_ := p; AdditionalFiles := AdditionalFiles os;
     PostInstallScripts := PostInstallScripts os;
     FinalizeImageScripts := FinalizeImageScripts os;
     Verity_ := Verity_ os |}.

Definition mergedPackages (p : Packages) (remove install update : list string)
  : Packages :=
  {| UpdateExistingPackages := UpdateExistingPackages p;
     InstallLists := []; Install := install;
     RemoveLists := []; Remove := remove;
     UpdateLists := []; Update := update |}.

Definition set_OS (os : option OS) (c : Config) : Config :=
  {| Storage_ := Storage_ c; Iso_ := Iso_ c; OS_ := os |}.

(** [os.ModePerm], octal 0777. *)
Definition ModePerm : N := 511%N.

(** The executable bits, octal 0111. *)
Definition execBits : N := 73%N.

Section Sources.

Variable lib : PathLib.
Variable oracle : Oracle.

(** A call: the oracle answers, the trace grows by the call. *)
Definition call {S R : Type} (o : op R) : M S R :=
  fun s t => let r := oracle t R o in (Return r, s, (t ++ [Call o r])%list).

(** A call whose answer is [(T, error)], resp. [error]. *)
Definition callR {S A : Type} (o : op (result A)) : M S A :=
  r <- call o ;; liftR r.
Definition callE {S : Type} (o : op (option error)) : M S unit :=
  e <- call o ;; liftE e.

(** ** [customizeverity.go] *)

(** [updateGrubConfig]. *)
Definition updateGrubConfig {S : Type}
           (dataPartitionIdType : IdType) (dataPartitionId : string)
           (hashPartitionIdType : IdType) (hashPartitionId : string)
           (rootHash grubCfgFullPath : string) : M S unit :=
  formattedDataPartition <-
    liftR (systemdFormatPartitionId dataPartitionIdType dataPartitionId) ;;
  formattedHashPartition <-
    liftR (systemdFormatPartitionId hashPartitionIdType hashPartitionId) ;;
  let newArgs :=
    verityArgs rootHash formattedDataPartition formattedHashPartition in
  lines <- wrapErr (fun e => "failed to read grub config: " ++ e)
                   (callR (FileReadLines grubCfgFullPath)) ;;
  let updatedLines := updateGrubLines newArgs lines in
  wrapErr (fun e => "failed to write updated grub config: " ++ e)
          (callE (FileWriteLines updatedLines grubCfgFullPath)).

(** The loop of [findFreeNBDDevice] over the globbed files. *)
Fixpoint findFreeNBDDeviceIn {S : Type} (files : list string) : M S string :=
  match files with
  | [] => fail "no free nbd devices available"
  | file :: rest =>
    let pidFile := Join lib [file; "pid"] in
    st <- call (OsStat pidFile) ;;
    match st with
    | StatErr true _ => ret ("/dev/" ++ Base lib file)
    | _ => findFreeNBDDeviceIn rest
    end
  end.

(** [findFreeNBDDevice]. *)
Definition findFreeNBDDevice {S : Type} : M S string :=
  files <- callR (FilepathGlob "/sys/class/block/nbd*") ;;
  findFreeNBDDeviceIn files.

(** ** The validator *)

(** [errors.Join(aggregateErr, err)] for a non-nil [err]. *)
Definition errorsJoin (aggregateErr : option error) (err : error)
  : option error :=
  match aggregateErr with
  | None => Some err
  | Some a => Some (a ++ String "010" err)
  end.

(** [validateAdditionalFiles]: both tests are made for every source file
    and the errors are joined. *)
Fixpoint validateAdditionalFilesFrom {S : Type} (baseConfigPath : string)
         (additionalFiles : AdditionalFilesMap) (aggregateErr : option error)
  : M S unit :=
  match additionalFiles with
  | [] => liftE aggregateErr
  | (sourceFile, _) :: rest =>
    let sourceFileFullPath :=
      GetAbsPathWithBase lib baseConfigPath sourceFile in
    '(isFile, err) <- call (FileIsFile sourceFileFullPath) ;;
    let aggregateErr :=
      match err with
      | Some e =>
        errorsJoin aggregateErr
          ("invalid additionalFiles source file (" ++ sourceFile ++ "):"
           ++ String "010" e)
      | None => aggregateErr
      end in
    let aggregateErr :=
      if negb isFile then
        errorsJoin aggregateErr
          ("invalid additionalFiles source file (" ++ sourceFile
           ++ "): not a file")
      else aggregateErr in
    validateAdditionalFilesFrom baseConfigPath rest aggregateErr
  end.

Definition validateAdditionalFiles {S : Type} (baseConfigPath : string)
           (additionalFiles : AdditionalFilesMap) : M S unit :=
  validateAdditionalFilesFrom baseConfigPath additionalFiles None.

(** [validateIsoConfig], with its test for a nil section. *)
Definition validateIsoConfig {S : Type} (baseConfigPath : string)
           (config : option Iso) : M S unit :=
  match config with
  | None => ret tt
  | Some iso => validateAdditionalFiles baseConfigPath (IsoAdditionalFiles iso)
  end.

(** [validateScript]. *)
Definition validateScript {S : Type} (baseConfigPath : string)
           (script : Script) : M S unit :=
  if negb (IsLocal lib (Path script)) then
    fail ("install script (" ++ Path script
          ++ ") is not under config directory (" ++ baseConfigPath ++ ")")
  else
    let fullPath := Join lib [baseConfigPath; Path script] in
    st <- call (OsStat fullPath) ;;
    match st with
    | StatErr _ e =>
      fail ("couldn't read install script (" ++ Path script ++ "):"
            ++ String "010" e)
    | StatOk mode =>
      if (N.land mode execBits =? 0)%N then
        fail ("install script (" ++ Path script
              ++ ") does not have executable bit set")
      else ret tt
    end.

(** [validatePackageLists].  [config] is the pointer the caller passes:
    reading [config.Packages] through a nil pointer panics.  The updated
    object is returned, since the caller goes on using it. *)
Definition validatePackageLists {S : Type} (baseConfigPath : string)
           (config : option OS) (rpmsSources : list string)
           (useBaseImageRpmRepos partitionsCustomized : bool) : M S OS :=
  match config with
  | None => panic nilDereference
  | Some os =>
    let pk := Packages_ os in
    allPackagesRemove <-
      callR (CollectPackagesList baseConfigPath (RemoveLists pk) (Remove pk)) ;;
    allPackagesInstall <-
      callR (CollectPackagesList baseConfigPath (InstallLists pk) (Install pk)) ;;
    allPackagesUpdate <-
      callR (CollectPackagesList baseConfigPath (UpdateLists pk) (Update pk)) ;;
    let hasRpmSources :=
      (0 <? List.length rpmsSources)%nat || useBaseImageRpmRepos in
    (if negb hasRpmSources then
       let needRpmsSources :=
         (0 <? List.length allPackagesInstall)%nat
         || (0 <? List.length allPackagesUpdate)%nat
         || UpdateExistingPackages pk in
       if needRpmsSources then
         fail "have packages to install or update but no RPM sources were specified"
       else if partitionsCustomized then
         fail "partitions were customized so the initramfs package needs to be reinstalled but no RPM sources were specified"
       else ret tt
     else ret tt) ;;
    ret (set_Packages
           (mergedPackages pk allPackagesRemove allPackagesInstall
                           allPackagesUpdate) os)
  end.

(** [validateSystemConfig]. *)
Definition validateSystemConfig {S : Type} (baseConfigPath : string)
           (config : option OS) (rpmsSources : list string)
           (useBaseImageRpmRepos partitionsCustomized : bool) : M S OS :=
  os <- validatePackageLists baseConfigPath config rpmsSources
                             useBaseImageRpmRepos partitionsCustomized ;;
  validateAdditionalFiles baseConfigPath (AdditionalFiles os) ;;
  forRange (fun i script =>
              wrapErr (fun e => "invalid PostInstallScripts item at index "
                                ++ itoa i ++ ": " ++ e)
                      (validateScript baseConfigPath script))
           0 (PostInstallScripts os) ;;
  forRange (fun i script =>
              wrapErr (fun e => "invalid FinalizeImageScripts item at index "
                                ++ itoa i ++ ": " ++ e)
                      (validateScript baseConfigPath script))
           0 (FinalizeImageScripts os) ;;
  ret os.

(** [hasPartitionCustomizations]. *)
Definition hasPartitionCustomizations (config : Config) : bool :=
  match Storage_ config with
  | Some _ => true
  | None => false
  end.

(** [validateConfig]; it returns the configuration as the validation left
    it. *)
Definition validateConfig {S : Type} (baseConfigPath : string)
           (config : Config) (rpmsSources : list string)
           (useBaseImageRpmRepos : bool) : M S Config :=
  callE (ConfigIsValid config) ;;
  let partitionsCustomized := hasPartitionCustomizations config in
  validateIsoConfig baseConfigPath (Iso_ config) ;;
  os <- validateSystemConfig baseConfigPath (OS_ config) rpmsSources
                             useBaseImageRpmRepos partitionsCustomized ;;
  ret (set_OS (Some os) config).

(** ** The orchestrator *)

(** [initCommonParameters]. *)
Definition initCommonParameters {S : Type} (buildDir inputImageFile : string)
           (configPath : string) (config : Config)
           (useBaseImageRpmRepos : bool) (rpmsSources : list string)
           (enableShrinkFilesystems : bool)
           (outputSplitPartitionsFormat : string)
           (outputImageFormat outputImageFile : string)
  : M S CommonParameters :=
  buildDirAbs <- callR (FilepathAbs buildDir) ;;
  callE (OsMkdirAll buildDirAbs ModePerm) ;;
  let customizeOSPartitions :=
    match Storage_ config with Some _ => true | None => false end
    || match OS_ config with Some _ => true | None => false end in
  let outputImageBase :=
    strings.TrimSuffix (Base lib outputImageFile)
                       (filepath.Ext outputImageFile) in
  let outputImageDir := Dir lib outputImageFile in
  qemuOutputImageFormat <-
    (if negb (String.eqb outputImageFormat "")
        && negb (String.eqb outputImageFormat ImageFormatIso)
     then liftR (toQemuImageFormat outputImageFormat)
     else ret "") ;;
  callE (OsMkdirAll outputImageDir ModePerm) ;;
  ret {| buildDir := buildDir; buildDirAbs := buildDirAbs;
         inputImageFile := inputImageFile; configPath := configPath;
         config := config; customizeOSPartitions := customizeOSPartitions;
         useBaseImageRpmRepos := useBaseImageRpmRepos;
         rpmsSources := rpmsSources;
         enableShrinkFilesystems := enableShrinkFilesystems;
         outputSplitPartitionsFormat := outputSplitPartitionsFormat;
         rawImageFile := Join lib [buildDirAbs; BaseImageName];
         outputImageFormat := outputImageFormat;
         qemuOutputImageFormat := qemuOutputImageFormat;
         outputImageFile := outputImageFile;
         outputImageDir := outputImageDir;
         outputImageBase := outputImageBase;
         isoBuilder := None |}.

(** [(cp *CommonParameters) convertInputImageToWriteableFormat].  The
    builder is assigned to [cp.isoBuilder] before the error is looked at;
    with an error the pointer assigned is taken to be nil. *)
Definition convertInputImageToWriteableFormat : M CommonParameters unit :=
  cp <- get ;;
  if String.eqb (filepath.Ext (inputImageFile cp)) ".iso" then
    isoExpansionFolder <-
      wrapErr (fun e => "failed to create temporary iso expansion folder for iso:"
                        ++ String "010" e)
              (callR (IoutilTempDir (buildDirAbs cp) "expanded-input-iso-")) ;;
    wrapErr (fun e => "failed to expand input iso file:" ++ String "010" e)
            (callE (CopyIsoImageContentsToFolder (buildDir cp)
                      (inputImageFile cp) isoExpansionFolder)) ;;
    r <- call (IsoBuilderFromFolder (buildDir cp) isoExpansionFolder) ;;
    match r with
    | Err e =>
      modify (set_isoBuilder None) ;;
      fail ("failed to load input iso artifacts:" ++ String "010" e)
    | Ok b =>
      modify (set_isoBuilder (Some b)) ;;
      if customizeOSPartitions cp then
        wrapErr (fun e => "failed to create writeable image:" ++ String "010" e)
                (callE (CreateWriteableImageFromSquashfs b (buildDir cp)
                          (rawImageFile cp)))
      else ret tt
    end
  else
    wrapErr (fun e => "failed to convert image file to raw format:"
                      ++ String "010" e)
            (callE (ShellExecuteLiveWithErr 1 "qemu-img"
                      ["convert"; "-O"; "raw"; inputImageFile cp;
                       rawImageFile cp])).

(** [customizeImageHelper]. *)
Definition customizeImageHelper {S : Type} (buildDir baseConfigPath : string)
           (config : Config) (rawImageFile : string)
           (rpmsSources : list string)
           (useBaseImageRpmRepos partitionsCustomized : bool) : M S unit :=
  imageConnection <-
    callR (ConnectToExistingImage rawImageFile buildDir "imageroot" true) ;;
  defer (call (ImageConnectionClose imageConnection))
    (callE (DoCustomizations buildDir baseConfigPath config imageConnection
              rpmsSources useBaseImageRpmRepos partitionsCustomized) ;;
     callE (ImageConnectionCleanClose imageConnection)).

(** [extractPartitionsHelper]. *)
Definition extractPartitionsHelper {S : Type}
           (rawImageFile outputDir outputBasename : string)
           (outputSplitPartitionsFormat : string) : M S unit :=
  imageLoopback <- callR (NewLoopback rawImageFile) ;;
  defer (call (LoopbackClose imageLoopback))
    (callE (ExtractPartitions (DevicePath imageLoopback) outputDir
              outputBasename outputSplitPartitionsFormat) ;;
     callE (LoopbackCleanClose imageLoopback)).

(** [shrinkFilesystemsHelper]. *)
Definition shrinkFilesystemsHelper {S : Type} (buildImageFile : string)
  : M S unit :=
  imageLoopback <- callR (NewLoopback buildImageFile) ;;
  defer (call (LoopbackClose imageLoopback))
    (callE (ShrinkFilesystems (DevicePath imageLoopback)) ;;
     callE (LoopbackCleanClose imageLoopback)).

(** What [customizeVerityImageHelper] does once the root hash is known:
    from [findSystemBootPartition] to the end. *)
Definition patchBootConfig {S : Type} (buildDir : string) (v : Verity)
           (diskPartitions : list diskutils.PartitionInfo)
           (rootHash : string) : M S unit :=
  systemBootPartition <- callR (FindSystemBootPartition diskPartitions) ;;
  bootPartition <-
    callR (FindBootPartitionFromEsp systemBootPartition diskPartitions
             buildDir) ;;
  let bootPartitionTmpDir := Join lib [buildDir; tmpParitionDirName] in
  bootPartitionMount <-
    wrapErr (fun e => "failed to mount partition ("
                      ++ diskutils.Path bootPartition ++ "):"
                      ++ String "010" e)
            (callR (NewMount (diskutils.Path bootPartition)
                      bootPartitionTmpDir
                      (diskutils.FileSystemType bootPartition) 0 "" true)) ;;
  defer (call (MountClose bootPartitionMount))
    (let grubCfgFullPath := Join lib [bootPartitionTmpDir; "grub2/grub.cfg"] in
     updateGrubConfig (IdType_ (DataPartition v)) (Id (DataPartition v))
                      (IdType_ (HashPartition v)) (Id (HashPartition v))
                      rootHash grubCfgFullPath ;;
     callE (MountCleanClose bootPartitionMount)).

(** [customizeVerityImageHelper] from the call of [veritysetup] on: the
    root hash is computed, parsed from the output, and handed on.
    [regexp.Compile] cannot fail on the constant pattern, so its error
    branch is left out. *)
Definition formatVerityAndPatch {S : Type} (buildDir : string) (v : Verity)
           (diskPartitions : list diskutils.PartitionInfo)
           (dataPartition hashPartition : string) : M S unit :=
  '(verityOutput, _, err) <-
    call (ShellExecute "veritysetup"
            ["format"; dataPartition; hashPartition]) ;;
  wrapErr (fun e => "failed to calculate root hash:" ++ String "010" e)
          (liftE err) ;;
  rootHash <- liftR (parseRootHash verityOutput) ;;
  patchBootConfig buildDir v diskPartitions rootHash.

(** [customizeVerityImageHelper]. *)
Definition customizeVerityImageHelper {S : Type}
           (buildDir baseConfigPath : string) (config : Config)
           (buildImageFile : string) (rpmsSources : list string)
           (useBaseImageRpmRepos : bool) : M S unit :=
  nbdDevice <- wrapErr (fun e => "failed to find a free nbd device: " ++ e)
                       findFreeNBDDevice ;;
  wrapErr (fun e => "failed to connect nbd " ++ nbdDevice ++ " to image "
                    ++ buildImageFile ++ ": " ++ e)
          (callE (ShellExecuteLiveWithErr 1 "qemu-nbd"
                    ["-c"; nbdDevice; "-f"; "raw"; buildImageFile])) ;;
  defer (call (ShellExecuteLiveWithErr 1 "qemu-nbd" ["-d"; nbdDevice]) ;;
         ret tt)
    (diskPartitions <- callR (GetDiskPartitions nbdDevice) ;;
     match OS_ config with
     | None => panic nilDereference
     | Some os =>
       match Verity_ os with
       | None => panic nilDereference
       | Some v =>
         dataPartition <-
           liftR (idToPartitionBlockDevicePath
                    (IdType_ (DataPartition v)) (Id (DataPartition v))
                    nbdDevice diskPartitions) ;;
         hashPartition <-
           liftR (idToPartitionBlockDevicePath
                    (IdType_ (HashPartition v)) (Id (HashPartition v))
                    nbdDevice diskPartitions) ;;
         formatVerityAndPatch buildDir v diskPartitions dataPartition
                              hashPartition
       end
     end).

(** [(cp *CommonParameters) customizeOSContents]. *)
Definition customizeOSContents : M CommonParameters unit :=
  cp <- get ;;
  if negb (customizeOSPartitions cp) then ret tt
  else
    '(partitionsCustomized, newRawImageFile) <-
      callR (CustomizePartitions (buildDirAbs cp) (configPath cp) (config cp)
               (rawImageFile cp)) ;;
    modify (set_rawImageFile newRawImageFile) ;;
    cp <- get ;;
    customizeImageHelper (buildDirAbs cp) (configPath cp) (config cp)
                         (rawImageFile cp) (rpmsSources cp)
                         (useBaseImageRpmRepos cp) partitionsCustomized ;;
    (if enableShrinkFilesystems cp then
       wrapErr (fun e => "failed to shrink filesystems:" ++ String "010" e)
               (shrinkFilesystemsHelper (rawImageFile cp))
     else ret tt) ;;
    match OS_ (config cp) with
    | None => panic nilDereference
    | Some os =>
      (match Verity_ os with
       | Some _ =>
         customizeVerityImageHelper (buildDirAbs cp) (configPath cp)
                                    (config cp) (rawImageFile cp)
                                    (rpmsSources cp) (useBaseImageRpmRepos cp)
       | None => ret tt
       end) ;;
      wrapErr (fun e => "failed to check filesystems:" ++ String "010" e)
              (callE (CheckFileSystems (rawImageFile cp))) ;;
      if negb (String.eqb (outputSplitPartitionsFormat cp) "") then
        extractPartitionsHelper (rawImageFile cp) (outputImageDir cp)
                                (outputImageBase cp)
                                (outputSplitPartitionsFormat cp)
      else ret tt
    end.

(** [(cp *CommonParameters) convertWriteableFormatToOutputImage]: a
    [switch] with two cases and no default. *)
Definition convertWriteableFormatToOutputImage : M CommonParameters unit :=
  cp <- get ;;
  let f := outputImageFormat cp in
  if String.eqb f ImageFormatVhd || String.eqb f ImageFormatVhdx
     || String.eqb f ImageFormatQCow2 || String.eqb f ImageFormatRaw
  then
    wrapErr (fun e => "failed to convert image file to format: " ++ f ++ ":"
                      ++ String "010" e)
            (callE (ShellExecuteLiveWithErr 1 "qemu-img"
                      ["convert"; "-O"; qemuOutputImageFormat cp;
                       rawImageFile cp; outputImageFile cp]))
  else if String.eqb f ImageFormatIso then
    if customizeOSPartitions cp then
      callE (CreateLiveOSIsoImage (buildDir cp) (configPath cp)
               (Iso_ (config cp)) (rawImageFile cp) (outputImageDir cp)
               (outputImageBase cp))
    else
      wrapErr (fun e => "failed to create LiveOS ISO:" ++ String "010" e)
              (callE (RecreateLiveOSIsoImage (isoBuilder cp) (configPath cp)
                        (Iso_ (config cp)) (outputImageDir cp)
                        (outputImageBase cp)))
  else ret tt.

(** The deferred function of [CustomizeImage]: it reads [cp.rawImageFile]
    when it runs, and assigns the clean-up error to the local variable
    [err], which the result of [CustomizeImage] no longer depends on. *)
Definition removeRawImageFile : M CommonParameters unit :=
  cp <- get ;;
  call (FileRemoveFileIfExists (rawImageFile cp)) ;;
  ret tt.

(** [CustomizeImage]. *)
Definition CustomizeImage {S : Type} (buildDir baseConfigPath : string)
           (config : Config) (imageFile : string) (rpmsSources : list string)
           (outputImageFile outputImageFormat : string)
           (outputSplitPartitionsFormat : string)
           (useBaseImageRpmRepos enableShrinkFilesystems : bool) : M S unit :=
  config <-
    wrapErr (fun e => "invalid image config:" ++ String "010" e)
            (validateConfig baseConfigPath config rpmsSources
                            useBaseImageRpmRepos) ;;
  cp <-
    wrapErr (fun e => "failed to initialize image customizer state:"
                      ++ String "010" e)
            (initCommonParameters buildDir imageFile baseConfigPath config
               useBaseImageRpmRepos rpmsSources enableShrinkFilesystems
               outputSplitPartitionsFormat outputImageFormat outputImageFile) ;;
  withObject cp
    (wrapErr (fun e => "failed to convert input image to writeable raw image:"
                       ++ String "010" e)
             convertInputImageToWriteableFormat ;;
     defer removeRawImageFile
       (wrapErr (fun e => "failed to customize raw image:" ++ String "010" e)
                customizeOSContents ;;
        wrapErr (fun e => "failed to convert customized raw image to output format:"
                          ++ String "010" e)
                convertWriteableFormatToOutputImage)).

End Sources.

(* ================================================================== *)
(** * [dmsquash-live-root.sh] *)
(* ================================================================== *)

(** Shell variables hold strings, and the tests the script uses ([-n], [-z],
    [=]) do not tell an unset variable from an empty one: a variable is a
    [string], empty when unset.  A command whose only effect is its output
    or its exit status is given by that output or status; the commands that
    act on the machine are listed in the order they run. *)

Module LiveRoot.

Definition nonEmpty (s : string) : bool := negb (String.eqb s "").

(** ** The CD/DVD media check *)

Record MediaCheckEnv : Type := {
  livedev : string;
  isBlockDevice : bool;      (* [ -b "$livedev" ] *)
  blkidType : string;        (* blkid -s TYPE -o value "$livedev" *)
  fs0 : string;              (* $fs when the fragment is entered *)
  check0 : string;           (* $check when the fragment is entered *)
  getargCheck : bool;        (* getarg rd.live.check -d check succeeds *)
  havePlymouth : bool;       (* type plymouth succeeds *)
  DRACUT_SYSTEMD : string;
  devUnitName : string;      (* dev_unit_name "$livedev" *)
  verifyStatus : Z           (* exit status of the verification command *)
}.

Inductive command : Type :=
| PlymouthHideSplash
| PlymouthShowSplash
| SystemctlStart (unit_ : string)
| Checkisomd5 (args : list string)
| DdSparse (output : string) (bs seek : Z)
| Losetup (file : string)
| Mkdir (dir : string).

(** The script goes on, or [die] ends it with a message. *)
Inductive ending : Type :=
| GoesOn
| Dies (msg : string).

(** [$fs] after [[ -b "$livedev" ] && fs=$(blkid ...)]. *)
Definition fsAfterProbe (e : MediaCheckEnv) : string :=
  if isBlockDevice e then blkidType e else fs0 e.

(** [$check] after the [if] on [$fs] and after
    [getarg rd.live.check -d check || check=""]. *)
Definition checkAfterGetarg (e : MediaCheckEnv) : string :=
  let fs := fsAfterProbe e in
  let check :=
    if String.eqb fs "iso9660" || String.eqb fs "udf" then "yes"
    else check0 e in
  if getargCheck e then check else "".

(** The command that verifies the medium. *)
Definition verifyCommand (e : MediaCheckEnv) : command :=
  if nonEmpty (DRACUT_SYSTEMD e)
  then SystemctlStart ("checkisomd5@" ++ devUnitName e ++ ".service")
  else Checkisomd5 ["--verbose"; livedev e].

(** Lines 42 to 61 of the script. *)
Definition mediaCheck (e : MediaCheckEnv) : list command * ending :=
  if nonEmpty (checkAfterGetarg e) then
    let hide := if havePlymouth e then [PlymouthHideSplash] else [] in
    let run := [verifyCommand e] in
    if (verifyStatus e =? 1)%Z then
      ((hide ++ run)%list, Dies "CD check failed!")
    else
      let show := if havePlymouth e then [PlymouthShowSplash] else [] in
      ((hide ++ run ++ show)%list, GoesOn)
  else ([], GoesOn).

(** ** The temporary overlay of [do_live_overlay] *)

(** Arithmetic expansion [$(( ))] computes in signed 64-bit integers and
    wraps around silently. *)
Definition wrap64 (z : Z) : Z := ((z + 2 ^ 63) mod 2 ^ 64 - 2 ^ 63)%Z.

Definition shellMul (a b : Z) : Z := wrap64 (a * b).

(** What arithmetic expansion makes of an expression: a value, or an
    error, on which the shell gives up the command it is executing (here the
    [if] at the top level of the script that calls [do_live_overlay]) and
    goes on with the next one. *)
Inductive arith : Type :=
| Value (n : Z)
| ArithError.

(** The value of a character as a digit of a constant in a base of at most
    36: the letters count from 10 in either case, [@] is 62 and [_] is
    63. *)
Definition digitValue (c : ascii) : Z :=
  let n := Z.of_N (N_of_ascii c) in
  if ((48 <=? n) && (n <=? 57))%Z then (n - 48)%Z
  else if ((97 <=? n) && (n <=? 122))%Z then (n - 97 + 10)%Z
  else if ((65 <=? n) && (n <=? 90))%Z then (n - 65 + 10)%Z
  else if (n =? 64)%Z then 62%Z
  else 63%Z.

Definition isDigit (c : ascii) : bool :=
  let n := Z.of_N (N_of_ascii c) in ((48 <=? n) && (n <=? 57))%Z.

(** The characters that go on a number: letters, digits, [@] and [_]
    (the [#] of [base#n] is left out, see [readConstant]). *)
Definition constantChar (c : ascii) : bool :=
  let n := Z.of_N (N_of_ascii c) in
  ((48 <=? n) && (n <=? 57) || (97 <=? n) && (n <=? 122)
   || (65 <=? n) && (n <=? 90) || (n =? 64) || (n =? 95))%Z.

Fixpoint constantChars (s : string) : bool :=
  match s with
  | EmptyString => true
  | String c s' => constantChar c && constantChars s'
  end.

(** The loop of the shell's number reader, [val = val * base + digit] in
    64 bits, with the error "value too great for base" for a digit the base
    does not have. *)
Fixpoint readDigits (base val : Z) (s : string) : arith :=
  match s with
  | EmptyString => Value val
  | String c s' =>
    if (base <=? digitValue c)%Z then ArithError
    else readDigits base (wrap64 (val * base + digitValue c)) s'
  end.

(** How arithmetic expansion reads a variable whose word is one integer
    constant: a word that starts with a digit and is made of letters,
    digits, [@] and [_].  A leading [0] makes it octal, a leading [0x] or
    [0X] hexadecimal.  For any other word (an expression with operators or
    blanks, a name, [base#n], the empty word, and the bare prefix [0x],
    which versions of the shell read differently) no answer is given
    here. *)
Definition readConstant (word : string) : option arith :=
  match word with
  | EmptyString => None
  | String c rest =>
    if isDigit c && constantChars rest then
      if Ascii.eqb c "0" then
        match rest with
        | EmptyString => Some (Value 0)
        | String x rest' =>
          if Ascii.eqb x "x" || Ascii.eqb x "X" then
            match rest' with
            | EmptyString => None
            | _ => Some (readDigits 16 0 rest')
            end
          else Some (readDigits 8 0 rest)
        end
      else Some (readDigits 10 0 word)
    else None
  end.

(** [overlay_size=$(getarg rd.live.overlay.size=)] followed by
    [[ -z "$overlay_size" ] && overlay_size=32768]: the variable holds the
    word of the argument, as it was written, and [32768] when there is
    none. *)
Definition overlay_size (arg : string) : string :=
  if String.eqb arg "" then "32768" else arg.

(** [$((overlay_size * 1024))]. *)
Definition overlaySeek (arg : string) : option arith :=
  match readConstant (overlay_size arg) with
  | Some (Value n) => Some (Value (shellMul n 1024))
  | Some ArithError => Some ArithError
  | None => None
  end.

(** The largest file offset. *)
Definition OFF_T_MAX : Z := (2 ^ 63 - 1)%Z.

(** [dd if=/dev/null of=F bs=B count=1 seek=K]: nothing is read, and the
    output is cut or extended to [K] blocks of [B] bytes; [dd] refuses a
    negative [K] and an offset that does not fit a file offset. *)
Definition ddApparentSize (bs seek : Z) : option Z :=
  if ((0 <=? seek) && (seek * bs <=? OFF_T_MAX))%Z
  then Some (seek * bs)%Z
  else None.

Record OverlayVars : Type := {
  setup : string;
  readonly_overlay : string;
  overlayfs : string;
  sizeArg : string           (* what getarg rd.live.overlay.size= prints *)
}.

(** The binary operators of the shell's [test] command. *)
Definition testBinop (s : string) : bool :=
  existsb (String.eqb s)
          ["="; "=="; "!="; "<"; ">"; "-nt"; "-ot"; "-lt"; "-gt"; "-eq";
           "-ef"; "-ne"; "-ge"; "-le"].

(** The test [-z "$setup" -o -n "$readonly_overlay"]: with more than four
    words [test] parses an expression, in which a word followed by a binary
    operator is read as a comparison.  So when [$setup] is such an operator
    the words are [-z] compared with [-o], with [-n] and one more word left
    over: a syntax error, and the test does not hold. *)
Definition wantsTemporaryStore (v : OverlayVars) : bool :=
  if testBinop (setup v) then false
  else negb (nonEmpty (setup v)) || nonEmpty (readonly_overlay v).

(** What a part of the script did: it ran its commands, or it ran some and
    the shell then gave up on an arithmetic error. *)
Inductive progress : Type :=
| Ran (cs : list command)
| GaveUp (cs : list command).

Definition commandsOf (p : option progress) : list command :=
  match p with
  | Some (Ran cs) | Some (GaveUp cs) => cs
  | None => []
  end.

(** The branch [if [ -z "$setup" -o -n "$readonly_overlay" ]] of
    [do_live_overlay], from the allocation of the temporary store on
    (marker 3.2): the commands run; no answer where [readConstant] gives
    none. *)
Definition allocateTemporaryStore (v : OverlayVars) : option progress :=
  if wantsTemporaryStore v then
    if nonEmpty (overlayfs v) then
      Some (Ran [Mkdir "/run/overlayfs"; Mkdir "/run/ovlwork"])
    else
      match overlaySeek (sizeArg v) with
      | Some (Value seek) =>
        Some (Ran [DdSparse "/overlay" 1024 seek; Losetup "/overlay"])
      | Some ArithError => Some (GaveUp [])
      | None => None
      end
  else Some (Ran []).

(** The apparent size of [/overlay] after the [dd] of the branch, if it
    runs and makes the file. *)
Definition overlayFileSize (arg : string) : option Z :=
  match overlaySeek arg with
  | Some (Value seek) => ddApparentSize 1024 seek
  | _ => None
  end.

(** The apparent size a list of commands leaves a file with, if one of
    them creates it. *)
Fixpoint apparentSizeAfter (file : string) (cs : list command) : option Z :=
  match cs with
  | [] => None
  | DdSparse output bs seek :: rest =>
    if String.eqb output file then ddApparentSize bs seek
    else apparentSizeAfter file rest
  | _ :: rest => apparentSizeAfter file rest
  end.

End LiveRoot.

(* ================================================================== *)
(** * Further functions of [customizeverity.go] *)
(* ================================================================== *)

(** [strings.TrimPrefix(s, prefix)]. *)
Definition TrimPrefix (s prefix : string) : string :=
  if strings.HasPrefix s prefix
  then substring (String.length prefix)
                 (String.length s - String.length prefix) s
  else s.

(** [safechroot.Chroot], of which the sources use the root directory on the
    host ([RootDir()]) and [Run]. *)
Record Chroot : Type := { RootDir : string }.

(** [lines[i] = v] on a slice. *)
Fixpoint setIndex (i : nat) (v : string) (lines : list string) : list string :=
  match lines, i with
  | [], _ => []
  | _ :: rest, O => v :: rest
  | l :: rest, Datatypes.S i' => l :: setIndex i' v rest
  end.

(** The loop of [updateMarinerCfgWithInitramfs]: [range] walks the elements
    of the slice while [lines[i]] is assigned. *)
Fixpoint updateInitrdFrom (newInitramfs : string) (i : nat)
         (rest lines : list string) : list string :=
  match rest with
  | [] => lines
  | line :: rest' =>
    let lines :=
      if strings.HasPrefix line "mariner_initrd="
      then setIndex i ("mariner_initrd=" ++ newInitramfs) lines
      else lines in
    updateInitrdFrom newInitramfs (Datatypes.S i) rest' lines
  end.

Definition updateInitrdLines (newInitramfs : string) (lines : list string)
  : list string :=
  updateInitrdFrom newInitramfs 0 lines lines.

Section VerityDracut.

Variable lib : PathLib.
Variable oracle : Oracle.

(** [imageChroot.Run(f)]: package [safechroot] is not among the sources,
    and how it runs the work it is handed is left open. *)
Variable chrootRun : forall S : Type, Chroot -> M S unit -> M S unit.

(** The closure [listKernels] of [buildDracutModule]. *)
Definition listKernels {S : Type} (imageChroot : Chroot) : M S (list string) :=
  let bootDir := Join lib [RootDir imageChroot; "boot"] in
  files <- callR oracle (FilepathGlob (Join lib [bootDir; "vmlinuz-*"])) ;;
  ret (map (Base lib) files).

(** [buildDracutModule]. *)
Definition buildDracutModule {S : Type} (dracutModuleName : string)
           (imageChroot : Chroot) : M S unit :=
  kernelFiles <- wrapErr (fun e => "failed to list kernels: " ++ e)
                         (listKernels imageChroot) ;;
  if (List.length kernelFiles =? 0)%nat then
    fail "no kernels found in chroot environment"
  else if (1 <? List.length kernelFiles)%nat then
    fail "multiple kernels found in chroot environment, expected only one"
  else
    let kernelVersion := TrimPrefix (nth 0 kernelFiles "") "vmlinuz-" in
    wrapErr (fun e => "failed to build dracut module - (" ++ dracutModuleName
                      ++ "):" ++ String "010" e)
            (chrootRun S imageChroot
               (callE oracle
                  (ShellExecuteLiveWithErr 1 "dracut"
                     ["-f"; "--kver"; kernelVersion; "-a"; dracutModuleName]))).

(** [updateMarinerCfgWithInitramfs]. *)
Definition updateMarinerCfgWithInitramfs {S : Type} (imageChroot : Chroot)
  : M S unit :=
  let initramfsPath := Join lib [RootDir imageChroot; "boot/initramfs-*"] in
  initramfsFiles <-
    wrapErr (fun e => "failed to list initramfs file: " ++ e)
            (callR oracle (FilepathGlob initramfsPath)) ;;
  if negb (List.length initramfsFiles =? 1)%nat then
    fail ("expected one initramfs file, but found "
          ++ itoa (List.length initramfsFiles))
  else
    let newInitramfs := Base lib (nth 0 initramfsFiles "") in
    let cfgPath := Join lib [RootDir imageChroot; "boot/mariner.cfg"] in
    lines <- wrapErr (fun e => "failed to read mariner.cfg: " ++ e)
                     (callR oracle (FileReadLines cfgPath)) ;;
    let lines := updateInitrdLines newInitramfs lines in
    wrapErr (fun e => "failed to write to mariner.cfg: " ++ e)
            (callE oracle (FileWriteLines lines cfgPath)).

(** [enableVerityPartition]. *)
Definition enableVerityPartition {S : Type} (imageChroot : Chroot) : M S unit :=
  let systemdVerityDracutModule := "systemd-veritysetup" in
  buildDracutModule systemdVerityDracutModule imageChroot ;;
  updateMarinerCfgWithInitramfs imageChroot.

End VerityDracut.

(* ================================================================== *)
(** * Further parts of [dmsquash-live-root.sh] *)
(* ================================================================== *)

Module LiveOverlay.

Definition isEmpty (s : string) : bool := String.eqb s "".

(** ** The overlay specification of [do_live_overlay] *)

(** [strstr "$overlay" ":"]: the string holds a colon. *)
Fixpoint hasColon (s : string) : bool :=
  match s with
  | EmptyString => false
  | String c s' => Ascii.eqb c ":" || hasColon s'
  end.

(** [${overlay%%:*}]: the longest suffix that starts with a colon is
    removed, which leaves what stands before the first colon; a string
    without colon is left as it is. *)
Fixpoint beforeFirstColon (s : string) : string :=
  match s with
  | EmptyString => EmptyString
  | String c s' =>
    if Ascii.eqb c ":" then EmptyString else String c (beforeFirstColon s')
  end.

(** [${overlay##*:}]: the longest prefix that ends with a colon is
    removed, which leaves what stands after the last colon; a string
    without colon is left as it is. *)
Fixpoint afterLastColon (s : string) : string :=
  match s with
  | EmptyString => EmptyString
  | String c s' =>
    if hasColon s' then afterLastColon s'
    else if Ascii.eqb c ":" then s' else String c s'
  end.

Record SpecVars : Type := {
  live_dir : string;
  label : string;            (* l=$(blkid -s LABEL -o value "$livedev") || l="" *)
  uuid : string;             (* u=$(blkid -s UUID -o value "$livedev") || u="" *)
  overlay : string;
  pathspec0 : string;        (* $pathspec when the function is entered *)
  setup0 : string            (* $setup when the function is entered *)
}.

(** ["/${live_dir}/overlay-$l-$u"]. *)
Definition defaultPathspec (v : SpecVars) : string :=
  "/" ++ live_dir v ++ "/overlay-" ++ label v ++ "-" ++ uuid v.

(** [$pathspec] after the two [if] statements on it. *)
Definition pathspec (v : SpecVars) : string :=
  let pathspec :=
    if isEmpty (overlay v) then defaultPathspec v
    else if hasColon (overlay v) then afterLastColon (overlay v)
    else pathspec0 v in
  if isEmpty pathspec || String.eqb pathspec "auto"
  then defaultPathspec v
  else pathspec.

(** [devspec=${overlay%%:*}]. *)
Definition devspec (v : SpecVars) : string := beforeFirstColon (overlay v).

(** The exit status of a [test] command: it holds, it does not, or the
    words are no expression (status 2). *)
Inductive testStatus : Type :=
| Holds
| Fails
| SyntaxError.

(** The test
    [-z "$setup" -a -n "$devspec" -a -n "$pathspec" -a -n "$overlay"]
    in front of the search for a persistent overlay.  With eleven words
    [test] parses an expression term by term, and a term whose second word
    is a binary operator, with two more words behind it, is read as a
    comparison: when [$setup], [$devspec] or [$pathspec] is such an
    operator, [-z] or [-n] is compared with [-a] and the words behind are
    left over, which is a syntax error.  The last term has too few words
    for a comparison. *)
Definition persistentOverlayTest (v : SpecVars) : testStatus :=
  if LiveRoot.testBinop (setup0 v) || LiveRoot.testBinop (devspec v)
     || LiveRoot.testBinop (pathspec v)
  then SyntaxError
  else if isEmpty (setup0 v) && negb (isEmpty (devspec v))
          && negb (isEmpty (pathspec v)) && negb (isEmpty (overlay v))
  then Holds
  else Fails.

(** The [if] on that test: its branch is entered when the test holds. *)
Definition looksForPersistentOverlay (v : SpecVars) : bool :=
  match persistentOverlayTest v with
  | Holds => true
  | _ => false
  end.

(** ** The thin-pool sizes of [do_live_overlay] *)

(** [/] of arithmetic expansion, for a divisor that is not zero: the
    quotient is cut towards zero. *)
Definition shellDiv (a b : Z) : Z := LiveRoot.wrap64 (Z.quot a b).

(** [thin_data_sz=$((overlay_size * 1024 * 1024 / 512))], with the word of
    [$overlay_size] read as [LiveRoot.readConstant] says. *)
Definition thin_data_sz (arg : string) : option LiveRoot.arith :=
  match LiveRoot.readConstant (LiveRoot.overlay_size arg) with
  | Some (LiveRoot.Value n) =>
    Some (LiveRoot.Value
            (shellDiv (LiveRoot.shellMul (LiveRoot.shellMul n 1024) 1024)
                      512))
  | Some LiveRoot.ArithError => Some LiveRoot.ArithError
  | None => None
  end.

(** [thin_meta_sz=$((thin_data_sz / 10))]. *)
Definition thin_meta_sz (arg : string) : option LiveRoot.arith :=
  match thin_data_sz arg with
  | Some (LiveRoot.Value d) => Some (LiveRoot.Value (shellDiv d 10))
  | r => r
  end.

(** The apparent size [dd ... bs=1b count=1 seek=N] gives a file, where
    [1b] is one block of 512 bytes, if the size could be computed. *)
Definition thinFileSize (blocks : option LiveRoot.arith) : option Z :=
  match blocks with
  | Some (LiveRoot.Value n) => LiveRoot.ddApparentSize 512 n
  | _ => None
  end.

Definition thinMetaFileSize (arg : string) : option Z :=
  thinFileSize (thin_meta_sz arg).

Definition thinDataFileSize (arg : string) : option Z :=
  thinFileSize (thin_data_sz arg).

(** ** Read-write or overlay: the decision in front of [do_live_overlay] *)

Record RwVars : Type := {
  SQUASHED : string;
  live_ram : string;
  overlayfs : string;
  writable_fsimg : string;
  rwOverlay : string;        (* $overlay *)
  readonly_overlay : string;
  rwSetup0 : string          (* $setup in front of the decision *)
}.

(** The condition of the [if] under "For writable DM images": three
    [test] commands joined by [||].  The first has eight words and is parsed
    as an expression; were [$SQUASHED] or [$live_ram] a binary operator of
    [test], its term would be read as a comparison and the words behind left
    over, a syntax error, on which the next command is tried. *)
Definition writableImage (v : RwVars) : bool :=
  (if LiveRoot.testBinop (SQUASHED v) || LiveRoot.testBinop (live_ram v)
   then false
   else isEmpty (SQUASHED v) && negb (isEmpty (live_ram v))
        && isEmpty (overlayfs v))
  || negb (isEmpty (writable_fsimg v))
  || (String.eqb (rwOverlay v) "none" || String.eqb (rwOverlay v) "None"
      || String.eqb (rwOverlay v) "NONE").

(** [$opt] and [$setup] after [opt=-r] and the [if]. *)
Definition optAndSetup (v : RwVars) : string * string :=
  if writableImage v then
    if isEmpty (readonly_overlay v) then ("", "rw") else ("-r", "yes")
  else ("-r", rwSetup0 v).

(** How the base image is put under the root: [dmsetup create live-rw]
    with a linear table straight on the base loop device, or
    [do_live_overlay]. *)
Inductive rootDevice : Type :=
| LinearLiveRw
| DoLiveOverlay.

Definition rootDeviceFor (v : RwVars) : rootDevice :=
  if String.eqb (snd (optAndSetup v)) "rw" then LinearLiveRw
  else DoLiveOverlay.

(** ** Loading the overlay driver in [do_live_overlay] *)

Record DriverVars : Type := {
  drvOverlayfs : string;     (* $overlayfs *)
  drvSetup : string;         (* $setup *)
  drvSystemd : string;       (* $DRACUT_SYSTEMD *)
  drvReload : string;        (* $reloadsysrootmountunit *)
  drvMessage : string;       (* $m *)
  modprobeOverlay : bool     (* modprobe overlay succeeds *)
}.

(** The fragment [if [ -n "$overlayfs" ]; then if ! modprobe overlay; ...]:
    how it ends and the variables it leaves; [modprobe] is run exactly when
    [$overlayfs] is not empty. *)
Definition loadOverlayDriver (v : DriverVars) : LiveRoot.ending * DriverVars :=
  if negb (isEmpty (drvOverlayfs v)) then
    if negb (modprobeOverlay v) then
      if String.eqb (drvOverlayfs v) "required" then
        (LiveRoot.Dies "OverlayFS is required but not available.", v)
      else
        (LiveRoot.GoesOn,
         {| drvOverlayfs := "";
            drvSetup := "";
            drvSystemd := drvSystemd v;
            drvReload := if negb (isEmpty (drvSystemd v))
                         then ":>/xor_overlayfs;" else drvReload v;
            drvMessage :=
              "OverlayFS is not available; using temporary Device-mapper overlay.";
            modprobeOverlay := modprobeOverlay v |})
    else (LiveRoot.GoesOn, v)
  else (LiveRoot.GoesOn, v).

End LiveOverlay.

(** ** The backing of the live image *)

Module LiveBacking.

(** [ro | rw) liverw=$arg] in the loop over the words of [$CMDLINE]. *)
Definition isRoRw (arg : string) : bool :=
  String.eqb arg "ro" || String.eqb arg "rw".

Fixpoint liverwFrom (liverw : string) (words : list string) : string :=
  match words with
  | [] => liverw
  | arg :: rest => liverwFrom (if isRoRw arg then arg else liverw) rest
  end.

(** [${liverw:-ro}]. *)
Definition liverwOrRo (liverw : string) : string :=
  if String.eqb liverw "" then "ro" else liverw.

Record Env : Type := {
  livedev : string;
  isRegularFile : bool;      (* [ -f "$livedev" ] *)
  imageFsType : string;      (* det_img_fs "$livedev" *)
  deviceFsType : string;     (* blkid -o value -s TYPE "$livedev" *)
  fstype0 : string;          (* $fstype when the fragment is entered *)
  liverw0 : string;          (* $liverw when the fragment is entered *)
  cmdline : list string;     (* the words of $CMDLINE *)
  sysFsKnown : bool;         (* [ -e /sys/fs/"$fstype" ] *)
  mountSucceeds : bool;
  haveNtfs3g : bool;         (* [ -x "/usr/bin/ntfs-3g" ] *)
  SQUASHED0 : string;
  FSIMG0 : string
}.

Inductive command : Type :=
| Modprobe (module : string)
| Mkdir (dir : string)
| Mount (fstype options device dir : string)
| Ntfs3g (options device dir : string).

Record Vars : Type := {
  fstype : string;
  SQUASHED : string;
  FSIMG : string
}.

(** From [modprobe squashfs] to the end of the [if] on [-f "$livedev"]:
    the commands run, how the fragment ends, and the three variables. *)
Definition mountBacking (e : Env) : list command * LiveRoot.ending * Vars :=
  let liverw := liverwFrom (liverw0 e) (cmdline e) in
  let first := [Modprobe "squashfs"; Mkdir "/run/initramfs/live"] in
  if isRegularFile e then
    let fstype := imageFsType e in
    let load := if sysFsKnown e then [] else [Modprobe fstype] in
    if String.eqb fstype "squashfs" then
      ((first ++ load)%list, LiveRoot.GoesOn,
       {| fstype := fstype; SQUASHED := livedev e; FSIMG := FSIMG0 e |})
    else if String.eqb fstype "auto" then
      (first,
       LiveRoot.Dies "cannot mount live image (unknown filesystem type)",
       {| fstype := fstype; SQUASHED := SQUASHED0 e; FSIMG := FSIMG0 e |})
    else
      ((first ++ load)%list, LiveRoot.GoesOn,
       {| fstype := fstype; SQUASHED := SQUASHED0 e; FSIMG := livedev e |})
  else
    let unchanged :=
      {| fstype := fstype0 e; SQUASHED := SQUASHED0 e; FSIMG := FSIMG0 e |} in
    if String.eqb (deviceFsType e) "squashfs" then
      (first, LiveRoot.GoesOn,
       {| fstype := fstype0 e; SQUASHED := livedev e; FSIMG := FSIMG0 e |})
    else if negb (String.eqb (deviceFsType e) "ntfs") then
      ((first ++ [Mount (fstype0 e) (liverwOrRo liverw) (livedev e)
                        "/run/initramfs/live"])%list,
       if mountSucceeds e then LiveRoot.GoesOn
       else LiveRoot.Dies "Failed to mount block device of live image",
       unchanged)
    else if haveNtfs3g e then
      ((first ++ [Ntfs3g (liverwOrRo liverw) (livedev e)
                         "/run/initramfs/live"])%list,
       LiveRoot.GoesOn, unchanged)
    else
      (first,
       LiveRoot.Dies
         "Failed to mount block device of live image: Missing NTFS support",
       unchanged).

End LiveBacking.

(* ================================================================== *)
(** * The earlier validator of [customizeverity.go] *)
(* ================================================================== *)

(** The second half of [customizeverity.go] holds an earlier version of the
    orchestrator.  Its validator reads three fields of
    [config.SystemConfig]; its [validateScript] has the text of the later
    one. *)

Module Earlier.

Record SystemConfig : Type := {
  AdditionalFiles : AdditionalFilesMap;
  PostInstallScripts : list Script;
  FinalizeImageScripts : list Script
}.

Record Config : Type := { SystemConfig_ : SystemConfig }.

Section Validator.

Variable lib : PathLib.
Variable oracle : Oracle.

(** The first loop of [validateSystemConfig]: it returns from inside the
    loop at the first source that cannot be examined or is not a file. *)
Fixpoint validateAdditionalFilesIn {S : Type} (baseConfigPath : string)
         (additionalFiles : AdditionalFilesMap) : M S unit :=
  match additionalFiles with
  | [] => ret tt
  | (sourceFile, _) :: rest =>
    let sourceFileFullPath := Join lib [baseConfigPath; sourceFile] in
    '(isFile, err) <- call oracle (FileIsFile sourceFileFullPath) ;;
    match err with
    | Some e =>
      fail ("invalid AdditionalFiles source file (" ++ sourceFile ++ "):"
            ++ String "010" e)
    | None =>
      if negb isFile then
        fail ("invalid AdditionalFiles source file (" ++ sourceFile
              ++ "): not a file")
      else validateAdditionalFilesIn baseConfigPath rest
    end
  end.

(** [validateSystemConfig]. *)
Definition validateSystemConfig {S : Type} (baseConfigPath : string)
           (config : SystemConfig) : M S unit :=
  validateAdditionalFilesIn baseConfigPath (AdditionalFiles config) ;;
  forRange (fun i script =>
              wrapErr (fun e => "invalid PostInstallScripts item at index "
                                ++ itoa i ++ ": " ++ e)
                      (validateScript lib oracle baseConfigPath script))
           0 (PostInstallScripts config) ;;
  forRange (fun i script =>
              wrapErr (fun e => "invalid FinalizeImageScripts item at index "
                                ++ itoa i ++ ": " ++ e)
                      (validateScript lib oracle baseConfigPath script))
           0 (FinalizeImageScripts config).

(** [validateConfig]. *)
Definition validateConfig {S : Type} (baseConfigPath : string)
           (config : Config) : M S unit :=
  validateSystemConfig baseConfigPath (SystemConfig_ config).

End Validator.

End Earlier.

(* ================================================================== *)
(** * Vocabulary of the properties *)
(* ================================================================== *)

Definition supportedFormats : list string := ["vhd"; "vhdx"; "raw"; "qcow2"].

(** The field of a partition an identifier type selects. *)
Definition idField (idType : IdType) (p : diskutils.PartitionInfo)
  : option string :=
  if String.eqb idType IdTypePartlabel then Some (diskutils.PartLabel p)
  else if String.eqb idType IdTypeUuid then Some (diskutils.Uuid p)
  else if String.eqb idType IdTypePartuuid then Some (diskutils.PartUuid p)
  else None.

Definition supportedIdType (idType : IdType) : bool :=
  String.eqb idType IdTypePartlabel || String.eqb idType IdTypeUuid
  || String.eqb idType IdTypePartuuid.

Definition matchesId (idType : IdType) (id : string)
           (p : diskutils.PartitionInfo) : bool :=
  match idField idType p with
  | Some v => String.eqb v id
  | None => false
  end.

(** What the two [if] statements of the loop make of one line. *)
Definition patchLine (newArgs line : string) : string :=
  let trimmedLine := strings.TrimSpace line in
  let appended :=
    if strings.HasPrefix trimmedLine "linux "
    then line ++ " " ++ newArgs else line in
  if strings.HasPrefix trimmedLine "set rootdevice=PARTUUID="
  then "set rootdevice=/dev/mapper/root" else appended.

(** The three things that can happen to a line, as the code decides them
    (on the text with white space removed at both ends). *)
Inductive lineOutcome (newArgs line : string) : string -> Prop :=
| LinuxLine :
    strings.HasPrefix (strings.TrimSpace line) "linux " = true ->
    lineOutcome newArgs line (line ++ " " ++ newArgs)
| RootDeviceLine :
    strings.HasPrefix (strings.TrimSpace line) "set rootdevice=PARTUUID=" = true ->
    lineOutcome newArgs line "set rootdevice=/dev/mapper/root"
| OtherLine :
    strings.HasPrefix (strings.TrimSpace line) "linux " = false ->
    strings.HasPrefix (strings.TrimSpace line) "set rootdevice=PARTUUID=" = false ->
    lineOutcome newArgs line line.

(** The claim as the specification words it: the [linux] lines are those
    whose text with only the leading white space removed starts with
    [linux ]. *)
Inductive claimedLineOutcome (newArgs line : string) : string -> Prop :=
| ClaimedLinuxLine :
    strings.HasPrefix (strings.TrimLeftSpace line) "linux " = true ->
    claimedLineOutcome newArgs line (line ++ " " ++ newArgs)
| ClaimedRootDeviceLine :
    strings.HasPrefix (strings.TrimSpace line) "set rootdevice=PARTUUID=" = true ->
    claimedLineOutcome newArgs line "set rootdevice=/dev/mapper/root"
| ClaimedOtherLine :
    strings.HasPrefix (strings.TrimLeftSpace line) "linux " = false ->
    strings.HasPrefix (strings.TrimSpace line) "set rootdevice=PARTUUID=" = false ->
    claimedLineOutcome newArgs line line.

Definition exampleArgs : string :=
  verityArgs "9f8e7d" "PARTUUID=1111" "PARTLABEL=roothash".

(** ** Sample answers of the outside world *)

Definition espPartition : diskutils.PartitionInfo :=
  {| diskutils.Path := "/dev/nbd0p1"; diskutils.FileSystemType := "vfat";
     diskutils.Uuid := "ABCD-1234"; diskutils.PartUuid := "0000";
     diskutils.PartLabel := "esp"; diskutils.PartitionNumber := 1 |}.

Definition rootPartition : diskutils.PartitionInfo :=
  {| diskutils.Path := "/dev/nbd0p2"; diskutils.FileSystemType := "ext4";
     diskutils.Uuid := "u-root"; diskutils.PartUuid := "1111";
     diskutils.PartLabel := "root"; diskutils.PartitionNumber := 2 |}.

Definition hashPartition : diskutils.PartitionInfo :=
  {| diskutils.Path := "/dev/nbd0p3"; diskutils.FileSystemType := "";
     diskutils.Uuid := ""; diskutils.PartUuid := "2222";
     diskutils.PartLabel := "roothash"; diskutils.PartitionNumber := 3 |}.

Definition examplePartitions : list diskutils.PartitionInfo :=
  [espPartition; rootPartition; hashPartition].

(** The last element of a path and what is in front of it, for paths
    without a slash at the end. *)
Fixpoint splitLast (rpath : list ascii) (acc : list ascii)
  : list ascii * list ascii :=
  match rpath with
  | [] => ([], acc)
  | c :: rest =>
    if Ascii.eqb c "/" then (rev rest, acc) else splitLast rest (c :: acc)
  end.

Definition sampleBase (path : string) : string :=
  string_of_list_ascii (snd (splitLast (rev (list_ascii_of_string path)) [])).

Definition sampleDir (path : string) : string :=
  string_of_list_ascii (fst (splitLast (rev (list_ascii_of_string path)) [])).

(** Every call succeeds; the answers are fixed. *)
Definition successOracle : Oracle :=
  fun _ R o =>
    match o in op R return R with
    | ConfigIsValid _ => None
    | FileIsFile _ => (true, None)
    | FileReadLines _ => Ok []
    | FileWriteLines _ _ => None
    | FileRemoveFileIfExists _ => None
    | OsStat _ => StatOk 493%N
    | OsMkdirAll _ _ => None
    | IoutilTempDir dir pattern => Ok (dir ++ "/" ++ pattern ++ "1")
    | FilepathAbs path => Ok path
    | FilepathGlob _ => Ok []
    | ShellExecute _ _ => ("", "", None)
    | ShellExecuteLiveWithErr _ _ _ => None
    | GetDiskPartitions _ => Ok []
    | NewLoopback _ => Ok {| DevicePath := "/dev/loop0" |}
    | LoopbackClose _ => tt
    | LoopbackCleanClose _ => None
    | NewMount _ _ _ _ _ _ => Ok (MountRef 0)
    | MountClose _ => tt
    | MountCleanClose _ => None
    | CollectPackagesList _ _ inline => Ok inline
    | CustomizePartitions _ _ _ rawImageFile => Ok (false, rawImageFile)
    | ConnectToExistingImage _ _ _ _ => Ok (ImageConnectionRef 0)
    | DoCustomizations _ _ _ _ _ _ _ => None
    | ImageConnectionClose _ => tt
    | ImageConnectionCleanClose _ => None
    | ShrinkFilesystems _ => None
    | ExtractPartitions _ _ _ _ => None
    | CheckFileSystems _ => None
    | FindSystemBootPartition _ => Ok espPartition
    | FindBootPartitionFromEsp esp _ _ => Ok esp
    | CopyIsoImageContentsToFolder _ _ _ => None
    | IsoBuilderFromFolder _ _ => Ok (LiveOSIsoBuilderRef 0)
    | CreateWriteableImageFromSquashfs _ _ _ => None
    | CreateLiveOSIsoImage _ _ _ _ _ _ => None
    | RecreateLiveOSIsoImage _ _ _ _ _ => None
    end.

(** A plain rendering of the path functions, for the samples. *)
Definition sampleLib : PathLib :=
  {| Join := fun elems => String.concat "/" elems;
     Base := sampleBase;
     Dir := sampleDir;
     IsLocal := fun _ => true;
     GetAbsPathWithBase := fun base path => base ++ "/" ++ path |}.

Definition exampleGrubCfg : list string :=
  ["set rootdevice=PARTUUID=XXXX";
   "menuentry one {";
   "    linux /boot/vmlinuz root=$rootdevice ro";
   "}";
   String "009" "linux /boot/vmlinuz-rescue ro  "].

(** The sample world in which [grub.cfg] holds [exampleGrubCfg]. *)
Definition grubOracle : Oracle :=
  fun t R o =>
    match o in op R return R with
    | FileReadLines _ => Ok exampleGrubCfg
    | o' => successOracle t _ o'
    end.

(** ** Words for the root-hash pattern *)

Fixpoint allChars (p : ascii -> bool) (s : string) : bool :=
  match s with
  | EmptyString => true
  | String c s' => p c && allChars p s'
  end.

Definition startsWith (p : ascii -> bool) (s : string) : bool :=
  match s with
  | EmptyString => false
  | String c _ => p c
  end.

(** What is left of [s] after its longest prefix of characters in [p]. *)
Fixpoint spanRest (p : ascii -> bool) (s : string) : string :=
  match s with
  | EmptyString => EmptyString
  | String c s' => if p c then spanRest p s' else s
  end.

(** The longest prefix of [s] of characters in [p]. *)
Fixpoint spanRun (p : ascii -> bool) (s : string) : string :=
  match s with
  | EmptyString => EmptyString
  | String c s' => if p c then String c (spanRun p s') else EmptyString
  end.

(** The output [out] holds, after [pre], an occurrence of the pattern
    [Root hash:\s+([0-9a-fA-F]+)]: the literal, the white space [ws], the
    hexadecimal digits [h] of the group, and then [post]. *)
Definition rootHashOccurs (out pre ws h post : string) : Prop :=
  out = pre ++ "Root hash:" ++ ws ++ h ++ post
  /\ ws <> "" /\ allChars regexp.perlSpace ws = true
  /\ h <> "" /\ allChars regexp.hexDigit h = true.

(** The occurrence is the one a leftmost-first search reports: none starts
    earlier, and the digits of the group are not followed by a further
    digit. *)
Definition leftmostGreedy (out pre ws h post : string) : Prop :=
  rootHashOccurs out pre ws h post
  /\ startsWith regexp.hexDigit post = false
  /\ forall pre' ws' h' post',
      rootHashOccurs out pre' ws' h' post' ->
      (String.length pre <= String.length pre')%nat.

Definition nl : string := String "010" "".
Definition tab : string := String "009" "".

(** What [veritysetup format] prints, shortened. *)
Definition exampleVerityOutput : string :=
  "VERITY header information for /dev/nbd0p3" ++ nl
  ++ "Hash algorithm:" ++ tab ++ "sha256" ++ nl
  ++ "Root hash:" ++ tab ++ tab ++ "9f8e7d6c5b4a" ++ nl.

(** The sample world in which [veritysetup] prints [exampleVerityOutput]. *)
Definition verityOracle : Oracle :=
  fun t R o =>
    match o in op R return R with
    | ShellExecute _ _ => (exampleVerityOutput, "", None)
    | o' => successOracle t _ o'
    end.

Definition exampleVerity : Verity :=
  {| DataPartition := {| IdType_ := "partuuid"; Id := "1111" |};
     HashPartition := {| IdType_ := "partlabel"; Id := "roothash" |};
     BootPartition := {| IdType_ := "partlabel"; Id := "boot" |};
     VerityErrorBehavior := "" |}.

(** ** Words for runs of the Go functions *)

(** The computation leaves the object as it found it. *)
Definition frames {S A : Type} (m : M S A) : Prop :=
  forall s t, snd (fst (m s t)) = s.

(** The computation leaves the field [f] of the object as it found it. *)
Definition keeps {S A X : Type} (f : S -> X) (m : M S A) : Prop :=
  forall s t, f (snd (fst (m s t))) = f s.


(** Sample configurations. *)
Definition emptyPackages : Packages :=
  {| UpdateExistingPackages := false;
     InstallLists := []; Install := [];
     RemoveLists := []; Remove := [];
     UpdateLists := []; Update := [] |}.

Definition emptyOS : OS :=
  {| Packages_ := emptyPackages; AdditionalFiles := [];
     PostInstallScripts := []; FinalizeImageScripts := [];
     Verity_ := None |}.

(** Only an [os] section, with nothing in it. *)
Definition osOnlyConfig : Config :=
  {| Storage_ := None; Iso_ := None; OS_ := Some emptyOS |}.

(** Only a [storage] section. *)
Definition storageOnlyConfig : Config :=
  {| Storage_ := Some StorageSection; Iso_ := None; OS_ := None |}.

(** Only an [iso] section: neither [storage] nor [os]. *)
Definition isoOnlyConfig : Config :=
  {| Storage_ := None;
     Iso_ := Some {| IsoAdditionalFiles := [] |};
     OS_ := None |}.

(** A storage section and an empty [os] section. *)
Definition storageAndOSConfig : Config :=
  {| Storage_ := Some StorageSection; Iso_ := None; OS_ := Some emptyOS |}.

(** ** Words for the boot-time script *)

(** The media check applies, as the specification words it: the live device
    reports ISO9660 or UDF, or the check flag is set. *)
Definition checkAppliesAsClaimed (e : LiveRoot.MediaCheckEnv) : Prop :=
  LiveRoot.fsAfterProbe e = "iso9660" \/ LiveRoot.fsAfterProbe e = "udf"
  \/ LiveRoot.getargCheck e = true.

(** The claim on the media check, as stated: whenever the check applies, the
    splash is hidden, the verification command is run, and any non-zero
    status ends the boot with the message. *)
Definition mediaCheckAsClaimed (e : LiveRoot.MediaCheckEnv) : Prop :=
  checkAppliesAsClaimed e ->
  (LiveRoot.havePlymouth e = true ->
   In LiveRoot.PlymouthHideSplash (fst (LiveRoot.mediaCheck e)))
  /\ In (LiveRoot.verifyCommand e) (fst (LiveRoot.mediaCheck e))
  /\ (LiveRoot.verifyStatus e <> 0%Z ->
      snd (LiveRoot.mediaCheck e) = LiveRoot.Dies "CD check failed!").

(** The media check applies, as the script decides it: the check flag is
    set, and the live device is a block device that reports ISO9660 or UDF
    (or [$check] was not empty to begin with). *)
Definition checkApplies (e : LiveRoot.MediaCheckEnv) : Prop :=
  LiveRoot.getargCheck e = true
  /\ (LiveRoot.fsAfterProbe e = "iso9660" \/ LiveRoot.fsAfterProbe e = "udf"
      \/ LiveRoot.check0 e <> "").

(** An optical medium, without the check flag on the command line; the
    verification would fail. *)
Definition opticalNoFlag : LiveRoot.MediaCheckEnv :=
  {| LiveRoot.livedev := "/dev/sr0"; LiveRoot.isBlockDevice := true;
     LiveRoot.blkidType := "iso9660"; LiveRoot.fs0 := "";
     LiveRoot.check0 := ""; LiveRoot.getargCheck := false;
     LiveRoot.havePlymouth := true; LiveRoot.DRACUT_SYSTEMD := "1";
     LiveRoot.devUnitName := "dev-sr0"; LiveRoot.verifyStatus := 1%Z |}.

(** An optical medium with the check flag; the verification ends with
    status 2. *)
Definition opticalStatus2 : LiveRoot.MediaCheckEnv :=
  {| LiveRoot.livedev := "/dev/sr0"; LiveRoot.isBlockDevice := true;
     LiveRoot.blkidType := "iso9660"; LiveRoot.fs0 := "";
     LiveRoot.check0 := ""; LiveRoot.getargCheck := true;
     LiveRoot.havePlymouth := true; LiveRoot.DRACUT_SYSTEMD := "";
     LiveRoot.devUnitName := "dev-sr0"; LiveRoot.verifyStatus := 2%Z |}.

(** An optical medium with the check flag; the verification fails with
    status 1. *)
Definition opticalStatus1 : LiveRoot.MediaCheckEnv :=
  {| LiveRoot.livedev := "/dev/sr0"; LiveRoot.isBlockDevice := true;
     LiveRoot.blkidType := "iso9660"; LiveRoot.fs0 := "";
     LiveRoot.check0 := ""; LiveRoot.getargCheck := true;
     LiveRoot.havePlymouth := true; LiveRoot.DRACUT_SYSTEMD := "";
     LiveRoot.devUnitName := "dev-sr0"; LiveRoot.verifyStatus := 1%Z |}.

(** The variables with which [do_live_overlay] allocates a temporary
    DM-snapshot store: no persistent setup, no OverlayFS. *)
Definition temporarySnapshotVars (sizeArg : string) : LiveRoot.OverlayVars :=
  {| LiveRoot.setup := ""; LiveRoot.readonly_overlay := "";
     LiveRoot.overlayfs := ""; LiveRoot.sizeArg := sizeArg |}.

(** The claim on the overlay size, as stated, for a size of
    [overlaySizeMiB] written on the command line as [word]. *)
Definition overlaySizeAsClaimed (word : string) (overlaySizeMiB : Z) : Prop :=
  LiveRoot.apparentSizeAfter "/overlay"
    (LiveRoot.commandsOf
       (LiveRoot.allocateTemporaryStore (temporarySnapshotVars word)))
  = Some (overlaySizeMiB * 1024 * 1024)%Z.

(** A sample world for a whole verity run: one free NBD node, three
    partitions, the sample output of [veritysetup] and the sample
    [grub.cfg]. *)
Definition verityRunOracle : Oracle :=
  fun t R o =>
    match o in op R return R with
    | FilepathGlob _ => Ok ["/sys/class/block/nbd0"]
    | OsStat _ => StatErr true "no such file or directory"
    | GetDiskPartitions _ => Ok examplePartitions
    | ShellExecute _ _ => (exampleVerityOutput, "", None)
    | FileReadLines _ => Ok exampleGrubCfg
    | o' => successOracle t _ o'
    end.

Definition verityConfig : Config :=
  {| Storage_ := None; Iso_ := None;
     OS_ := Some {| Packages_ := emptyPackages; AdditionalFiles := [];
                    PostInstallScripts := []; FinalizeImageScripts := [];
                    Verity_ := Some exampleVerity |} |}.

(** ** Words for the further properties *)

(** What [updateMarinerCfgWithInitramfs] makes of one line. *)
Definition initrdLine (newInitramfs line : string) : string :=
  if strings.HasPrefix line "mariner_initrd="
  then "mariner_initrd=" ++ newInitramfs
  else line.

(** A [Chroot.Run] that just runs the work, for the samples. *)
Definition plainRun : forall S : Type, Chroot -> M S unit -> M S unit :=
  fun _ _ m => m.

(** The sample world with two kernels under [/boot]. *)
Definition twoKernelsOracle : Oracle :=
  fun t R o =>
    match o in op R return R with
    | FilepathGlob _ => Ok ["/root/boot/vmlinuz-5.15.1"; "/root/boot/vmlinuz-6.1.0"]
    | o' => successOracle t _ o'
    end.

(** The sample world with one initramfs file and a two-line
    [mariner.cfg]. *)
Definition oneInitramfsOracle : Oracle :=
  fun t R o =>
    match o in op R return R with
    | FilepathGlob _ => Ok ["/root/boot/initramfs-6.1.0.img"]
    | FileReadLines _ => Ok ["mariner_linux=vmlinuz-6.1.0";
                             "mariner_initrd=initrd.img-old"]
    | FileWriteLines _ _ => None
    | o' => successOracle t _ o'
    end.

(** [os.IsNotExist(err)] holds of what [os.Stat] answered. *)
Definition notExist (st : StatResult) : bool :=
  match st with
  | StatErr true _ => true
  | _ => false
  end.

(** The [os.Stat] calls of [findFreeNBDDevice] on the [pid] files of some
    nodes, with their answers. *)
Definition pidProbes (lib : PathLib) (probes : list (string * StatResult))
  : trace :=
  map (fun p => Call (OsStat (Join lib [fst p; "pid"])) (snd p)) probes.

(** The sample world with three NBD nodes of which the first two are in
    use. *)
Definition nbdOracle : Oracle :=
  fun t R o =>
    match o in op R return R with
    | FilepathGlob _ =>
      Ok ["/sys/class/block/nbd0"; "/sys/class/block/nbd1";
          "/sys/class/block/nbd2"]
    | OsStat path =>
      if String.eqb path "/sys/class/block/nbd0/pid" then StatOk 292%N
      else if String.eqb path "/sys/class/block/nbd1/pid"
           then StatErr false "permission denied"
           else StatErr true "no such file or directory"
    | o' => successOracle t _ o'
    end.

(** The sample world in which [grub.cfg] cannot be read. *)
Definition unreadableOracle : Oracle :=
  fun t R o =>
    match o in op R return R with
    | FileReadLines _ => Err "permission denied"
    | o' => successOracle t _ o'
    end.

(** The tags [systemdFormatPartitionId] can write in front of a value. *)
Definition systemdTags : list string := ["PARTLABEL"; "UUID"; "PARTUUID"].

(** Some execute bit (owner, group or other) is set in a file mode. *)
Definition anyExecBit (mode : N) : bool :=
  N.testbit mode 0 || N.testbit mode 3 || N.testbit mode 6.

(** [file.IsFile] answered that the path is a file, without error. *)
Definition plainFile (a : bool * option error) : bool :=
  match a with
  | (true, None) => true
  | _ => false
  end.

(** The [file.IsFile] calls of [validateAdditionalFiles] on the sources of
    a map, in the order of iteration, with their answers. *)
Definition isFileCalls (lib : PathLib) (baseConfigPath : string)
           (additionalFiles : AdditionalFilesMap)
           (answers : list (bool * option error)) : trace :=
  map (fun p => Call (FileIsFile (GetAbsPathWithBase lib baseConfigPath
                                    (fst (fst p)))) (snd p))
      (combine additionalFiles answers).

(** The output formats [initCommonParameters] lets through. *)
Definition acceptedOutputFormats : list string :=
  "" :: ImageFormatIso :: supportedFormats.

(** The computation only adds calls to the trace. *)
Definition grows {S A : Type} (m : M S A) : Prop :=
  forall s t, exists ext : trace, snd (m s t) = (t ++ ext)%list.

(** The sample world with the three example partitions on the NBD node, in
    which the hash partition asked for does not exist. *)
Definition missingHashConfig : Config :=
  {| Storage_ := None; Iso_ := None;
     OS_ := Some {| Packages_ := emptyPackages; AdditionalFiles := [];
                    PostInstallScripts := []; FinalizeImageScripts := [];
                    Verity_ := Some {| DataPartition :=
                                         {| IdType_ := "partuuid";
                                            Id := "1111" |};
                                       HashPartition :=
                                         {| IdType_ := "partlabel";
                                            Id := "nohash" |};
                                       BootPartition :=
                                         {| IdType_ := "partlabel";
                                            Id := "boot" |};
                                       VerityErrorBehavior := "" |} |} |}.

(** The working image [customizeOSContents] leaves behind, seen from where
    it starts: the file [customizePartitions] answered with when it was
    asked and did not fail, the file of the state otherwise. *)
Definition workingImageAfter (oracle : Oracle) (cp : CommonParameters)
           (t : trace) : string :=
  if customizeOSPartitions cp then
    match oracle t _ (CustomizePartitions (buildDirAbs cp) (configPath cp)
                        (config cp) (rawImageFile cp)) with
    | Ok (_, newRawImageFile) => newRawImageFile
    | Err _ => rawImageFile cp
    end
  else rawImageFile cp.

(** The two stages of [CustomizeImage] that run under its deferred
    clean-up, with the wrapping of their errors. *)
Definition customizeAndConvert (lib : PathLib) (oracle : Oracle)
  : M CommonParameters unit :=
  wrapErr (fun e => "failed to customize raw image:" ++ String "010" e)
          (customizeOSContents lib oracle) ;;
  wrapErr (fun e => "failed to convert customized raw image to output format:"
                    ++ String "010" e)
          (convertWriteableFormatToOutputImage oracle).

(** The sample world in which [customizePartitions] makes a new image
    file and the customization of the OS fails. *)
Definition repartitionOracle : Oracle :=
  fun t R o =>
    match o in op R return R with
    | CustomizePartitions _ _ _ _ => Ok (true, "/build/image2.raw")
    | DoCustomizations _ _ _ _ _ _ _ => Some "rpm failed"
    | FileRemoveFileIfExists _ => Some "busy"
    | o' => successOracle t _ o'
    end.

(** Sample values of the script's variables. *)
Definition sampleSpec : LiveOverlay.SpecVars :=
  {| LiveOverlay.live_dir := "LiveOS"; LiveOverlay.label := "live";
     LiveOverlay.uuid := "2024-01-01"; 
     LiveOverlay.overlay := "LABEL=data:x:/ovl";
     LiveOverlay.pathspec0 := ""; LiveOverlay.setup0 := "" |}.

Definition sampleRw : LiveOverlay.RwVars :=
  {| LiveOverlay.SQUASHED := "/run/initramfs/live/LiveOS/squashfs.img";
     LiveOverlay.live_ram := ""; LiveOverlay.overlayfs := "";
     LiveOverlay.writable_fsimg := ""; LiveOverlay.rwOverlay := "none";
     LiveOverlay.readonly_overlay := "--readonly";
     LiveOverlay.rwSetup0 := "" |}.

(** The sample world with one kernel under [/boot]. *)
Definition oneKernelOracle : Oracle :=
  fun t R o =>
    match o in op R return R with
    | FilepathGlob _ => Ok ["/root/boot/vmlinuz-6.1.0"]
    | o' => successOracle t _ o'
    end.

(** The [file.IsFile] calls of the earlier [validateSystemConfig] on the
    first sources of a map, as many as there are answers. *)
Definition joinedIsFileCalls (lib : PathLib) (baseConfigPath : string)
           (additionalFiles : AdditionalFilesMap)
           (answers : list (bool * option error)) : trace :=
  map (fun p => Call (FileIsFile (Join lib [baseConfigPath; fst (fst p)]))
                     (snd p))
      (combine additionalFiles answers).

(** The sample world in which the second source asked about is a
    directory. *)
Definition secondIsDirectoryOracle : Oracle :=
  fun t R o =>
    match o in op R return R with
    | FileIsFile path =>
      (negb (String.eqb path "/cfg/files/b"), None)
    | o' => successOracle t _ o'
    end.

(** The sample world in which the script [b.sh] is not executable (mode
    0644), and an [os] section with two post-install scripts. *)
Definition plainScriptOracle : Oracle :=
  fun t R o =>
    match o in op R return R with
    | OsStat path =>
      if String.eqb path "/cfg/b.sh" then StatOk 420%N else StatOk 493%N
    | o' => successOracle t _ o'
    end.

Definition twoScriptsOS : OS :=
  {| Packages_ := emptyPackages; AdditionalFiles := [];
     PostInstallScripts := [ {| Path := "a.sh" |}; {| Path := "b.sh" |} ];
     FinalizeImageScripts := [ {| Path := "a.sh" |} ];
     Verity_ := None |}.

(** Three additional files, for the two validators. *)
Definition threeFiles : AdditionalFilesMap :=
  [("files/a", ["/etc/a"]); ("files/b", ["/etc/b"]); ("files/c", ["/etc/c"])].

(** The option the backing is mounted with, as the command line says it:
    the last word [ro] or [rw] if there is one, else [$liverw] as it was,
    else [ro]. *)
Definition lastRoRw (e : LiveBacking.Env) : string :=
  match find LiveBacking.isRoRw (rev (LiveBacking.cmdline e)) with
  | Some w => w
  | None =>
    if String.eqb (LiveBacking.liverw0 e) "" then "ro"
    else LiveBacking.liverw0 e
  end.

(** A command mounts something. *)
Definition mounts (c : LiveBacking.command) : bool :=
  match c with
  | LiveBacking.Mount _ _ _ _ | LiveBacking.Ntfs3g _ _ _ => true
  | _ => false
  end.

Definition sampleBacking : LiveBacking.Env :=
  {| LiveBacking.livedev := "/dev/sr0"; LiveBacking.isRegularFile := false;
     LiveBacking.imageFsType := ""; LiveBacking.deviceFsType := "iso9660";
     LiveBacking.fstype0 := ""; LiveBacking.liverw0 := "";
     LiveBacking.cmdline := ["root=live:CDLABEL=live"; "rw"; "quiet"; "ro";
                             "rd.live.image"];
     LiveBacking.sysFsKnown := false; LiveBacking.mountSucceeds := true;
     LiveBacking.haveNtfs3g := false;
     LiveBacking.SQUASHED0 := ""; LiveBacking.FSIMG0 := "" |}.

(** An overlay specification whose device is the word [=]. *)
Definition equalsSpec : LiveOverlay.SpecVars :=
  {| LiveOverlay.live_dir := "LiveOS"; LiveOverlay.label := "live";
     LiveOverlay.uuid := "2024-01-01";
     LiveOverlay.overlay := "=:/x";
     LiveOverlay.pathspec0 := ""; LiveOverlay.setup0 := "" |}.





(* ================================================================== *)
(** * Properties *)
(* ================================================================== *)

(** ** Strings *)

Example TrimSpace_ascii :
  strings.TrimSpace (String "009" " linux /boot/vmlinuz ro  ")
  = "linux /boot/vmlinuz ro".
Proof. vm_compute. reflexivity. Qed.

(** A no-break space (bytes C2 A0) in front and an em space (E2 80 83)
    behind are white space for [TrimSpace]. *)
Example TrimSpace_unicode :
  strings.TrimSpaceB [0xC2; 0xA0; 0x6C; 0x69; 0x20; 0xE2; 0x80; 0x83]%N
  = [0x6C; 0x69]%N.
Proof. vm_compute. reflexivity. Qed.

(** A zero-width space (E2 80 8B) is not white space; an ideographic space
    (E3 80 80) is. *)
Example TrimSpace_zero_width :
  strings.TrimSpaceB
    [0x20; 0xE2; 0x80; 0x8B; 0x61; 0x20; 0xE3; 0x80; 0x80; 0x20]%N
  = [0xE2; 0x80; 0x8B; 0x61]%N.
Proof. vm_compute. reflexivity. Qed.

(** Bytes that are not UTF-8 decode to [RuneError], one byte wide. *)
Example DecodeRuneInString_invalid :
  utf8.DecodeRuneInString [0xED; 0xA0; 0x80]%N = (utf8.RuneError, 1%nat)
  /\ utf8.DecodeRuneInString [0xF0; 0x9F; 0x98; 0x80]%N = (0x1F600%N, 4%nat).
Proof. split; vm_compute; reflexivity. Qed.

Example Ext_iso : filepath.Ext "/images/base.v2.iso" = ".iso".
Proof. vm_compute. reflexivity. Qed.

Example Ext_none : filepath.Ext "/images.d/base" = "".
Proof. vm_compute. reflexivity. Qed.

Lemma append_assoc (a b c : string) : (a ++ b) ++ c = a ++ (b ++ c).
Proof. induction a as [|x a IH]; simpl; [reflexivity | now rewrite IH]. Qed.

Lemma append_length (a b : string) :
  String.length (a ++ b) = (String.length a + String.length b)%nat.
Proof. induction a as [|x a IH]; simpl; [reflexivity | now rewrite IH]. Qed.

Lemma substring_append_l (a b : string) :
  substring 0 (String.length a) (a ++ b) = a.
Proof. induction a as [|x a IH]; simpl; [now destruct b | now rewrite IH]. Qed.

(** ** Format names (C5) *)

Lemma eqb_false_of_neq (a b : string) : a <> b -> String.eqb a b = false.
Proof. intro H. now apply String.eqb_neq. Qed.

(** C5: [toQemuImageFormat] maps [vhd] to [vpc], maps [vhdx], [raw] and
    [qcow2] to themselves, and answers every other string with the
    unsupported-format error that lists the four supported names. *)
Theorem toQemuImageFormat_mapping :
  toQemuImageFormat "vhd" = Ok "vpc"
  /\ toQemuImageFormat "vhdx" = Ok "vhdx"
  /\ toQemuImageFormat "raw" = Ok "raw"
  /\ toQemuImageFormat "qcow2" = Ok "qcow2"
  /\ forall imageFormat : string,
      ~ In imageFormat supportedFormats ->
      toQemuImageFormat imageFormat
      = Err ("unsupported image format (supported: vhd, vhdx, raw, qcow2): "
             ++ imageFormat).
Proof.
  repeat split; try reflexivity.
  intros f Hf. unfold toQemuImageFormat, supportedFormats in *.
  unfold ImageFormatVhd, ImageFormatVhdx, ImageFormatRaw, ImageFormatQCow2.
  simpl in Hf.
  rewrite !eqb_false_of_neq; [reflexivity | | | |];
    intro E; apply Hf; subst; tauto.
Qed.

Lemma toQemuImageFormat_mapping_witness :
  ~ In "iso" supportedFormats
  /\ toQemuImageFormat "iso"
     = Err "unsupported image format (supported: vhd, vhdx, raw, qcow2): iso".
Proof.
  assert (H : ~ In "iso" supportedFormats).
  { simpl. intros [E|[E|[E|[E|[]]]]]; discriminate E. }
  split; [exact H |].
  exact (proj2 (proj2 (proj2 (proj2 toQemuImageFormat_mapping))) "iso" H).
Defined.

(** ** Partition resolution (C6) *)

(** For a supported type the answer is the path of the first partition whose
    field equals the value, and the not-found error when there is none. *)
Lemma idToPartitionBlockDevicePath_supported idType id nbd parts :
  supportedIdType idType = true ->
  idToPartitionBlockDevicePath idType id nbd parts
  = match find (matchesId idType id) parts with
    | Some p => Ok (diskutils.Path p)
    | None => Err ("no partition found for " ++ idType ++ ": " ++ id)
    end.
Proof.
  intro Hs. induction parts as [|p rest IH]; simpl; [reflexivity |].
  unfold matchesId, idField, supportedIdType in *.
  destruct (String.eqb idType IdTypePartlabel).
  - destruct (String.eqb (diskutils.PartLabel p) id); [reflexivity | exact IH].
  - destruct (String.eqb idType IdTypeUuid).
    + destruct (String.eqb (diskutils.Uuid p) id); [reflexivity | exact IH].
    + destruct (String.eqb idType IdTypePartuuid); [| discriminate Hs].
      destruct (String.eqb (diskutils.PartUuid p) id); [reflexivity | exact IH].
Qed.

(** For an unsupported type and a list that is not empty the answer is the
    invalid-idType error. *)
Lemma idToPartitionBlockDevicePath_unsupported idType id nbd p rest :
  supportedIdType idType = false ->
  idToPartitionBlockDevicePath idType id nbd (p :: rest)
  = Err ("invalid idType provided (" ++ idType ++ ")").
Proof.
  unfold supportedIdType. intro Hs. simpl.
  destruct (String.eqb idType IdTypePartlabel); [discriminate Hs |].
  destruct (String.eqb idType IdTypeUuid); [discriminate Hs |].
  destruct (String.eqb idType IdTypePartuuid); [discriminate Hs |].
  reflexivity.
Qed.

(** C6: with an unsupported identifier type and an empty partition list the
    loop body, and with it the [default] case of the [switch], is never
    reached: the answer is the not-found error, not the invalid-idType
    error. *)
Theorem idToPartitionBlockDevicePath_unsupported_empty :
  supportedIdType "label" = false
  /\ idToPartitionBlockDevicePath "label" "boot" "/dev/nbd0" []
     = Err "no partition found for label: boot"
  /\ idToPartitionBlockDevicePath "label" "boot" "/dev/nbd0" []
     <> Err "invalid idType provided (label)".
Proof. repeat split. discriminate. Qed.

(** ** The boot-loader patch (C1) *)

Lemma updateGrubLine_patch (newArgs : string) (acc : list string) (l : string) :
  updateGrubLine newArgs acc l = (acc ++ [patchLine newArgs l])%list.
Proof. reflexivity. Qed.

Lemma updateGrubLines_from (newArgs : string) (lines acc : list string) :
  fold_left (updateGrubLine newArgs) lines acc
  = (acc ++ map (patchLine newArgs) lines)%list.
Proof.
  revert acc. induction lines as [|l lines IH]; intro acc; simpl.
  - now rewrite app_nil_r.
  - rewrite IH, updateGrubLine_patch, <- app_assoc. reflexivity.
Qed.

Lemma updateGrubLines_map (newArgs : string) (lines : list string) :
  updateGrubLines newArgs lines = map (patchLine newArgs) lines.
Proof. unfold updateGrubLines. now rewrite updateGrubLines_from. Qed.

(** No text starts with both prefixes: they differ in their first byte. *)
Lemma prefixes_exclusive (s : string) :
  strings.HasPrefix s "linux " = true ->
  strings.HasPrefix s "set rootdevice=PARTUUID=" = false.
Proof.
  destruct s as [|c s]; [discriminate |].
  cbn [strings.HasPrefix].
  destruct (Ascii.eqb_spec "l" c) as [<-|_]; intro H;
    [reflexivity | discriminate H].
Qed.

Lemma patchLine_outcome (newArgs line : string) :
  lineOutcome newArgs line (patchLine newArgs line).
Proof.
  unfold patchLine.
  destruct (strings.HasPrefix (strings.TrimSpace line) "linux ") eqn:Hl.
  - rewrite (prefixes_exclusive _ Hl). now constructor.
  - destruct (strings.HasPrefix (strings.TrimSpace line)
                                "set rootdevice=PARTUUID=") eqn:Hr;
      now constructor.
Qed.

Lemma updateGrubLines_outcome (newArgs : string) (lines : list string) :
  Forall2 (lineOutcome newArgs) lines (updateGrubLines newArgs lines).
Proof.
  rewrite updateGrubLines_map.
  induction lines; simpl; constructor; auto using patchLine_outcome.
Qed.

Lemma claimedLineOutcome_inv (newArgs line line' : string) :
  claimedLineOutcome newArgs line line' ->
  (strings.HasPrefix (strings.TrimLeftSpace line) "linux " = true
   /\ line' = line ++ " " ++ newArgs)
  \/ (strings.HasPrefix (strings.TrimSpace line) "set rootdevice=PARTUUID=" = true
      /\ line' = "set rootdevice=/dev/mapper/root")
  \/ (strings.HasPrefix (strings.TrimLeftSpace line) "linux " = false
      /\ line' = line).
Proof. destruct 1; auto. Qed.

(** The test of the specification: two [linux] lines and a root-device
    line. *)
Example updateGrubLines_example :
  updateGrubLines exampleArgs
    ["set rootdevice=PARTUUID=XXXX";
     "menuentry one {";
     "    linux /boot/vmlinuz root=$rootdevice ro";
     "}";
     String "009" "linux /boot/vmlinuz-rescue ro  "]
  = ["set rootdevice=/dev/mapper/root";
     "menuentry one {";
     "    linux /boot/vmlinuz root=$rootdevice ro rd.systemd.verity=1 roothash=9f8e7d systemd.verity_root_data=PARTUUID=1111 systemd.verity_root_hash=PARTLABEL=roothash systemd.verity_root_options=panic-on-corruption";
     "}";
     String "009" "linux /boot/vmlinuz-rescue ro   rd.systemd.verity=1 roothash=9f8e7d systemd.verity_root_data=PARTUUID=1111 systemd.verity_root_hash=PARTLABEL=roothash systemd.verity_root_options=panic-on-corruption"].
Proof. vm_compute. reflexivity. Qed.

(** The two ways of trimming differ on a line that ends in white space. *)
Example TrimSpace_vs_TrimLeftSpace :
  strings.TrimSpace "  linux " = "linux"
  /\ strings.TrimLeftSpace "  linux " = "linux ".
Proof. split; vm_compute; reflexivity. Qed.

(** C1, as stated, fails on the line made of [linux] and one space: the
    code removes the trailing space too before it looks for the prefix
    [linux ], and leaves the line as it is. *)
Lemma updateGrubLines_trailing_space_counterexample :
  updateGrubLines exampleArgs ["linux "] = ["linux "]
  /\ ~ Forall2 (claimedLineOutcome exampleArgs)
         ["linux "] (updateGrubLines exampleArgs ["linux "]).
Proof.
  split; [vm_compute; reflexivity |].
  intro H. apply Forall2_cons_iff in H. destruct H as [Hl _].
  apply claimedLineOutcome_inv in Hl.
  destruct Hl as [[_ E] | [[Hp _] | [Hp _]]].
  - vm_compute in E. discriminate E.
  - vm_compute in Hp. discriminate Hp.
  - vm_compute in Hp. discriminate Hp.
Qed.

(** Unfolding the monad of the Go functions. *)
Ltac go_unfold :=
  unfold callR, callE, call, wrapErr, defer, withObject, liftR, liftE,
    bind, ret, fail, panic, get, modify in *.

(** C1 (amended): when both identifier types are supported and the
    configuration file can be read, [updateGrubConfig] writes back, to the
    same path, as many lines as it read, in the same order, where a line
    whose text without leading and trailing white space starts with
    [linux ] has one space and the verity arguments appended, a line whose
    trimmed text starts with [set rootdevice=PARTUUID=] has become
    [set rootdevice=/dev/mapper/root], and any other line is unchanged; the
    verity arguments carry the root hash and the renderings of the two
    partition identifiers by [systemdFormatPartitionId]. *)
Theorem updateGrubConfig_patches_lines :
  forall (oracle : Oracle) (S : Type) (s : S) (t : trace)
         (dataIdType : IdType) (dataId : string)
         (hashIdType : IdType) (hashId : string)
         (rootHash grubCfgFullPath formattedData formattedHash : string)
         (lines : list string),
    systemdFormatPartitionId dataIdType dataId = Ok formattedData ->
    systemdFormatPartitionId hashIdType hashId = Ok formattedHash ->
    oracle t _ (FileReadLines grubCfgFullPath) = Ok lines ->
    let newArgs :=
      "rd.systemd.verity=1 roothash=" ++ rootHash
      ++ " systemd.verity_root_data=" ++ formattedData
      ++ " systemd.verity_root_hash=" ++ formattedHash
      ++ " systemd.verity_root_options=panic-on-corruption" in
    let t1 := (t ++ [Call (FileReadLines grubCfgFullPath) (Ok lines)])%list in
    exists (updatedLines : list string) (written : option error),
      Forall2 (lineOutcome newArgs) lines updatedLines
      /\ oracle t1 _ (FileWriteLines updatedLines grubCfgFullPath) = written
      /\ updateGrubConfig oracle dataIdType dataId hashIdType hashId
                          rootHash grubCfgFullPath s t
         = (match written with
            | None => Return tt
            | Some e => Error ("failed to write updated grub config: " ++ e)
            end,
            s,
            (t1 ++ [Call (FileWriteLines updatedLines grubCfgFullPath) written])%list).
Proof.
  intros oracle S s t dt di ht hi rootHash path fd fh lines Hd Hh Hread
         newArgs t1.
  exists (updateGrubLines newArgs lines).
  exists (oracle t1 _ (FileWriteLines (updateGrubLines newArgs lines) path)).
  split; [apply updateGrubLines_outcome |].
  split; [reflexivity |].
  unfold updateGrubConfig. go_unfold.
  rewrite Hd, Hh. cbn iota beta. rewrite Hread. cbn iota beta.
  fold newArgs t1. unfold verityArgs. fold newArgs.
  destruct (oracle t1 _ (FileWriteLines (updateGrubLines newArgs lines) path));
    reflexivity.
Qed.

Lemma updateGrubConfig_patches_lines_witness :
  exists (updatedLines : list string) (written : option error),
    Forall2 (lineOutcome exampleArgs) exampleGrubCfg updatedLines
    /\ grubOracle [Call (FileReadLines "/mnt/grub2/grub.cfg") (Ok exampleGrubCfg)]
         _ (FileWriteLines updatedLines "/mnt/grub2/grub.cfg") = written
    /\ updateGrubConfig grubOracle "partuuid" "1111" "partlabel" "roothash"
                        "9f8e7d" "/mnt/grub2/grub.cfg" tt []
       = (match written with
          | None => Return tt
          | Some e => Error ("failed to write updated grub config: " ++ e)
          end,
          tt,
          [Call (FileReadLines "/mnt/grub2/grub.cfg") (Ok exampleGrubCfg);
           Call (FileWriteLines updatedLines "/mnt/grub2/grub.cfg") written]).
Proof.
  exact (updateGrubConfig_patches_lines grubOracle unit tt []
           "partuuid" "1111" "partlabel" "roothash" "9f8e7d"
           "/mnt/grub2/grub.cfg" "PARTUUID=1111" "PARTLABEL=roothash"
           exampleGrubCfg eq_refl eq_refl eq_refl).
Defined.

(** ** The root-hash pattern (C2) *)

Section Spans.

Variable p : ascii -> bool.

Lemma span_split (s : string) : s = spanRun p s ++ spanRest p s.
Proof.
  induction s as [|c s IH]; simpl; [reflexivity |].
  destruct (p c); simpl; [now rewrite <- IH | reflexivity].
Qed.

Lemma spanRun_all (s : string) : allChars p (spanRun p s) = true.
Proof.
  induction s as [|c s IH]; simpl; [reflexivity |].
  destruct (p c) eqn:E; simpl; [now rewrite E | reflexivity].
Qed.

Lemma spanRest_stops (s : string) : startsWith p (spanRest p s) = false.
Proof.
  induction s as [|c s IH]; simpl; [reflexivity |].
  destruct (p c) eqn:E; simpl; [exact IH | exact E].
Qed.

Lemma spanRest_id (s : string) : startsWith p s = false -> spanRest p s = s.
Proof. destruct s as [|c s]; simpl; [reflexivity | now intros ->]. Qed.

Lemma spanRun_nonempty (s : string) :
  startsWith p s = true -> spanRun p s <> "".
Proof. destruct s as [|c s]; simpl; [discriminate | now intros ->]. Qed.

Lemma spanRest_app (ws rest : string) :
  allChars p ws = true -> startsWith p rest = false ->
  spanRest p (ws ++ rest) = rest.
Proof.
  induction ws as [|c ws IH]; simpl; intros Hall Hrest.
  - now apply spanRest_id.
  - apply andb_prop in Hall. destruct Hall as [-> Hall]. now apply IH.
Qed.

Lemma startsWith_app (ws rest : string) :
  ws <> "" -> allChars p ws = true -> startsWith p (ws ++ rest) = true.
Proof.
  destruct ws as [|c ws]; simpl; [congruence |].
  intros _ Hall. apply andb_prop in Hall. tauto.
Qed.

(** A greedy repetition before a continuation that cannot fail takes the
    longest run. *)
Lemma plusK_total {A : Type} (k : string -> option A) (s : string) :
  (forall x, k x <> None) ->
  regexp.plusK p s k = if startsWith p s then k (spanRest p s) else None.
Proof.
  intro Hk. induction s as [|c s IH]; simpl; [reflexivity |].
  destruct (p c); [| reflexivity].
  rewrite IH. destruct (startsWith p s) eqn:E.
  - destruct (k (spanRest p s)) eqn:Ek; [reflexivity | now apply Hk in Ek].
  - now rewrite spanRest_id.
Qed.

(** A greedy repetition before a repetition of a disjoint class: giving
    back characters never helps, so the longest run is taken or the match
    fails. *)
Lemma plusK_then_plusK {A : Type} (q : ascii -> bool)
      (k : string -> string -> option A) (s : string) :
  (forall c, p c = true -> q c = false) ->
  regexp.plusK p s (fun s2 => regexp.plusK q s2 (k s2))
  = if startsWith p s
    then regexp.plusK q (spanRest p s) (k (spanRest p s))
    else None.
Proof.
  intro Hpq. induction s as [|c s IH]; simpl; [reflexivity |].
  destruct (p c); [| reflexivity].
  rewrite IH. destruct (startsWith p s) eqn:E.
  - destruct (regexp.plusK q (spanRest p s) (k (spanRest p s))) eqn:Ek;
      [reflexivity |].
    destruct s as [|c' s]; simpl in *; [reflexivity |].
    now rewrite (Hpq c' E).
  - now rewrite spanRest_id.
Qed.

End Spans.

Lemma hexDigit_not_space (c : ascii) :
  regexp.hexDigit c = true -> regexp.perlSpace c = false.
Proof.
  unfold regexp.hexDigit, regexp.perlSpace, utf8.between.
  intro H.
  repeat match goal with
         | |- (_ || _)%bool = false => apply orb_false_intro
         end; apply N.eqb_neq; intro E; rewrite E in H; discriminate H.
Qed.

Lemma space_not_hexDigit (c : ascii) :
  regexp.perlSpace c = true -> regexp.hexDigit c = false.
Proof.
  intro H. destruct (regexp.hexDigit c) eqn:E; [| reflexivity].
  apply hexDigit_not_space in E. congruence.
Qed.

Lemma dropPrefix_Some (lit s s' : string) :
  regexp.dropPrefix lit s = Some s' <-> s = lit ++ s'.
Proof.
  revert s. induction lit as [|a lit IH]; intro s; simpl.
  - split; [now intros [= ->] | now intros ->].
  - destruct s as [|b s]; [split; discriminate |].
    destruct (Ascii.eqb_spec a b) as [<-|Hne].
    + rewrite IH. split; [now intros -> | now intros [= ->]].
    + split; [discriminate | intros [= E _]; congruence].
Qed.

Lemma consumed_append (a rest : string) : regexp.consumed (a ++ rest) rest = a.
Proof.
  unfold regexp.consumed. rewrite append_length, Nat.add_sub.
  apply substring_append_l.
Qed.

(** The backtracking match of the pattern at the start of [s], computed:
    the literal, then all the white space, then all the digits. *)
Lemma matchHere_rootHashRegex (s : string) :
  regexp.matchHere rootHashRegex s
  = match regexp.dropPrefix "Root hash:" s with
    | Some s1 =>
      if startsWith regexp.perlSpace s1 then
        let s2 := spanRest regexp.perlSpace s1 in
        if startsWith regexp.hexDigit s2 then
          let s3 := spanRest regexp.hexDigit s2 in
          Some [regexp.consumed s s3; regexp.consumed s2 s3]
        else None
      else None
    | None => None
    end.
Proof.
  unfold regexp.matchHere, rootHashRegex. cbn [regexp.matchK].
  destruct (regexp.dropPrefix "Root hash:" s) as [s1|]; [| reflexivity].
  rewrite (plusK_then_plusK regexp.perlSpace regexp.hexDigit
             (fun s2 s3 => Some [regexp.consumed s s3; regexp.consumed s2 s3]))
    by apply space_not_hexDigit.
  destruct (startsWith regexp.perlSpace s1); [| reflexivity].
  cbv zeta. rewrite plusK_total by discriminate. reflexivity.
Qed.

Lemma matchHere_Some (s : string) (m : list string) :
  regexp.matchHere rootHashRegex s = Some m ->
  exists ws h post,
    rootHashOccurs s "" ws h post
    /\ startsWith regexp.hexDigit post = false
    /\ m = ["Root hash:" ++ ws ++ h; h].
Proof.
  rewrite matchHere_rootHashRegex.
  destruct (regexp.dropPrefix "Root hash:" s) as [s1|] eqn:Hd; [| discriminate].
  apply dropPrefix_Some in Hd.
  destruct (startsWith regexp.perlSpace s1) eqn:Hws; [| discriminate].
  cbv zeta.
  destruct (startsWith regexp.hexDigit (spanRest regexp.perlSpace s1)) eqn:Hh;
    [| discriminate].
  intros [= <-].
  set (s2 := spanRest regexp.perlSpace s1) in *.
  set (s3 := spanRest regexp.hexDigit s2) in *.
  exists (spanRun regexp.perlSpace s1), (spanRun regexp.hexDigit s2), s3.
  assert (E1 : s1 = spanRun regexp.perlSpace s1 ++ s2)
    by apply span_split.
  assert (E2 : s2 = spanRun regexp.hexDigit s2 ++ s3)
    by apply span_split.
  assert (Es : s = "Root hash:" ++ spanRun regexp.perlSpace s1
                   ++ spanRun regexp.hexDigit s2 ++ s3).
  { rewrite Hd. rewrite E1 at 1. rewrite E2 at 1. reflexivity. }
  repeat split.
  - exact Es.
  - now apply spanRun_nonempty.
  - apply spanRun_all.
  - now apply spanRun_nonempty.
  - apply spanRun_all.
  - apply spanRest_stops.
  - f_equal; [| f_equal].
    + rewrite Es at 1.
      replace ("Root hash:" ++ spanRun regexp.perlSpace s1
               ++ spanRun regexp.hexDigit s2 ++ s3)
        with (("Root hash:" ++ spanRun regexp.perlSpace s1
               ++ spanRun regexp.hexDigit s2) ++ s3).
      * apply consumed_append.
      * now rewrite !append_assoc.
    + rewrite E2 at 1. apply consumed_append.
Qed.

Lemma matchHere_None (s : string) :
  regexp.matchHere rootHashRegex s = None ->
  forall ws h post, ~ rootHashOccurs s "" ws h post.
Proof.
  rewrite matchHere_rootHashRegex.
  intros Hnone ws h post (Es & Hws & Hwsall & Hh & Hhall).
  simpl in Es.
  assert (Hd : regexp.dropPrefix "Root hash:" s = Some (ws ++ h ++ post))
    by now apply dropPrefix_Some.
  rewrite Hd in Hnone.
  rewrite (startsWith_app _ ws (h ++ post) Hws Hwsall) in Hnone.
  cbv zeta in Hnone.
  assert (Hh1 : startsWith regexp.hexDigit (h ++ post) = true)
    by now apply startsWith_app.
  assert (Hh2 : startsWith regexp.perlSpace (h ++ post) = false).
  { destruct h as [|c h]; [congruence |]. simpl in *.
    apply hexDigit_not_space. apply andb_prop in Hhall. tauto. }
  rewrite (spanRest_app _ ws (h ++ post) Hwsall Hh2) in Hnone.
  rewrite Hh1 in Hnone. discriminate Hnone.
Qed.

(** The search over the start positions finds the first position with a
    match. *)
Lemma findFrom_Some (r : regexp.Regexp) (s : string) (m : list string) :
  regexp.findFrom r s = Some m ->
  exists pre s',
    s = pre ++ s' /\ regexp.matchHere r s' = Some m
    /\ forall pre1 s1,
        s = pre1 ++ s1 -> (String.length pre1 < String.length pre)%nat ->
        regexp.matchHere r s1 = None.
Proof.
  induction s as [|c s IH]; simpl.
  - destruct (regexp.matchHere r "") eqn:E; [| discriminate].
    intros [= <-]. exists "", "". repeat split; [exact E |].
    intros pre1 s1 _ Hlt. inversion Hlt.
  - destruct (regexp.matchHere r (String c s)) eqn:E.
    + intros [= <-]. exists "", (String c s). repeat split; [exact E |].
      intros pre1 s1 _ Hlt. inversion Hlt.
    + intro Hf. destruct (IH Hf) as (pre & s' & -> & Hm & Hmin).
      exists (String c pre), s'. repeat split; [exact Hm |].
      intros pre1 s1 Es Hlt. destruct pre1 as [|c1 pre1].
      * simpl in Es. now subst s1.
      * simpl in Es. injection Es as <- Es. apply (Hmin pre1 s1 Es).
        simpl in Hlt. lia.
Qed.

Lemma findFrom_None (r : regexp.Regexp) (s : string) :
  regexp.findFrom r s = None ->
  forall pre s', s = pre ++ s' -> regexp.matchHere r s' = None.
Proof.
  induction s as [|c s IH]; simpl.
  - destruct (regexp.matchHere r "") eqn:E; [discriminate |].
    intros _ pre s' Es. destruct pre; [| discriminate Es].
    simpl in Es. now subst s'.
  - destruct (regexp.matchHere r (String c s)) eqn:E; [discriminate |].
    intros Hf pre s' Es. destruct pre as [|c1 pre].
    + simpl in Es. now subst s'.
    + simpl in Es. injection Es as _ Es. now apply (IH Hf pre s').
Qed.

Lemma rootHashOccurs_shift (pre rest ws h post : string) :
  rootHashOccurs rest "" ws h post -> rootHashOccurs (pre ++ rest) pre ws h post.
Proof. intros (E & H). split; [simpl in E; now rewrite E | exact H]. Qed.

Lemma parseRootHash_Ok (out h : string) :
  parseRootHash out = Ok h ->
  exists pre ws post, leftmostGreedy out pre ws h post.
Proof.
  unfold parseRootHash, regexp.FindStringSubmatch.
  destruct (regexp.findFrom rootHashRegex out) as [m|] eqn:Hf;
    [| discriminate].
  destruct (findFrom_Some _ _ _ Hf) as (pre & s' & -> & Hm & Hmin).
  destruct (matchHere_Some _ _ Hm) as (ws & h0 & post & Hocc & Hstop & ->).
  simpl. intros [= <-]. exists pre, ws, post. split; [| split].
  - now apply rootHashOccurs_shift.
  - exact Hstop.
  - intros pre' ws' h' post' Hocc'.
    destruct (Nat.le_gt_cases (String.length pre) (String.length pre'))
      as [Hle|Hlt]; [exact Hle | exfalso].
    destruct Hocc' as (E & Hrest).
    specialize (Hmin pre' _ E Hlt).
    apply (matchHere_None _ Hmin ws' h' post').
    split; [reflexivity | exact Hrest].
Qed.

Lemma parseRootHash_Err (out : string) (e : error) :
  parseRootHash out = Err e ->
  e = "failed to parse root hash from veritysetup output".
Proof.
  unfold parseRootHash.
  destruct (List.length _ <=? 1)%nat; [now intros [= <-] | discriminate].
Qed.

Lemma parseRootHash_no_match (out : string) :
  (forall pre ws h post, ~ rootHashOccurs out pre ws h post) ->
  parseRootHash out = Err "failed to parse root hash from veritysetup output".
Proof.
  intro Hno. destruct (parseRootHash out) as [h|e] eqn:E.
  - destruct (parseRootHash_Ok _ _ E) as (pre & ws & post & Hocc & _).
    now apply Hno in Hocc.
  - now rewrite (parseRootHash_Err _ _ E).
Qed.

Lemma parseRootHash_match (out pre ws h post : string) :
  rootHashOccurs out pre ws h post -> exists h', parseRootHash out = Ok h'.
Proof.
  intros (E & Hrest).
  unfold parseRootHash, regexp.FindStringSubmatch.
  destruct (regexp.findFrom rootHashRegex out) as [m|] eqn:Hf.
  - destruct (findFrom_Some _ _ _ Hf) as (pre1 & s' & _ & Hm & _).
    destruct (matchHere_Some _ _ Hm) as (ws1 & h1 & post1 & _ & _ & ->).
    simpl. now exists h1.
  - exfalso. apply (matchHere_None _ (findFrom_None _ _ Hf pre _ E) ws h post).
    split; [reflexivity | exact Hrest].
Qed.

(** The test of the specification: the digits after [Root hash:] and two
    tabs are extracted. *)
Example parseRootHash_example :
  parseRootHash exampleVerityOutput = Ok "9f8e7d6c5b4a".
Proof. vm_compute. reflexivity. Qed.

Example parseRootHash_no_digits :
  parseRootHash ("Root hash:" ++ tab ++ "none")
  = Err "failed to parse root hash from veritysetup output".
Proof. vm_compute. reflexivity. Qed.

(** C2: once [veritysetup format] has run without error, the helper takes
    as root hash the first capture group of the leftmost match of
    [Root hash:\s+([0-9a-fA-F]+)] in the captured output and goes on with
    it; when the output holds no match, the helper returns the parse error
    straight away, with no further call. *)
Theorem root_hash_extraction :
  forall (lib : PathLib) (oracle : Oracle) (S : Type) (s : S) (t : trace)
         (buildDir : string) (v : Verity)
         (diskPartitions : list diskutils.PartitionInfo)
         (dataPartition hashPartition verityOutput stderrText : string),
    oracle t _ (ShellExecute "veritysetup"
                  ["format"; dataPartition; hashPartition])
    = (verityOutput, stderrText, None) ->
    let t1 :=
      (t ++ [Call (ShellExecute "veritysetup"
                     ["format"; dataPartition; hashPartition])
                  (verityOutput, stderrText, None)])%list in
    ((forall pre ws h post, ~ rootHashOccurs verityOutput pre ws h post) ->
     formatVerityAndPatch lib oracle buildDir v diskPartitions dataPartition
                          hashPartition s t
     = (Error "failed to parse root hash from veritysetup output", s, t1))
    /\ (forall pre ws h post,
          rootHashOccurs verityOutput pre ws h post ->
          exists pre0 ws0 rootHash post0,
            leftmostGreedy verityOutput pre0 ws0 rootHash post0
            /\ formatVerityAndPatch lib oracle buildDir v diskPartitions
                                    dataPartition hashPartition s t
               = patchBootConfig lib oracle buildDir v diskPartitions
                                 rootHash s t1).
Proof.
  intros lib oracle S s t buildDir v parts dp hp out errText Hrun t1.
  assert (Hstep : forall r,
             parseRootHash out = r ->
             formatVerityAndPatch lib oracle buildDir v parts dp hp s t
             = match r with
               | Ok h => patchBootConfig lib oracle buildDir v parts h s t1
               | Err e => (Error e, s, t1)
               end).
  { intros r <-. unfold formatVerityAndPatch.
    unfold call, bind at 1 2 3. rewrite Hrun. fold t1.
    cbn [liftE wrapErr ret liftR].
    destruct (parseRootHash out); reflexivity. }
  split.
  - intro Hno. now rewrite (Hstep _ (parseRootHash_no_match _ Hno)).
  - intros pre ws h post Hocc.
    destruct (parseRootHash_match _ _ _ _ _ Hocc) as (h' & Hh').
    destruct (parseRootHash_Ok _ _ Hh') as (pre0 & ws0 & post0 & Hlg).
    exists pre0, ws0, h', post0. split; [exact Hlg |].
    now rewrite (Hstep _ Hh').
Qed.

Lemma root_hash_extraction_witness :
  (formatVerityAndPatch sampleLib successOracle "/build" exampleVerity []
                        "/dev/nbd0p3" "/dev/nbd0p4" tt []
   = (Error "failed to parse root hash from veritysetup output", tt,
      [Call (ShellExecute "veritysetup" ["format"; "/dev/nbd0p3"; "/dev/nbd0p4"])
            ("", "", None)]))
  /\ exists pre0 ws0 rootHash post0,
      leftmostGreedy exampleVerityOutput pre0 ws0 rootHash post0
      /\ formatVerityAndPatch sampleLib verityOracle "/build" exampleVerity []
                              "/dev/nbd0p3" "/dev/nbd0p4" tt []
         = patchBootConfig sampleLib verityOracle "/build" exampleVerity []
             rootHash tt
             [Call (ShellExecute "veritysetup"
                      ["format"; "/dev/nbd0p3"; "/dev/nbd0p4"])
                   (exampleVerityOutput, "", None)].
Proof.
  split.
  - apply (proj1 (root_hash_extraction sampleLib successOracle unit tt []
                    "/build" exampleVerity [] "/dev/nbd0p3" "/dev/nbd0p4"
                    "" "" eq_refl)).
    intros pre ws h post (E & _). destruct pre; discriminate E.
  - apply (proj2 (root_hash_extraction sampleLib verityOracle unit tt []
                    "/build" exampleVerity [] "/dev/nbd0p3" "/dev/nbd0p4"
                    exampleVerityOutput "" eq_refl)
                 ("VERITY header information for /dev/nbd0p3" ++ nl
                  ++ "Hash algorithm:" ++ tab ++ "sha256" ++ nl)
                 (tab ++ tab) "9f8e7d6c5b4a" nl).
    repeat split; try reflexivity; discriminate.
Defined.

(** A whole run of [customizeVerityImageHelper] in a sample world: the
    partitions are found by PARTUUID and PARTLABEL, the root hash is taken
    from the output of [veritysetup], and the patched lines are written to
    [grub2/grub.cfg] of the mounted boot partition; the mount and the NBD
    node are released last. *)
Example customizeVerityImageHelper_example :
  customizeVerityImageHelper sampleLib verityRunOracle "/build" "/cfg"
                             verityConfig "/build/image.raw" [] false tt []
  = (Return tt, tt,
     [Call (FilepathGlob "/sys/class/block/nbd*") (Ok ["/sys/class/block/nbd0"]);
      Call (OsStat "/sys/class/block/nbd0/pid")
           (StatErr true "no such file or directory");
      Call (ShellExecuteLiveWithErr 1 "qemu-nbd"
              ["-c"; "/dev/nbd0"; "-f"; "raw"; "/build/image.raw"]) None;
      Call (GetDiskPartitions "/dev/nbd0") (Ok examplePartitions);
      Call (ShellExecute "veritysetup" ["format"; "/dev/nbd0p2"; "/dev/nbd0p3"])
           (exampleVerityOutput, "", None);
      Call (FindSystemBootPartition examplePartitions) (Ok espPartition);
      Call (FindBootPartitionFromEsp espPartition examplePartitions "/build")
           (Ok espPartition);
      Call (NewMount "/dev/nbd0p1" "/build/tmppartition" "vfat" 0 "" true)
           (Ok (MountRef 0));
      Call (FileReadLines "/build/tmppartition/grub2/grub.cfg")
           (Ok exampleGrubCfg);
      Call (FileWriteLines
              (updateGrubLines
                 (verityArgs "9f8e7d6c5b4a" "PARTUUID=1111" "PARTLABEL=roothash")
                 exampleGrubCfg)
              "/build/tmppartition/grub2/grub.cfg") None;
      Call (MountCleanClose (MountRef 0)) None;
      Call (MountClose (MountRef 0)) tt;
      Call (ShellExecuteLiveWithErr 1 "qemu-nbd" ["-d"; "/dev/nbd0"]) None]).
Proof. vm_compute. reflexivity. Qed.

(** ** Runs of the Go functions: general facts *)

Section Runs.

Context {S : Type}.

Lemma frames_ret {A} (a : A) : frames (@ret S A a).
Proof. now intros s t. Qed.

Lemma frames_fail {A} (e : error) : frames (@fail S A e).
Proof. now intros s t. Qed.

Lemma frames_panic {A} (msg : string) : frames (@panic S A msg).
Proof. now intros s t. Qed.

Lemma frames_get : frames (@get S).
Proof. now intros s t. Qed.

Lemma frames_liftR {A} (r : result A) : frames (@liftR S A r).
Proof. destruct r; now intros s t. Qed.

Lemma frames_liftE (e : option error) : frames (@liftE S e).
Proof. destruct e; now intros s t. Qed.

Lemma frames_bind {A B} (m : M S A) (k : A -> M S B) :
  frames m -> (forall a, frames (k a)) -> frames (bind m k).
Proof.
  intros Hm Hk s t. unfold bind. specialize (Hm s t).
  destruct (m s t) as [[[a|e|p] s'] t']; simpl in *; subst; auto.
  apply Hk.
Qed.

Lemma frames_wrapErr {A} (f : error -> error) (m : M S A) :
  frames m -> frames (wrapErr f m).
Proof.
  intros Hm s t. unfold wrapErr. specialize (Hm s t).
  destruct (m s t) as [[[a|e|p] s'] t']; simpl in *; auto.
Qed.

Lemma frames_defer {A} (c : M S unit) (m : M S A) :
  frames c -> frames m -> frames (defer c m).
Proof.
  intros Hc Hm s t. unfold defer. specialize (Hm s t).
  destruct (m s t) as [[r s1] t1]. specialize (Hc s1 t1).
  destruct (c s1 t1) as [[r2 s2] t2]. simpl in *. congruence.
Qed.

Lemma frames_call (oracle : Oracle) {R} (o : op R) : frames (@call oracle S R o).
Proof. now intros s t. Qed.

Lemma frames_keeps {A X} (f : S -> X) (m : M S A) : frames m -> keeps f m.
Proof. intros Hm s t. now rewrite Hm. Qed.

Lemma keeps_bind {A B X} (f : S -> X) (m : M S A) (k : A -> M S B) :
  keeps f m -> (forall a, keeps f (k a)) -> keeps f (bind m k).
Proof.
  intros Hm Hk s t. unfold bind. specialize (Hm s t).
  destruct (m s t) as [[[a|e|p] s'] t']; simpl in *; auto.
  now rewrite Hk.
Qed.

Lemma keeps_wrapErr {A X} (f : S -> X) (g : error -> error) (m : M S A) :
  keeps f m -> keeps f (wrapErr g m).
Proof.
  intros Hm s t. unfold wrapErr. specialize (Hm s t).
  destruct (m s t) as [[[a|e|p] s'] t']; simpl in *; auto.
Qed.

Lemma keeps_modify {X} (f : S -> X) (g : S -> S) :
  (forall s, f (g s) = f s) -> keeps f (modify g).
Proof. intros H s t. apply H. Qed.

End Runs.

Create HintDb go_frames.

#[local] Hint Resolve frames_ret frames_fail frames_panic frames_get
  frames_liftR frames_liftE frames_call : go_frames.

(** Frame goals follow the shape of the program. *)
Ltac frames_step :=
  match goal with
  | |- frames (bind _ _) => apply frames_bind; [| intro]
  | |- frames (wrapErr _ _) => apply frames_wrapErr
  | |- frames (defer _ _) => apply frames_defer
  | |- frames (callR _ _) => unfold callR
  | |- frames (callE _ _) => unfold callE
  | |- frames (match ?x with _ => _ end) => destruct x
  | |- frames (let _ := ?x in _) => cbv zeta
  | |- frames _ => solve [auto with go_frames]
  end.

Ltac frames_tac := repeat frames_step.

Section PlainFunctions.

Variable lib : PathLib.
Variable oracle : Oracle.
Context {S : Type}.

Lemma frames_updateGrubConfig dt di ht hi rootHash path :
  frames (@updateGrubConfig oracle S dt di ht hi rootHash path).
Proof. unfold updateGrubConfig. frames_tac. Qed.

Lemma frames_findFreeNBDDeviceIn files :
  frames (@findFreeNBDDeviceIn lib oracle S files).
Proof.
  induction files as [|file rest IH]; simpl; frames_tac; exact IH.
Qed.

Lemma frames_findFreeNBDDevice : frames (@findFreeNBDDevice lib oracle S).
Proof.
  unfold findFreeNBDDevice. frames_tac. apply frames_findFreeNBDDeviceIn.
Qed.

Lemma frames_patchBootConfig buildDir v parts rootHash :
  frames (@patchBootConfig lib oracle S buildDir v parts rootHash).
Proof.
  unfold patchBootConfig. frames_tac. apply frames_updateGrubConfig.
Qed.

Lemma frames_formatVerityAndPatch buildDir v parts dp hp :
  frames (@formatVerityAndPatch lib oracle S buildDir v parts dp hp).
Proof.
  unfold formatVerityAndPatch. frames_tac. apply frames_patchBootConfig.
Qed.

Lemma frames_customizeVerityImageHelper buildDir base cfg image rpms useBase :
  frames (@customizeVerityImageHelper lib oracle S buildDir base cfg image
                                      rpms useBase).
Proof.
  unfold customizeVerityImageHelper. frames_tac;
    auto using frames_findFreeNBDDevice, frames_formatVerityAndPatch.
Qed.

Lemma frames_customizeImageHelper buildDir base cfg raw rpms useBase pc :
  frames (@customizeImageHelper oracle S buildDir base cfg raw rpms useBase pc).
Proof. unfold customizeImageHelper. frames_tac. Qed.

Lemma frames_shrinkFilesystemsHelper image :
  frames (@shrinkFilesystemsHelper oracle S image).
Proof. unfold shrinkFilesystemsHelper. frames_tac. Qed.

Lemma frames_extractPartitionsHelper raw dir base fmt :
  frames (@extractPartitionsHelper oracle S raw dir base fmt).
Proof. unfold extractPartitionsHelper. frames_tac. Qed.

End PlainFunctions.

(** ** The orchestrator: its stages *)

Ltac keeps_step :=
  match goal with
  | |- keeps _ (bind _ _) => apply keeps_bind; [| intro]
  | |- keeps _ (wrapErr _ _) => apply keeps_wrapErr
  | |- keeps _ (modify _) => apply keeps_modify; solve [auto]
  | |- keeps _ (match ?x with _ => _ end) => destruct x
  | |- keeps _ _ => apply frames_keeps; solve [frames_tac]
  end.

Ltac keeps_tac := repeat keeps_step.

Section Stages.

Variable lib : PathLib.
Variable oracle : Oracle.

(** A field that the two assignments of the stages do not touch. *)
Variable X : Type.
Variable field : CommonParameters -> X.
Hypothesis field_rawImageFile :
  forall v cp, field (set_rawImageFile v cp) = field cp.
Hypothesis field_isoBuilder :
  forall v cp, field (set_isoBuilder v cp) = field cp.

Lemma keeps_convertInputImageToWriteableFormat :
  keeps field (convertInputImageToWriteableFormat oracle).
Proof. unfold convertInputImageToWriteableFormat. keeps_tac. Qed.

Lemma keeps_customizeOSContents :
  keeps field (customizeOSContents lib oracle).
Proof.
  unfold customizeOSContents. keeps_tac; apply frames_keeps;
    auto using frames_customizeImageHelper, frames_shrinkFilesystemsHelper,
      frames_customizeVerityImageHelper, frames_extractPartitionsHelper.
Qed.

End Stages.

(** [initCommonParameters] records the requested output format as given. *)
Lemma initCommonParameters_outputImageFormat
      (lib : PathLib) (oracle : Oracle) (S : Type) (s s' : S) (t t' : trace)
      buildDir image base cfg useBase rpms shrink split fmt outFile cp :
  initCommonParameters lib oracle buildDir image base cfg useBase rpms shrink
                       split fmt outFile s t = (Return cp, s', t') ->
  outputImageFormat cp = fmt
  /\ config cp = cfg
  /\ customizeOSPartitions cp
     = (match Storage_ cfg with Some _ => true | None => false end
        || match OS_ cfg with Some _ => true | None => false end)
  /\ inputImageFile cp = image
  /\ isoBuilder cp = None.
Proof.
  unfold initCommonParameters. go_unfold.
  destruct (oracle t _ (FilepathAbs buildDir)) as [abs|e]; [| discriminate].
  cbn iota beta.
  destruct (oracle _ _ (OsMkdirAll abs ModePerm)); [discriminate |].
  cbn iota beta.
  destruct (negb (String.eqb fmt "") && negb (String.eqb fmt ImageFormatIso));
    [destruct (toQemuImageFormat fmt); [| discriminate] |];
    cbn iota beta;
    (destruct (oracle _ _ (OsMkdirAll _ ModePerm)); [discriminate |]);
    intros [= <- _ _]; repeat split.
Qed.

(** With the empty output format, the [switch] of the output step matches
    no case: nothing is called and nil is returned. *)
Lemma convertWriteableFormatToOutputImage_empty_format
      (oracle : Oracle) (cp : CommonParameters) (t : trace) :
  outputImageFormat cp = "" ->
  convertWriteableFormatToOutputImage oracle cp t = (Return tt, cp, t).
Proof.
  intro H. unfold convertWriteableFormatToOutputImage, bind, get.
  now rewrite H.
Qed.

(** ** The empty output format (C10) *)

(** C10: with the empty string as output format, (1) [initCommonParameters]
    does not validate the format name: it succeeds as soon as its three
    file-system calls do, and leaves the conversion format empty; (2) the
    output step calls nothing and returns nil; (3) a run whose validation,
    initialization, input conversion and customization succeed returns nil,
    and after the customization it only removes the working image: no
    format conversion and no ISO build take place. *)
Theorem empty_output_format_produces_nothing :
  forall (lib : PathLib) (oracle : Oracle),
    (forall (S : Type) (s : S) (t : trace)
            (buildDir image base : string) (cfg : Config) (useBase : bool)
            (rpms : list string) (shrink : bool) (split outFile abs : string),
        oracle t _ (FilepathAbs buildDir) = Ok abs ->
        let t1 := (t ++ [Call (FilepathAbs buildDir) (Ok abs)])%list in
        oracle t1 _ (OsMkdirAll abs ModePerm) = None ->
        let t2 := (t1 ++ [Call (OsMkdirAll abs ModePerm) None])%list in
        oracle t2 _ (OsMkdirAll (Dir lib outFile) ModePerm) = None ->
        exists cp,
          initCommonParameters lib oracle buildDir image base cfg useBase rpms
                               shrink split "" outFile s t
          = (Return cp, s,
             (t2 ++ [Call (OsMkdirAll (Dir lib outFile) ModePerm) None])%list)
          /\ outputImageFormat cp = ""
          /\ qemuOutputImageFormat cp = "")
    /\ (forall (cp : CommonParameters) (t : trace),
           outputImageFormat cp = "" ->
           convertWriteableFormatToOutputImage oracle cp t = (Return tt, cp, t))
    /\ (forall (S : Type) (s s1 s2 : S) (t t1 t2 t3 t4 : trace)
               (buildDir base image outFile split : string)
               (cfg cfg' : Config) (rpms : list string)
               (useBase shrink : bool) (cp cp3 cp4 : CommonParameters),
           validateConfig lib oracle base cfg rpms useBase s t
           = (Return cfg', s1, t1) ->
           initCommonParameters lib oracle buildDir image base cfg' useBase
                                rpms shrink split "" outFile s1 t1
           = (Return cp, s2, t2) ->
           convertInputImageToWriteableFormat oracle cp t2
           = (Return tt, cp3, t3) ->
           customizeOSContents lib oracle cp3 t3 = (Return tt, cp4, t4) ->
           CustomizeImage lib oracle buildDir base cfg image rpms outFile ""
                          split useBase shrink s t
           = (Return tt, s2,
              (t4 ++ [Call (FileRemoveFileIfExists (rawImageFile cp4))
                           (oracle t4 _ (FileRemoveFileIfExists
                                           (rawImageFile cp4)))])%list)).
Proof.
  intros lib oracle. split; [| split].
  - intros S s t buildDir image base cfg useBase rpms shrink split outFile abs
           Habs t1 Hmk1 t2 Hmk2.
    eexists. unfold initCommonParameters. go_unfold.
    rewrite Habs. cbn iota beta. fold t1. rewrite Hmk1. cbn iota beta.
    fold t2. cbn [String.eqb negb andb].
    rewrite Hmk2. cbn iota beta. repeat split.
  - apply convertWriteableFormatToOutputImage_empty_format.
  - intros S s s1 s2 t t1 t2 t3 t4 buildDir base image outFile split cfg cfg'
           rpms useBase shrink cp cp3 cp4 Hval Hinit Hconv Hcust.
    assert (Hfmt : outputImageFormat cp4 = "").
    { pose proof (keeps_customizeOSContents lib oracle _ outputImageFormat
                    (fun _ _ => eq_refl) cp3 t3) as K1.
      pose proof (keeps_convertInputImageToWriteableFormat oracle _
                    outputImageFormat (fun _ _ => eq_refl) cp t2) as K2.
      rewrite Hcust in K1. rewrite Hconv in K2. simpl in K1, K2.
      rewrite K1, K2.
      now destruct (initCommonParameters_outputImageFormat _ _ _ _ _ _ _ _ _
                      _ _ _ _ _ _ _ _ _ Hinit). }
    unfold CustomizeImage.
    unfold bind at 1. unfold wrapErr at 1. rewrite Hval.
    unfold bind at 1. unfold wrapErr at 1. rewrite Hinit.
    unfold withObject.
    unfold bind at 1. unfold wrapErr at 1. rewrite Hconv.
    unfold defer.
    unfold bind at 1. unfold wrapErr at 1. rewrite Hcust.
    unfold wrapErr at 1.
    rewrite (convertWriteableFormatToOutputImage_empty_format _ _ _ Hfmt).
    reflexivity.
Qed.

Lemma empty_output_format_produces_nothing_witness :
  exists t' : trace,
    CustomizeImage sampleLib successOracle "/build" "/cfg" osOnlyConfig
                   "/in/base.vhdx" [] "/out/image" "" "" false false tt []
    = (Return tt, tt, t').
Proof.
  eexists.
  eapply (proj2 (proj2 (empty_output_format_produces_nothing
                          sampleLib successOracle)));
    cbv; reflexivity.
Defined.

(** ** The package-source rule (C3) *)

(** With an [os] section, and once the three package lists are merged, the
    rule decides as the specification says: without any RPM source, packages
    to install or update (or the update-existing flag) give the first error,
    customized partitions alone give the second, and in every other case the
    check accepts and stores the merged lists. *)
Lemma validatePackageLists_rule
      (oracle : Oracle) (S : Type) (s : S) (t : trace) (base : string)
      (os : OS) (rpms : list string) (useBase partitionsCustomized : bool)
      (remove install update : list string) :
  let pk := Packages_ os in
  let c1 := CollectPackagesList base (RemoveLists pk) (Remove pk) in
  let c2 := CollectPackagesList base (InstallLists pk) (Install pk) in
  let c3 := CollectPackagesList base (UpdateLists pk) (Update pk) in
  let t1 := (t ++ [Call c1 (Ok remove)])%list in
  let t2 := (t1 ++ [Call c2 (Ok install)])%list in
  let t3 := (t2 ++ [Call c3 (Ok update)])%list in
  oracle t _ c1 = Ok remove ->
  oracle t1 _ c2 = Ok install ->
  oracle t2 _ c3 = Ok update ->
  let run := validatePackageLists oracle base (Some os) rpms useBase
                                  partitionsCustomized s t in
  let noSource := rpms = [] /\ useBase = false in
  let needed :=
    install <> [] \/ update <> [] \/ UpdateExistingPackages pk = true in
  (noSource -> needed ->
   run = (Error "have packages to install or update but no RPM sources were specified",
          s, t3))
  /\ (noSource -> ~ needed -> partitionsCustomized = true ->
      run = (Error "partitions were customized so the initramfs package needs to be reinstalled but no RPM sources were specified",
             s, t3))
  /\ (~ noSource \/ (~ needed /\ partitionsCustomized = false) ->
      run = (Return (set_Packages (mergedPackages pk remove install update) os),
             s, t3)).
Proof.
  intros pk c1 c2 c3 t1 t2 t3 H1 H2 H3 run noSource needed.
  assert (Hrun : run =
    (if negb ((0 <? List.length rpms)%nat || useBase) then
       if (0 <? List.length install)%nat || (0 <? List.length update)%nat
          || UpdateExistingPackages pk
       then Error "have packages to install or update but no RPM sources were specified"
       else if partitionsCustomized
            then Error "partitions were customized so the initramfs package needs to be reinstalled but no RPM sources were specified"
            else Return (set_Packages (mergedPackages pk remove install update) os)
     else Return (set_Packages (mergedPackages pk remove install update) os),
     s, t3)).
  { unfold run, validatePackageLists. go_unfold. fold pk c1 c2 c3.
    rewrite H1. cbn iota beta. fold t1. rewrite H2. cbn iota beta. fold t2.
    rewrite H3. cbn iota beta. fold t3.
    destruct (negb _); [| reflexivity].
    destruct (_ || _ || _); [reflexivity |].
    destruct partitionsCustomized; reflexivity. }
  rewrite Hrun. unfold noSource, needed.
  split; [| split].
  - intros [-> ->] Hn. simpl.
    destruct install; [| reflexivity].
    destruct update; [| reflexivity].
    destruct Hn as [Hn | [Hn | ->]]; try congruence. reflexivity.
  - intros [-> ->] Hn ->. simpl.
    destruct install; [| exfalso; apply Hn; left; discriminate].
    destruct update; [| exfalso; apply Hn; right; left; discriminate].
    destruct (UpdateExistingPackages pk); [exfalso; apply Hn; tauto |].
    reflexivity.
  - intros [Hs | [Hn ->]].
    + destruct rpms; [| reflexivity].
      destruct useBase; [reflexivity |]. exfalso. apply Hs. tauto.
    + destruct (negb _); [| reflexivity].
      destruct install; [| exfalso; apply Hn; left; discriminate].
      destruct update; [| exfalso; apply Hn; right; left; discriminate].
      destruct (UpdateExistingPackages pk); [exfalso; apply Hn; tauto |].
      reflexivity.
Qed.

(** Reading [config.Packages] through a nil [*OS] panics, before anything
    is called. *)
Lemma validatePackageLists_nil (oracle : Oracle) (S : Type) (s : S) (t : trace)
      (base : string) (rpms : list string) (useBase pc : bool) :
  validatePackageLists oracle base None rpms useBase pc s t
  = (Panic nilDereference, s, t).
Proof. reflexivity. Qed.


(** C3: a configuration with a [storage] section, no [os] section and no RPM
    source is not rejected with an error: the validation panics on the nil
    [os] section. *)
Theorem validateConfig_storage_only_panics :
  validateConfig sampleLib successOracle "/cfg" storageOnlyConfig [] false tt []
  = (Panic nilDereference, tt, [Call (ConfigIsValid storageOnlyConfig) None]).
Proof. reflexivity. Qed.

(** The same configuration with an empty [os] section is rejected as the
    rule says. *)
Example validateConfig_storage_and_OS_rejected :
  validateConfig sampleLib successOracle "/cfg" storageAndOSConfig [] false tt []
  = (Error "partitions were customized so the initramfs package needs to be reinstalled but no RPM sources were specified",
     tt,
     [Call (ConfigIsValid storageAndOSConfig) None;
      Call (CollectPackagesList "/cfg" [] []) (Ok []);
      Call (CollectPackagesList "/cfg" [] []) (Ok []);
      Call (CollectPackagesList "/cfg" [] []) (Ok [])]).
Proof. reflexivity. Qed.

(** ** A configuration without [os] section (C7, C4) *)






(** The stages after the validation, on an ISO input without customization
    and with ISO output: the ISO is expanded and its artifacts are loaded;
    no writable image is built from the embedded file system; the
    customization stage does nothing; the output is recreated from the
    builder of the expanded ISO. *)
Lemma iso_without_customization_stages
      (lib : PathLib) (oracle : Oracle) (cp : CommonParameters) (t : trace)
      (folder : string) (b : LiveOSIsoBuilder) :
  filepath.Ext (inputImageFile cp) = ".iso" ->
  customizeOSPartitions cp = false ->
  outputImageFormat cp = "iso" ->
  let c1 := IoutilTempDir (buildDirAbs cp) "expanded-input-iso-" in
  let c2 := CopyIsoImageContentsToFolder (buildDir cp) (inputImageFile cp)
                                         folder in
  let c3 := IsoBuilderFromFolder (buildDir cp) folder in
  let t1 := (t ++ [Call c1 (Ok folder)])%list in
  let t2 := (t1 ++ [Call c2 None])%list in
  let t3 := (t2 ++ [Call c3 (Ok b)])%list in
  oracle t _ c1 = Ok folder ->
  oracle t1 _ c2 = None ->
  oracle t2 _ c3 = Ok b ->
  let cp' := set_isoBuilder (Some b) cp in
  let c4 := RecreateLiveOSIsoImage (Some b) (configPath cp) (Iso_ (config cp))
                                   (outputImageDir cp) (outputImageBase cp) in
  convertInputImageToWriteableFormat oracle cp t = (Return tt, cp', t3)
  /\ customizeOSContents lib oracle cp' t3 = (Return tt, cp', t3)
  /\ convertWriteableFormatToOutputImage oracle cp' t3
     = (match oracle t3 _ c4 with
        | None => Return tt
        | Some e => Error ("failed to create LiveOS ISO:" ++ nl ++ e)
        end, cp', (t3 ++ [Call c4 (oracle t3 _ c4)])%list).
Proof.
  intros Hext Hflag Hfmt c1 c2 c3 t1 t2 t3 H1 H2 H3 cp' c4.
  split; [| split].
  - unfold convertInputImageToWriteableFormat. go_unfold.
    rewrite Hext. cbn [String.eqb Ascii.eqb Bool.eqb andb].
    fold c1. rewrite H1. cbn iota beta. fold t1 c2. rewrite H2.
    cbn iota beta. fold t2 c3. rewrite H3. cbn iota beta. fold t3.
    rewrite Hflag. reflexivity.
  - unfold customizeOSContents, bind, get. cbn [customizeOSPartitions cp' set_isoBuilder].
    rewrite Hflag. reflexivity.
  - unfold convertWriteableFormatToOutputImage. go_unfold.
    cbn [outputImageFormat cp' set_isoBuilder customizeOSPartitions
         configPath config outputImageDir outputImageBase isoBuilder].
    rewrite Hfmt, Hflag. cbn [String.eqb Ascii.eqb Bool.eqb andb orb ImageFormatVhd
      ImageFormatVhdx ImageFormatQCow2 ImageFormatRaw ImageFormatIso].
    fold c4. destruct (oracle t3 _ c4); reflexivity.
Qed.

(** The stages in the sample world, started behind the validation: the ISO
    is expanded into a temporary folder, its artifacts are loaded, and the
    output ISO is recreated from them; the working image is never built. *)
Example iso_stages_example :
  (cp <- initCommonParameters sampleLib successOracle "/build" "/in/live.iso"
                              "/cfg" isoOnlyConfig false [] false "" "iso"
                              "/out/live.iso" ;;
   withObject cp
     (convertInputImageToWriteableFormat successOracle ;;
      defer (removeRawImageFile successOracle)
        (customizeOSContents sampleLib successOracle ;;
         convertWriteableFormatToOutputImage successOracle))) tt []
  = (Return tt, tt,
     [Call (FilepathAbs "/build") (Ok "/build");
      Call (OsMkdirAll "/build" ModePerm) None;
      Call (OsMkdirAll "/out" ModePerm) None;
      Call (IoutilTempDir "/build" "expanded-input-iso-")
           (Ok "/build/expanded-input-iso-1");
      Call (CopyIsoImageContentsToFolder "/build" "/in/live.iso"
              "/build/expanded-input-iso-1") None;
      Call (IsoBuilderFromFolder "/build" "/build/expanded-input-iso-1")
           (Ok (LiveOSIsoBuilderRef 0));
      Call (RecreateLiveOSIsoImage (Some (LiveOSIsoBuilderRef 0)) "/cfg"
              (Some {| IsoAdditionalFiles := [] |}) "/out" "live") None;
      Call (FileRemoveFileIfExists "/build/image.raw") None]).
Proof. vm_compute. reflexivity. Qed.

(** C4: on an ISO input with a configuration that has neither a [storage]
    nor an [os] section, and with ISO output requested, the run does not
    reach the ISO stages: the validation panics on the nil [os] section
    right after [config.IsValid], and no output is produced. *)
Theorem iso_only_run_panics_in_validation :
  CustomizeImage sampleLib successOracle "/build" "/cfg" isoOnlyConfig
                 "/in/live.iso" [] "/out/live.iso" "iso" "" false false tt []
  = (Panic nilDereference, tt, [Call (ConfigIsValid isoOnlyConfig) None]).
Proof. reflexivity. Qed.

(** ** The media check of the live-root script (C8) *)

Lemma nonEmpty_true (s : string) : LiveRoot.nonEmpty s = true <-> s <> "".
Proof.
  unfold LiveRoot.nonEmpty. rewrite negb_true_iff. apply String.eqb_neq.
Qed.

Lemma checkAfterGetarg_nonEmpty (e : LiveRoot.MediaCheckEnv) :
  LiveRoot.nonEmpty (LiveRoot.checkAfterGetarg e) = true <-> checkApplies e.
Proof.
  unfold checkApplies, LiveRoot.checkAfterGetarg. rewrite nonEmpty_true.
  destruct (LiveRoot.getargCheck e).
  - destruct (String.eqb_spec (LiveRoot.fsAfterProbe e) "iso9660") as [E1|N1];
      simpl.
    + split; [tauto | discriminate].
    + destruct (String.eqb_spec (LiveRoot.fsAfterProbe e) "udf") as [E2|N2].
      * split; [tauto | discriminate].
      * split; [tauto | intros [_ [H|[H|H]]]; congruence].
  - split; [congruence | intros [H _]; discriminate H].
Qed.

(** C8, as stated, fails twice: on an optical medium without the check flag
    nothing is verified, even if the verification would fail; and with the
    flag, a verification that ends with status 2 does not stop the boot. *)
Lemma mediaCheck_counterexample :
  ~ mediaCheckAsClaimed opticalNoFlag /\ ~ mediaCheckAsClaimed opticalStatus2.
Proof.
  split; intro H.
  - destruct H as (_ & Hrun & _); [left; reflexivity |]. exact Hrun.
  - destruct H as (_ & _ & Hdie); [left; reflexivity |].
    specialize (Hdie ltac:(discriminate)). discriminate Hdie.
Qed.

(** C8 (amended): the media check runs exactly when the check flag is set
    and the live device is a block device reporting ISO9660 or UDF (or
    [$check] was set beforehand).  It then hides the splash if plymouth is
    there, runs the verification (the unit [checkisomd5@<dev>.service] under
    systemd, [checkisomd5 --verbose] otherwise), and with exit status 1 the
    boot dies with [CD check failed!]; with any other status the splash is
    shown again and the script goes on.  When the check does not run,
    nothing is done. *)
Theorem mediaCheck_runs_and_dies_on_status_1 :
  forall e : LiveRoot.MediaCheckEnv,
    let hide := if LiveRoot.havePlymouth e
                then [LiveRoot.PlymouthHideSplash] else [] in
    let show := if LiveRoot.havePlymouth e
                then [LiveRoot.PlymouthShowSplash] else [] in
    (checkApplies e -> LiveRoot.verifyStatus e = 1%Z ->
     LiveRoot.mediaCheck e
     = ((hide ++ [LiveRoot.verifyCommand e])%list,
        LiveRoot.Dies "CD check failed!"))
    /\ (checkApplies e -> LiveRoot.verifyStatus e <> 1%Z ->
        LiveRoot.mediaCheck e
        = ((hide ++ [LiveRoot.verifyCommand e] ++ show)%list, LiveRoot.GoesOn))
    /\ (~ checkApplies e -> LiveRoot.mediaCheck e = ([], LiveRoot.GoesOn))
    /\ (LiveRoot.DRACUT_SYSTEMD e <> "" ->
        LiveRoot.verifyCommand e
        = LiveRoot.SystemctlStart
            ("checkisomd5@" ++ LiveRoot.devUnitName e ++ ".service"))
    /\ (LiveRoot.DRACUT_SYSTEMD e = "" ->
        LiveRoot.verifyCommand e
        = LiveRoot.Checkisomd5 ["--verbose"; LiveRoot.livedev e]).
Proof.
  intros e hide show. unfold LiveRoot.mediaCheck. fold hide show.
  repeat split.
  - intros Ha Hs. apply checkAfterGetarg_nonEmpty in Ha. rewrite Ha, Hs.
    reflexivity.
  - intros Ha Hs. apply checkAfterGetarg_nonEmpty in Ha. rewrite Ha.
    apply Z.eqb_neq in Hs. now rewrite Hs.
  - intro Hn.
    destruct (LiveRoot.nonEmpty (LiveRoot.checkAfterGetarg e)) eqn:E;
      [| reflexivity].
    now apply checkAfterGetarg_nonEmpty in E.
  - intro Hd. unfold LiveRoot.verifyCommand.
    apply nonEmpty_true in Hd. now rewrite Hd.
  - intro Hd. unfold LiveRoot.verifyCommand. now rewrite Hd.
Qed.

Lemma mediaCheck_runs_and_dies_on_status_1_witness :
  LiveRoot.mediaCheck opticalStatus1
  = ([LiveRoot.PlymouthHideSplash;
      LiveRoot.Checkisomd5 ["--verbose"; "/dev/sr0"]],
     LiveRoot.Dies "CD check failed!").
Proof.
  apply (proj1 (mediaCheck_runs_and_dies_on_status_1 opticalStatus1)).
  - split; [reflexivity | left; reflexivity].
  - reflexivity.
Defined.

(** ** The size of the temporary overlay (C9) *)

Lemma wrap64_small (z : Z) :
  (- 2 ^ 63 <= z < 2 ^ 63)%Z -> LiveRoot.wrap64 z = z.
Proof.
  intro H. unfold LiveRoot.wrap64.
  rewrite Z.mod_small by lia. lia.
Qed.

(** C9, as stated, fails for a size of 2^54 MiB: the product with 1024
    wraps around to 0 in the shell, and [/overlay] gets no byte at all.  It
    also fails for a size written [010]: the shell reads the word in octal,
    and the file gets 8 MiB, not 10. *)
Lemma overlay_size_counterexample :
  LiveRoot.overlayFileSize "18014398509481984" = Some 0%Z
  /\ ~ overlaySizeAsClaimed "18014398509481984" (2 ^ 54)
  /\ LiveRoot.overlayFileSize "010" = Some 8388608%Z
  /\ ~ overlaySizeAsClaimed "010" 10.
Proof.
  split; [reflexivity |]. split; [| split; [reflexivity |]];
    unfold overlaySizeAsClaimed; vm_compute; discriminate.
Qed.

Lemma wantsTemporaryStore_true (v : LiveRoot.OverlayVars) :
  LiveRoot.setup v = ""
  \/ (LiveRoot.readonly_overlay v <> ""
      /\ LiveRoot.testBinop (LiveRoot.setup v) = false) ->
  LiveRoot.wantsTemporaryStore v = true.
Proof.
  unfold LiveRoot.wantsTemporaryStore. intros [E | [Hr Hb]].
  - rewrite E. reflexivity.
  - rewrite Hb. apply nonEmpty_true in Hr. rewrite Hr. apply orb_true_r.
Qed.

(** C9 (amended): when [do_live_overlay] allocates a temporary DM-snapshot
    store (its test for one holds, and no OverlayFS), and the overlay size
    is written as one integer constant, which shell arithmetic reads as the
    number [n] (in decimal, in octal after a leading [0], in hexadecimal
    after [0x]), the file [/overlay] is created with an apparent size of
    exactly [n] times 1024 times 1024 bytes for every [n] from 0 on whose
    byte count fits a file offset (at most 2^63 - 1); a constant with a
    digit its base does not have is an arithmetic error, on which no command
    of the branch is run and no file made; with no size on the command line
    the size is 32768 and the file has 34,359,738,368 bytes. *)
Theorem overlay_file_size :
  forall v : LiveRoot.OverlayVars,
    let size := LiveRoot.readConstant
                  (LiveRoot.overlay_size (LiveRoot.sizeArg v)) in
    let store := LiveRoot.allocateTemporaryStore v in
    (LiveRoot.setup v = ""
     \/ (LiveRoot.readonly_overlay v <> ""
         /\ LiveRoot.testBinop (LiveRoot.setup v) = false)) ->
    LiveRoot.overlayfs v = "" ->
    (forall n : Z,
        size = Some (LiveRoot.Value n) ->
        (0 <= n)%Z -> (n * 1024 * 1024 <= LiveRoot.OFF_T_MAX)%Z ->
        store = Some (LiveRoot.Ran [LiveRoot.DdSparse "/overlay" 1024
                                                      (n * 1024)%Z;
                                    LiveRoot.Losetup "/overlay"])
        /\ LiveRoot.apparentSizeAfter "/overlay" (LiveRoot.commandsOf store)
           = Some (n * 1024 * 1024)%Z)
    /\ (size = Some LiveRoot.ArithError ->
        store = Some (LiveRoot.GaveUp [])
        /\ LiveRoot.apparentSizeAfter "/overlay" (LiveRoot.commandsOf store)
           = None)
    /\ (LiveRoot.sizeArg v = "" ->
        LiveRoot.apparentSizeAfter "/overlay" (LiveRoot.commandsOf store)
        = Some 34359738368%Z).
Proof.
  intros v size store Hbranch Hovl. subst size store.
  unfold LiveRoot.allocateTemporaryStore, LiveRoot.overlaySeek.
  rewrite (wantsTemporaryStore_true v Hbranch), Hovl.
  cbn [LiveRoot.nonEmpty String.eqb negb].
  split; [| split].
  - intros n Hn H0 Hfit. rewrite Hn.
    unfold LiveRoot.shellMul, LiveRoot.OFF_T_MAX in *.
    rewrite wrap64_small by lia. split; [reflexivity |].
    cbn [LiveRoot.commandsOf LiveRoot.apparentSizeAfter String.eqb Ascii.eqb
         Bool.eqb andb].
    unfold LiveRoot.ddApparentSize, LiveRoot.OFF_T_MAX.
    replace ((0 <=? n * 1024) && (n * 1024 * 1024 <=? 2 ^ 63 - 1))%Z
      with true; [reflexivity |].
    symmetry. apply andb_true_intro.
    split; [apply Z.leb_le | apply Z.leb_le]; lia.
  - intros He. rewrite He. split; reflexivity.
  - intros Hnone. rewrite Hnone. reflexivity.
Qed.

Lemma overlay_file_size_witness :
  LiveRoot.apparentSizeAfter "/overlay"
    (LiveRoot.commandsOf
       (LiveRoot.allocateTemporaryStore (temporarySnapshotVars "")))
  = Some 34359738368%Z.
Proof.
  refine (proj2 (proj2 (overlay_file_size (temporarySnapshotVars "") _ _)) _).
  - left. reflexivity.
  - reflexivity.
  - reflexivity.
Defined.

(* ================================================================== *)
(** * Further properties of the sources *)
(* ================================================================== *)

(** ** [updateMarinerCfgWithInitramfs], [buildDracutModule] *)

Lemma HasPrefix_append (p s : string) : strings.HasPrefix (p ++ s) p = true.
Proof.
  induction p as [|c p IH]; simpl; [now destruct s |].
  now rewrite Ascii.eqb_refl, IH.
Qed.

Lemma setIndex_app (done : list string) (x v : string) (rest : list string) :
  setIndex (List.length done) v (done ++ x :: rest) = (done ++ v :: rest)%list.
Proof. induction done as [|d done IH]; simpl; [reflexivity | now rewrite IH]. Qed.

Lemma updateInitrdFrom_map (n : string) (rest done : list string) :
  updateInitrdFrom n (List.length done) rest (done ++ rest)
  = (done ++ map (initrdLine n) rest)%list.
Proof.
  revert done. induction rest as [|line rest IH]; intro done;
    cbn [updateInitrdFrom map].
  - reflexivity.
  - assert (E : (if strings.HasPrefix line "mariner_initrd="
                 then setIndex (List.length done) ("mariner_initrd=" ++ n)
                                (done ++ line :: rest)
                 else (done ++ line :: rest)%list)
                = ((done ++ [initrdLine n line]) ++ rest)%list).
    { unfold initrdLine.
      destruct (strings.HasPrefix line "mariner_initrd=");
        [rewrite setIndex_app |]; now rewrite <- app_assoc. }
    rewrite E.
    replace (Datatypes.S (List.length done))
      with (List.length (done ++ [initrdLine n line])%list)
      by (rewrite length_app; simpl; lia).
    rewrite IH. now rewrite <- app_assoc.
Qed.

Lemma updateInitrdLines_map (n : string) (lines : list string) :
  updateInitrdLines n lines = map (initrdLine n) lines.
Proof. exact (updateInitrdFrom_map n lines []). Qed.

Lemma initrdLine_again (n1 n2 line : string) :
  initrdLine n2 (initrdLine n1 line) = initrdLine n2 line.
Proof.
  unfold initrdLine.
  destruct (strings.HasPrefix line "mariner_initrd=") eqn:E.
  - now rewrite HasPrefix_append.
  - now rewrite E.
Qed.

(** X1: the loop of [updateMarinerCfgWithInitramfs] keeps the number and
    the order of the lines, changes exactly the lines that start with
    [mariner_initrd=], and rewriting a second time, with any name, gives
    what rewriting once with that name gives (so the rewrite is
    idempotent). *)
Theorem updateInitrdLines_last_wins :
  forall (n1 n2 : string) (lines : list string),
    List.length (updateInitrdLines n1 lines) = List.length lines
    /\ (forall i line,
           nth_error lines i = Some line ->
           nth_error (updateInitrdLines n1 lines) i
           = Some (if strings.HasPrefix line "mariner_initrd="
                   then "mariner_initrd=" ++ n1 else line))
    /\ updateInitrdLines n2 (updateInitrdLines n1 lines)
       = updateInitrdLines n2 lines.
Proof.
  intros n1 n2 lines. rewrite !updateInitrdLines_map. repeat split.
  - apply length_map.
  - intros i line H. rewrite nth_error_map, H. reflexivity.
  - rewrite map_map. apply map_ext. intro l. apply initrdLine_again.
Qed.

(** X2: unless exactly one [boot/initramfs-*] file is found,
    [updateMarinerCfgWithInitramfs] returns the error that names the number
    found, and [mariner.cfg] is neither read nor written. *)
Theorem updateMarinerCfgWithInitramfs_count :
  forall (lib : PathLib) (oracle : Oracle) (S : Type) (s : S) (t : trace)
         (imageChroot : Chroot) (files : list string),
    let glob := FilepathGlob
                  (Join lib [RootDir imageChroot; "boot/initramfs-*"]) in
    oracle t _ glob = Ok files ->
    List.length files <> 1 ->
    updateMarinerCfgWithInitramfs lib oracle imageChroot s t
    = (Error ("expected one initramfs file, but found "
              ++ itoa (List.length files)),
       s, (t ++ [Call glob (Ok files)])%list).
Proof.
  intros lib oracle S s t c files glob Hglob Hlen.
  unfold updateMarinerCfgWithInitramfs. go_unfold. fold glob.
  rewrite Hglob. cbn iota beta.
  apply Nat.eqb_neq in Hlen. rewrite Hlen. reflexivity.
Qed.

Lemma updateMarinerCfgWithInitramfs_count_witness :
  updateMarinerCfgWithInitramfs sampleLib twoKernelsOracle
                                {| RootDir := "/root" |} tt []
  = (Error "expected one initramfs file, but found 2", tt,
     [Call (FilepathGlob "/root/boot/initramfs-*")
           (Ok ["/root/boot/vmlinuz-5.15.1"; "/root/boot/vmlinuz-6.1.0"])]).
Proof.
  apply (updateMarinerCfgWithInitramfs_count sampleLib twoKernelsOracle unit
           tt [] {| RootDir := "/root" |}
           ["/root/boot/vmlinuz-5.15.1"; "/root/boot/vmlinuz-6.1.0"]).
  - reflexivity.
  - discriminate.
Defined.

(** X3: with exactly one initramfs file and a readable [mariner.cfg],
    [updateMarinerCfgWithInitramfs] writes back to the same path the lines
    it read, each [mariner_initrd=] line now naming the base name of that
    file, and returns the write error, if any, wrapped. *)
Theorem updateMarinerCfgWithInitramfs_rewrites :
  forall (lib : PathLib) (oracle : Oracle) (S : Type) (s : S) (t : trace)
         (imageChroot : Chroot) (file : string) (lines : list string),
    let glob := FilepathGlob
                  (Join lib [RootDir imageChroot; "boot/initramfs-*"]) in
    let cfgPath := Join lib [RootDir imageChroot; "boot/mariner.cfg"] in
    let t1 := (t ++ [Call glob (Ok [file])])%list in
    let t2 := (t1 ++ [Call (FileReadLines cfgPath) (Ok lines)])%list in
    let written := map (initrdLine (Base lib file)) lines in
    oracle t _ glob = Ok [file] ->
    oracle t1 _ (FileReadLines cfgPath) = Ok lines ->
    updateMarinerCfgWithInitramfs lib oracle imageChroot s t
    = (match oracle t2 _ (FileWriteLines written cfgPath) with
       | None => Return tt
       | Some e => Error ("failed to write to mariner.cfg: " ++ e)
       end, s,
       (t2 ++ [Call (FileWriteLines written cfgPath)
                    (oracle t2 _ (FileWriteLines written cfgPath))])%list).
Proof.
  intros lib oracle S s t c file lines glob cfgPath t1 t2 written Hglob Hread.
  unfold updateMarinerCfgWithInitramfs. go_unfold. fold glob.
  rewrite Hglob. cbn iota beta. cbn [List.length Nat.eqb negb nth].
  fold t1 cfgPath. rewrite Hread. cbn iota beta. fold t2.
  rewrite updateInitrdLines_map. fold written.
  destruct (oracle t2 _ (FileWriteLines written cfgPath)); reflexivity.
Qed.

Lemma updateMarinerCfgWithInitramfs_rewrites_witness :
  updateMarinerCfgWithInitramfs sampleLib oneInitramfsOracle
                                {| RootDir := "/root" |} tt []
  = (Return tt, tt,
     [Call (FilepathGlob "/root/boot/initramfs-*")
           (Ok ["/root/boot/initramfs-6.1.0.img"]);
      Call (FileReadLines "/root/boot/mariner.cfg")
           (Ok ["mariner_linux=vmlinuz-6.1.0"; "mariner_initrd=initrd.img-old"]);
      Call (FileWriteLines ["mariner_linux=vmlinuz-6.1.0";
                            "mariner_initrd=initramfs-6.1.0.img"]
                           "/root/boot/mariner.cfg") None]).
Proof.
  exact (updateMarinerCfgWithInitramfs_rewrites sampleLib oneInitramfsOracle
           unit tt [] {| RootDir := "/root" |} "/root/boot/initramfs-6.1.0.img"
           ["mariner_linux=vmlinuz-6.1.0"; "mariner_initrd=initrd.img-old"]
           eq_refl eq_refl).
Defined.

(** X4: unless exactly one [boot/vmlinuz-*] kernel is found,
    [enableVerityPartition] fails with the error for none or for several
    kernels right after listing them: nothing is run in the chroot (however
    [Run] behaves), and [mariner.cfg] is not touched. *)
Theorem enableVerityPartition_kernel_count :
  forall (lib : PathLib) (oracle : Oracle)
         (chrootRun : forall S : Type, Chroot -> M S unit -> M S unit)
         (S : Type) (s : S) (t : trace) (imageChroot : Chroot)
         (files : list string),
    let glob := FilepathGlob
                  (Join lib [Join lib [RootDir imageChroot; "boot"];
                             "vmlinuz-*"]) in
    oracle t _ glob = Ok files ->
    List.length files <> 1 ->
    enableVerityPartition lib oracle chrootRun imageChroot s t
    = (Error (if (List.length files =? 0)%nat
              then "no kernels found in chroot environment"
              else "multiple kernels found in chroot environment, expected only one"),
       s, (t ++ [Call glob (Ok files)])%list).
Proof.
  intros lib oracle run S s t c files glob Hglob Hlen.
  unfold enableVerityPartition, buildDracutModule, listKernels.
  go_unfold. fold glob. rewrite Hglob. cbn iota beta.
  rewrite length_map.
  destruct files as [|f1 [|f2 rest]]; [reflexivity | | reflexivity].
  now contradiction Hlen.
Qed.

Lemma enableVerityPartition_kernel_count_witness :
  enableVerityPartition sampleLib twoKernelsOracle plainRun
                        {| RootDir := "/root" |} tt []
  = (Error "multiple kernels found in chroot environment, expected only one",
     tt,
     [Call (FilepathGlob "/root/boot/vmlinuz-*")
           (Ok ["/root/boot/vmlinuz-5.15.1"; "/root/boot/vmlinuz-6.1.0"])]).
Proof.
  apply (enableVerityPartition_kernel_count sampleLib twoKernelsOracle plainRun
           unit tt [] {| RootDir := "/root" |}
           ["/root/boot/vmlinuz-5.15.1"; "/root/boot/vmlinuz-6.1.0"]).
  - reflexivity.
  - discriminate.
Defined.

(** ** [idToPartitionBlockDevicePath], [systemdFormatPartitionId] *)

Lemma matchesId_field idType id p :
  matchesId idType id p = true <-> idField idType p = Some id.
Proof.
  unfold matchesId. destruct (idField idType p) as [v|].
  - rewrite String.eqb_eq. split; congruence.
  - split; discriminate.
Qed.

Lemma find_first {A : Type} (f : A -> bool) (l : list A) (x : A) :
  find f l = Some x ->
  exists before after,
    l = (before ++ x :: after)%list /\ f x = true
    /\ Forall (fun y => f y = false) before.
Proof.
  induction l as [|a l IH]; simpl; [discriminate |].
  destruct (f a) eqn:E.
  - intros [= <-]. exists [], l. repeat split; auto.
  - intro H. destruct (IH H) as (b & c & -> & Hx & Hb).
    exists (a :: b), c. repeat split; auto.
Qed.

(** X5: whenever [idToPartitionBlockDevicePath] returns a path, the
    identifier type is one of the three supported ones, and the path is
    that of the first partition of the list whose field of that type holds
    the value asked for. *)
Theorem idToPartitionBlockDevicePath_first_match :
  forall (idType : IdType) (id nbdDevice : string)
         (diskPartitions : list diskutils.PartitionInfo) (path : string),
    idToPartitionBlockDevicePath idType id nbdDevice diskPartitions = Ok path ->
    supportedIdType idType = true
    /\ exists before p after,
         diskPartitions = (before ++ p :: after)%list
         /\ diskutils.Path p = path
         /\ idField idType p = Some id
         /\ Forall (fun q => idField idType q <> Some id) before.
Proof.
  intros idType id nbd parts path H.
  destruct (supportedIdType idType) eqn:Hs.
  - split; [reflexivity |].
    rewrite (idToPartitionBlockDevicePath_supported _ _ _ _ Hs) in H.
    destruct (find (matchesId idType id) parts) as [p|] eqn:F;
      [| discriminate].
    injection H as <-.
    destruct (find_first _ _ _ F) as (b & a & -> & Hp & Hb).
    exists b, p, a. repeat split.
    + now apply matchesId_field.
    + eapply Forall_impl; [| exact Hb]. intros q Hq Hc.
      apply matchesId_field in Hc. congruence.
  - destruct parts as [|p rest]; [discriminate |].
    rewrite (idToPartitionBlockDevicePath_unsupported _ _ _ _ _ Hs) in H.
    discriminate.
Qed.

Lemma idToPartitionBlockDevicePath_first_match_witness :
  supportedIdType "partuuid" = true
  /\ exists before p after,
       examplePartitions = (before ++ p :: after)%list
       /\ diskutils.Path p = "/dev/nbd0p2"
       /\ idField "partuuid" p = Some "1111"
       /\ Forall (fun q => idField "partuuid" q <> Some "1111") before.
Proof.
  apply (idToPartitionBlockDevicePath_first_match
           "partuuid" "1111" "/dev/nbd0" examplePartitions "/dev/nbd0p2").
  reflexivity.
Defined.

Lemma systemdFormatPartitionId_supported idType id :
  supportedIdType idType = true ->
  exists tag,
    In tag systemdTags
    /\ systemdFormatPartitionId idType id = Ok (tag ++ "=" ++ id).
Proof.
  unfold supportedIdType, systemdFormatPartitionId. intro Hs. rewrite Hs.
  destruct (String.eqb_spec idType IdTypePartlabel) as [-> |];
    [exists "PARTLABEL"; simpl; auto |].
  destruct (String.eqb_spec idType IdTypeUuid) as [-> |];
    [exists "UUID"; simpl; auto |].
  destruct (String.eqb_spec idType IdTypePartuuid) as [-> |];
    [exists "PARTUUID"; simpl; auto | discriminate Hs].
Qed.

(** X6: an identifier that [idToPartitionBlockDevicePath] resolves is one
    [systemdFormatPartitionId] renders: as [PARTLABEL=], [UUID=] or
    [PARTUUID=] followed by the value.  So once both verity partitions are
    found, the boot-loader patch cannot fail on the identifier type. *)
Theorem resolved_identifier_is_formatted :
  forall (idType : IdType) (id nbdDevice : string)
         (diskPartitions : list diskutils.PartitionInfo) (path : string),
    idToPartitionBlockDevicePath idType id nbdDevice diskPartitions = Ok path ->
    exists tag,
      In tag systemdTags
      /\ systemdFormatPartitionId idType id = Ok (tag ++ "=" ++ id).
Proof.
  intros idType id nbd parts path H.
  apply systemdFormatPartitionId_supported.
  destruct (supportedIdType idType) eqn:Hs; [reflexivity |].
  destruct parts as [|p rest]; [discriminate |].
  rewrite (idToPartitionBlockDevicePath_unsupported _ _ _ _ _ Hs) in H.
  discriminate.
Qed.

Lemma resolved_identifier_is_formatted_witness :
  exists tag,
    In tag systemdTags
    /\ systemdFormatPartitionId "partlabel" "roothash"
       = Ok (tag ++ "=" ++ "roothash").
Proof.
  apply (resolved_identifier_is_formatted
           "partlabel" "roothash" "/dev/nbd0" examplePartitions "/dev/nbd0p3").
  reflexivity.
Defined.

(** ** [updateGrubConfig]: when nothing is written *)

Lemma systemdFormatPartitionId_unsupported idType id :
  supportedIdType idType = false ->
  systemdFormatPartitionId idType id
  = Err ("invalid idType provided (" ++ idType ++ ")").
Proof.
  unfold supportedIdType, systemdFormatPartitionId. now intros ->.
Qed.

(** X7: [updateGrubConfig] checks both identifier types before it looks at
    the file: with an unsupported type, of the data partition or of the hash
    partition, it returns the invalid-idType error for the first such type
    and [grub.cfg] is neither read nor written. *)
Theorem updateGrubConfig_unsupported_type :
  forall (oracle : Oracle) (S : Type) (s : S) (t : trace)
         (dataType : IdType) (dataId : string)
         (hashType : IdType) (hashId : string)
         (rootHash grubCfgFullPath : string),
    supportedIdType dataType && supportedIdType hashType = false ->
    updateGrubConfig oracle dataType dataId hashType hashId rootHash
                     grubCfgFullPath s t
    = (Error ("invalid idType provided ("
              ++ (if supportedIdType dataType then hashType else dataType)
              ++ ")"), s, t).
Proof.
  intros oracle S s t dt di ht hi rootHash path H.
  unfold updateGrubConfig.
  destruct (supportedIdType dt) eqn:Hd.
  - simpl in H.
    destruct (systemdFormatPartitionId_supported dt di Hd) as (tag & _ & ->).
    rewrite (systemdFormatPartitionId_unsupported ht hi H). reflexivity.
  - rewrite (systemdFormatPartitionId_unsupported dt di Hd). reflexivity.
Qed.

Lemma updateGrubConfig_unsupported_type_witness :
  updateGrubConfig successOracle "partuuid" "1111" "label" "roothash"
                   "9f8e" "/boot/grub2/grub.cfg" tt []
  = (Error "invalid idType provided (label)", tt, []).
Proof.
  apply (updateGrubConfig_unsupported_type successOracle unit tt []
           "partuuid" "1111" "label" "roothash" "9f8e" "/boot/grub2/grub.cfg").
  reflexivity.
Defined.

(** X8: when [grub.cfg] cannot be read, [updateGrubConfig] returns the
    read error behind [failed to read grub config: ] and writes nothing:
    the read is its only call. *)
Theorem updateGrubConfig_read_failure :
  forall (oracle : Oracle) (S : Type) (s : S) (t : trace)
         (dataType : IdType) (dataId : string)
         (hashType : IdType) (hashId : string)
         (rootHash grubCfgFullPath : string) (e : error),
    supportedIdType dataType = true ->
    supportedIdType hashType = true ->
    oracle t _ (FileReadLines grubCfgFullPath) = Err e ->
    updateGrubConfig oracle dataType dataId hashType hashId rootHash
                     grubCfgFullPath s t
    = (Error ("failed to read grub config: " ++ e), s,
       (t ++ [Call (FileReadLines grubCfgFullPath) (Err e)])%list).
Proof.
  intros oracle S s t dt di ht hi rootHash path e Hd Hh Hread.
  unfold updateGrubConfig.
  destruct (systemdFormatPartitionId_supported dt di Hd) as (tag1 & _ & ->).
  destruct (systemdFormatPartitionId_supported ht hi Hh) as (tag2 & _ & ->).
  go_unfold. rewrite Hread. reflexivity.
Qed.

Lemma updateGrubConfig_read_failure_witness :
  updateGrubConfig unreadableOracle "partuuid" "1111" "partlabel" "roothash"
                   "9f8e" "/boot/grub2/grub.cfg" tt []
  = (Error "failed to read grub config: permission denied", tt,
     [Call (FileReadLines "/boot/grub2/grub.cfg") (Err "permission denied")]).
Proof.
  apply (updateGrubConfig_read_failure unreadableOracle unit tt []
           "partuuid" "1111" "partlabel" "roothash" "9f8e"
           "/boot/grub2/grub.cfg" "permission denied"); reflexivity.
Defined.

(** ** [findFreeNBDDevice] *)

Lemma findFreeNBDDeviceIn_cons (lib : PathLib) (oracle : Oracle) (S : Type)
      (file : string) (files : list string) (s : S) (t : trace) :
  let st := oracle t _ (OsStat (Join lib [file; "pid"])) in
  let t1 := (t ++ [Call (OsStat (Join lib [file; "pid"])) st])%list in
  findFreeNBDDeviceIn lib oracle (file :: files) s t
  = if notExist st then (Return ("/dev/" ++ Base lib file), s, t1)
    else findFreeNBDDeviceIn lib oracle files s t1.
Proof.
  cbn [findFreeNBDDeviceIn]. unfold bind, call.
  destruct (oracle t _ (OsStat (Join lib [file; "pid"]))) as [m|[|] e];
    reflexivity.
Qed.

Lemma findFreeNBDDeviceIn_probes (lib : PathLib) (oracle : Oracle) (S : Type)
      (files : list string) (s : S) (t : trace) :
  exists (probes : list (string * StatResult)) (rest : list string),
    files = (map fst probes ++ rest)%list
    /\ snd (findFreeNBDDeviceIn lib oracle files s t)
       = (t ++ pidProbes lib probes)%list
    /\ match fst (fst (findFreeNBDDeviceIn lib oracle files s t)) with
       | Return dev =>
         exists busy file st,
           probes = (busy ++ [(file, st)])%list
           /\ Forall (fun p => notExist (snd p) = false) busy
           /\ notExist st = true
           /\ dev = "/dev/" ++ Base lib file
       | Error e =>
         e = "no free nbd devices available" /\ rest = []
         /\ Forall (fun p => notExist (snd p) = false) probes
       | Panic _ => False
       end.
Proof.
  revert t. induction files as [|file files IH]; intro t.
  - exists (@nil (string * StatResult)). exists (@nil string).
    simpl. rewrite app_nil_r. repeat split; constructor.
  - rewrite findFreeNBDDeviceIn_cons. cbv zeta.
    remember (oracle t _ (OsStat (Join lib [file; "pid"]))) as st eqn:Est.
    clear Est.
    destruct (notExist st) eqn:Hfree.
    + exists (cons (file, st) nil). exists files.
      simpl. repeat split.
      exists (@nil (string * StatResult)). exists file. exists st.
      repeat split; auto.
    + destruct (IH (t ++ [Call (OsStat (Join lib [file; "pid"])) st])%list)
        as (probes & rest & Hfiles & Htrace & Hres).
      exists (cons (file, st) probes). exists rest. repeat split.
      * simpl. now rewrite Hfiles.
      * rewrite Htrace. now rewrite <- app_assoc.
      * destruct (fst (fst (findFreeNBDDeviceIn lib oracle files s _)))
          as [dev|e|p]; [| | exact Hres].
        -- destruct Hres as (busy & f & st' & -> & Hb & Hf & Hdev).
           exists (cons (file, st) busy). exists f. exists st'.
           repeat split; auto.
        -- destruct Hres as (He & Hrest & Hb). repeat split; auto.
Qed.

(** X9: [findFreeNBDDevice] asks for the [pid] file of the globbed nodes
    in order and stops at the first that does not exist.  When it returns a
    device, every node asked about before had a [pid] file (or could not be
    examined), the last one asked about has none, and the device is
    [/dev/] followed by the base name of that node; when no node is free it
    has asked about all of them and returns the error saying so.  It never
    panics. *)
Theorem findFreeNBDDevice_first_free :
  forall (lib : PathLib) (oracle : Oracle) (S : Type) (s : S) (t : trace)
         (files : list string),
    let glob := FilepathGlob "/sys/class/block/nbd*" in
    oracle t _ glob = Ok files ->
    exists (probes : list (string * StatResult)) (rest : list string),
      files = (map fst probes ++ rest)%list
      /\ snd (findFreeNBDDevice lib oracle s t)
         = (t ++ Call glob (Ok files) :: pidProbes lib probes)%list
      /\ match fst (fst (findFreeNBDDevice lib oracle s t)) with
         | Return dev =>
           exists busy file st,
             probes = (busy ++ [(file, st)])%list
             /\ Forall (fun p => notExist (snd p) = false) busy
             /\ notExist st = true
             /\ dev = "/dev/" ++ Base lib file
         | Error e =>
           e = "no free nbd devices available" /\ rest = []
           /\ Forall (fun p => notExist (snd p) = false) probes
         | Panic _ => False
         end.
Proof.
  intros lib oracle S s t files glob Hglob.
  assert (E : findFreeNBDDevice lib oracle s t
              = findFreeNBDDeviceIn lib oracle files s
                  (t ++ [Call glob (Ok files)])%list).
  { unfold findFreeNBDDevice, callR, call, bind. fold glob.
    now rewrite Hglob. }
  rewrite E.
  destruct (findFreeNBDDeviceIn_probes lib oracle S files s
              (t ++ [Call glob (Ok files)])%list)
    as (probes & rest & Hfiles & Htrace & Hres).
  exists probes, rest. repeat split; [exact Hfiles | | exact Hres].
  rewrite Htrace. now rewrite <- app_assoc.
Qed.

Lemma findFreeNBDDevice_first_free_witness :
  exists (probes : list (string * StatResult)) (rest : list string),
    ["/sys/class/block/nbd0"; "/sys/class/block/nbd1"; "/sys/class/block/nbd2"]
    = (map fst probes ++ rest)%list
    /\ snd (findFreeNBDDevice sampleLib nbdOracle tt [])
       = ([] ++ Call (FilepathGlob "/sys/class/block/nbd*")
                     (Ok ["/sys/class/block/nbd0"; "/sys/class/block/nbd1";
                          "/sys/class/block/nbd2"])
             :: pidProbes sampleLib probes)%list
    /\ match fst (fst (findFreeNBDDevice sampleLib nbdOracle tt [])) with
       | Return dev =>
         exists busy file st,
           probes = (busy ++ [(file, st)])%list
           /\ Forall (fun p => notExist (snd p) = false) busy
           /\ notExist st = true
           /\ dev = "/dev/" ++ sampleBase file
       | Error e =>
         e = "no free nbd devices available" /\ rest = []
         /\ Forall (fun p => notExist (snd p) = false) probes
       | Panic _ => False
       end.
Proof.
  apply (findFreeNBDDevice_first_free sampleLib nbdOracle unit tt []
           ["/sys/class/block/nbd0"; "/sys/class/block/nbd1";
            "/sys/class/block/nbd2"]).
  reflexivity.
Defined.

(** ** [validateScript] *)

Lemma execBits_test (mode : N) :
  (N.land mode execBits =? 0)%N = negb (anyExecBit mode).
Proof.
  unfold execBits, anyExecBit.
  destruct mode as [|p]; [reflexivity |].
  do 7 (try (destruct p as [p|p|])); reflexivity.
Qed.

(** X10: [validateScript] looks at the file system exactly when the script
    path is local, with one [os.Stat] of the path joined to the
    configuration directory, and it accepts the script exactly when the path
    is local, the file could be examined and one of its three execute bits
    (owner, group, other) is set.  It never panics. *)
Theorem validateScript_accepts_local_executables :
  forall (lib : PathLib) (oracle : Oracle) (S : Type) (s : S) (t : trace)
         (baseConfigPath : string) (script : Script),
    let stat := OsStat (Join lib [baseConfigPath; Path script]) in
    let run := validateScript lib oracle baseConfigPath script s t in
    snd (fst run) = s
    /\ snd run = (if IsLocal lib (Path script)
                  then t ++ [Call stat (oracle t _ stat)] else t)%list
    /\ (fst (fst run) = Return tt <->
        IsLocal lib (Path script) = true
        /\ exists mode, oracle t _ stat = StatOk mode
                        /\ anyExecBit mode = true)
    /\ (forall msg, fst (fst run) <> Panic msg).
Proof.
  intros lib oracle S s t base script stat run. subst run.
  unfold validateScript.
  destruct (IsLocal lib (Path script)); cbn [negb].
  - go_unfold. fold stat.
    destruct (oracle t _ stat) as [mode|ne e]; cbn iota beta.
    + rewrite execBits_test.
      destruct (anyExecBit mode) eqn:Hx; cbn [negb fst snd];
        (split; [reflexivity |]); (split; [reflexivity |]);
        (split; [split | intros; discriminate]).
      * intros _. split; [reflexivity |]. now exists mode.
      * reflexivity.
      * discriminate.
      * intros [_ (m & [= <-] & Hm)]. congruence.
    + cbn [fst snd].
      (split; [reflexivity |]); (split; [reflexivity |]);
        (split; [split | intros; discriminate]).
      * discriminate.
      * intros [_ (m & Hm & _)]. discriminate.
  - cbn.
    (split; [reflexivity |]); (split; [reflexivity |]);
      (split; [split | intros; discriminate]).
    + discriminate.
    + intros [H _]. discriminate.
Qed.

(** ** [validateAdditionalFiles] *)

Lemma errorsJoin_Some (a : option error) (e : error) :
  errorsJoin a e <> None.
Proof. destruct a; discriminate. Qed.

Lemma validateAdditionalFilesFrom_all (lib : PathLib) (oracle : Oracle)
      (S : Type) (base : string) (files : AdditionalFilesMap)
      (agg : option error) (s : S) (t : trace) :
  exists answers : list (bool * option error),
    List.length answers = List.length files
    /\ snd (fst (validateAdditionalFilesFrom lib oracle base files agg s t)) = s
    /\ snd (validateAdditionalFilesFrom lib oracle base files agg s t)
       = (t ++ isFileCalls lib base files answers)%list
    /\ fst (fst (validateAdditionalFilesFrom lib oracle base files agg s t))
       = match (if forallb plainFile answers then agg
                else match fst (fst (validateAdditionalFilesFrom
                                       lib oracle base files agg s t)) with
                     | Error e => Some e
                     | _ => None
                     end) with
         | None => Return tt
         | Some e => Error e
         end
    /\ (forallb plainFile answers = false ->
        exists e, fst (fst (validateAdditionalFilesFrom
                              lib oracle base files agg s t)) = Error e).
Proof.
  revert agg t. induction files as [|[src dst] files IH]; intros agg t.
  - exists (@nil (bool * option error)). cbn.
    rewrite app_nil_r. destruct agg; cbn; repeat split; discriminate.
  - cbn [validateAdditionalFilesFrom]. unfold bind, call.
    remember (oracle t _ (FileIsFile (GetAbsPathWithBase lib base src)))
      as a eqn:Ea. clear Ea. destruct a as [isFile err]. cbn iota beta.
    match goal with
    | |- context [validateAdditionalFilesFrom lib oracle base files ?g s ?u] =>
      destruct (IH g u) as (answers & Hlen & Hs & Ht & Hr & He);
      set (agg' := g) in *; set (t1 := u) in *
    end.
    exists (cons (isFile, err) answers).
    split; [cbn; now rewrite Hlen |].
    split; [exact Hs |].
    split; [rewrite Ht; unfold t1; cbn; now rewrite <- app_assoc |].
    assert (Hagg : plainFile (isFile, err) = true -> agg' = agg).
    { unfold agg'. destruct isFile, err; cbn; congruence. }
    assert (Hbad : plainFile (isFile, err) = false -> agg' <> None).
    { unfold agg'. destruct isFile, err; cbn; try discriminate;
        intros _; apply errorsJoin_Some. }
    cbn [forallb].
    destruct (plainFile (isFile, err)) eqn:Hp; cbn [andb].
    + rewrite <- (Hagg eq_refl). split; [exact Hr | exact He].
    + specialize (Hbad eq_refl).
      assert (Herr : exists e,
                 fst (fst (validateAdditionalFilesFrom lib oracle base files
                             agg' s t1)) = Error e).
      { destruct (forallb plainFile answers) eqn:Hall.
        - rewrite Hr. destruct agg' as [e|]; [now exists e | congruence].
        - now apply He. }
      destruct Herr as (e & Herr). split; [| intros _; now exists e].
      now rewrite Herr.
Qed.

(** X11: [validateAdditionalFiles] does not stop at the first bad source:
    it asks [file.IsFile] once about every source of the map, in the order
    of iteration, whatever the earlier answers, and returns nil exactly when
    every answer was [(true, nil)]; otherwise it returns an error, never a
    panic. *)
Theorem validateAdditionalFiles_checks_every_source :
  forall (lib : PathLib) (oracle : Oracle) (S : Type) (s : S) (t : trace)
         (baseConfigPath : string) (additionalFiles : AdditionalFilesMap),
    let run := validateAdditionalFiles lib oracle baseConfigPath
                                       additionalFiles s t in
    exists answers : list (bool * option error),
      List.length answers = List.length additionalFiles
      /\ snd (fst run) = s
      /\ snd run = (t ++ isFileCalls lib baseConfigPath additionalFiles
                                     answers)%list
      /\ (fst (fst run) = Return tt <-> forallb plainFile answers = true)
      /\ (forallb plainFile answers = false ->
          exists e, fst (fst run) = Error e).
Proof.
  intros lib oracle S s t base files run. subst run.
  unfold validateAdditionalFiles.
  destruct (validateAdditionalFilesFrom_all lib oracle S base files None s t)
    as (answers & Hlen & Hs & Ht & Hr & He).
  exists answers. repeat split; auto.
  - intro H. destruct (forallb plainFile answers); [reflexivity |].
    destruct (He eq_refl) as (e & E). congruence.
  - intro H. now rewrite Hr, H.
Qed.

(** ** [initCommonParameters] *)

(** X12: [initCommonParameters] creates the build directory before it
    looks at the output format, and the output directory only after: with a
    format that is neither empty nor [iso] nor one of [vhd], [vhdx], [raw],
    [qcow2], it returns the unsupported-format error naming the format,
    having created the build directory and nothing else. *)
Theorem initCommonParameters_unsupported_format :
  forall (lib : PathLib) (oracle : Oracle) (S : Type) (s : S) (t : trace)
         (buildDir inputImageFile configPath : string) (config : Config)
         (useBaseImageRpmRepos : bool) (rpmsSources : list string)
         (enableShrinkFilesystems : bool)
         (outputSplitPartitionsFormat outputImageFormat : string)
         (outputImageFile abs : string),
    oracle t _ (FilepathAbs buildDir) = Ok abs ->
    let t1 := (t ++ [Call (FilepathAbs buildDir) (Ok abs)])%list in
    oracle t1 _ (OsMkdirAll abs ModePerm) = None ->
    ~ In outputImageFormat acceptedOutputFormats ->
    initCommonParameters lib oracle buildDir inputImageFile configPath config
                         useBaseImageRpmRepos rpmsSources
                         enableShrinkFilesystems outputSplitPartitionsFormat
                         outputImageFormat outputImageFile s t
    = (Error ("unsupported image format (supported: vhd, vhdx, raw, qcow2): "
              ++ outputImageFormat), s,
       (t1 ++ [Call (OsMkdirAll abs ModePerm) None])%list).
Proof.
  intros lib oracle S s t buildDir image base cfg useBase rpms shrink split
         fmt outFile abs Habs t1 Hmk Hfmt.
  unfold initCommonParameters. go_unfold.
  rewrite Habs. cbn iota beta. fold t1. rewrite Hmk. cbn iota beta.
  unfold acceptedOutputFormats, supportedFormats in Hfmt. cbn [In] in Hfmt.
  assert (E : forall x, fmt <> x -> String.eqb fmt x = false)
    by (intros x; apply eqb_false_of_neq).
  unfold toQemuImageFormat, ImageFormatIso, ImageFormatVhd, ImageFormatVhdx,
    ImageFormatRaw, ImageFormatQCow2.
  rewrite !E by (intro; subst; tauto). reflexivity.
Qed.

Lemma initCommonParameters_unsupported_format_witness :
  initCommonParameters sampleLib successOracle "/build" "/in/base.vhdx"
                       "/cfg" osOnlyConfig false [] false "" "vmdk"
                       "/out/image.vmdk" tt []
  = (Error "unsupported image format (supported: vhd, vhdx, raw, qcow2): vmdk",
     tt,
     [Call (FilepathAbs "/build") (Ok "/build");
      Call (OsMkdirAll "/build" ModePerm) None]).
Proof.
  apply (initCommonParameters_unsupported_format sampleLib successOracle unit
           tt [] "/build" "/in/base.vhdx" "/cfg" osOnlyConfig false [] false
           "" "vmdk" "/out/image.vmdk" "/build").
  - reflexivity.
  - reflexivity.
  - cbv. intuition discriminate.
Defined.

(** ** The trace only grows *)

Section Growth.

Context {S : Type}.

Lemma grows_ret {A} (a : A) : grows (@ret S A a).
Proof. intros s t. exists (@nil event). cbn. now rewrite app_nil_r. Qed.

Lemma grows_fail {A} (e : error) : grows (@fail S A e).
Proof. intros s t. exists (@nil event). cbn. now rewrite app_nil_r. Qed.

Lemma grows_panic {A} (msg : string) : grows (@panic S A msg).
Proof. intros s t. exists (@nil event). cbn. now rewrite app_nil_r. Qed.

Lemma grows_get : grows (@get S).
Proof. intros s t. exists (@nil event). cbn. now rewrite app_nil_r. Qed.

Lemma grows_modify (f : S -> S) : grows (modify f).
Proof. intros s t. exists (@nil event). cbn. now rewrite app_nil_r. Qed.

Lemma grows_liftR {A} (r : result A) : grows (@liftR S A r).
Proof. destruct r; [apply grows_ret | apply grows_fail]. Qed.

Lemma grows_liftE (e : option error) : grows (@liftE S e).
Proof. destruct e; [apply grows_fail | apply grows_ret]. Qed.

Lemma grows_call (oracle : Oracle) {R} (o : op R) : grows (@call oracle S R o).
Proof. intros s t. now exists (cons (Call o (oracle t R o)) nil). Qed.

Lemma grows_bind {A B} (m : M S A) (k : A -> M S B) :
  grows m -> (forall a, grows (k a)) -> grows (bind m k).
Proof.
  intros Hm Hk s t. unfold bind. destruct (Hm s t) as (e1 & E1).
  destruct (m s t) as [[[a|e|p] s'] t']; cbn in *; subst;
    [| now exists e1 | now exists e1].
  destruct (Hk a s' (t ++ e1)%list) as (e2 & E2).
  exists (e1 ++ e2)%list. now rewrite E2, app_assoc.
Qed.

Lemma grows_wrapErr {A} (f : error -> error) (m : M S A) :
  grows m -> grows (wrapErr f m).
Proof.
  intros Hm s t. unfold wrapErr. destruct (Hm s t) as (e1 & E1).
  destruct (m s t) as [[[a|e|p] s'] t']; cbn in *; now exists e1.
Qed.

Lemma grows_defer {A} (c : M S unit) (m : M S A) :
  grows m -> grows c -> grows (defer c m).
Proof.
  intros Hm Hc s t. unfold defer. destruct (Hm s t) as (e1 & E1).
  destruct (m s t) as [[r s1] t1]. cbn in E1. subst.
  destruct (Hc s1 (t ++ e1)%list) as (e2 & E2).
  destruct (c s1 (t ++ e1)%list) as [[r2 s2] t2]. cbn in *. subst.
  exists (e1 ++ e2)%list. now rewrite app_assoc.
Qed.

End Growth.

Create HintDb go_grows.

#[local] Hint Resolve grows_ret grows_fail grows_panic grows_get grows_modify
  grows_liftR grows_liftE grows_call : go_grows.

Ltac grows_step :=
  match goal with
  | |- grows (bind _ _) => apply grows_bind; [| intro]
  | |- grows (wrapErr _ _) => apply grows_wrapErr
  | |- grows (defer _ _) => apply grows_defer
  | |- grows (callR _ _) => unfold callR
  | |- grows (callE _ _) => unfold callE
  | |- grows (match ?x with _ => _ end) => destruct x
  | |- grows (let _ := ?x in _) => cbv zeta
  | |- grows _ => solve [auto with go_grows]
  end.

Ltac grows_tac := repeat grows_step.

Section GrowthOfFunctions.

Variable lib : PathLib.
Variable oracle : Oracle.
Context {S : Type}.

Lemma grows_updateGrubConfig dt di ht hi rootHash path :
  grows (@updateGrubConfig oracle S dt di ht hi rootHash path).
Proof. unfold updateGrubConfig. grows_tac. Qed.

Lemma grows_patchBootConfig buildDir v parts rootHash :
  grows (@patchBootConfig lib oracle S buildDir v parts rootHash).
Proof. unfold patchBootConfig. grows_tac. apply grows_updateGrubConfig. Qed.

Lemma grows_formatVerityAndPatch buildDir v parts dp hp :
  grows (@formatVerityAndPatch lib oracle S buildDir v parts dp hp).
Proof. unfold formatVerityAndPatch. grows_tac. apply grows_patchBootConfig. Qed.

Lemma grows_findFreeNBDDeviceIn files :
  grows (@findFreeNBDDeviceIn lib oracle S files).
Proof. induction files as [|file rest IH]; simpl; grows_tac; exact IH. Qed.

Lemma grows_customizeVerityImageHelper buildDir base cfg image rpms useBase :
  grows (@customizeVerityImageHelper lib oracle S buildDir base cfg image
                                     rpms useBase).
Proof.
  unfold customizeVerityImageHelper, findFreeNBDDevice. grows_tac;
    auto using grows_findFreeNBDDeviceIn, grows_formatVerityAndPatch.
Qed.

Lemma grows_customizeImageHelper buildDir base cfg raw rpms useBase pc :
  grows (@customizeImageHelper oracle S buildDir base cfg raw rpms useBase pc).
Proof. unfold customizeImageHelper. grows_tac. Qed.

Lemma grows_shrinkFilesystemsHelper image :
  grows (@shrinkFilesystemsHelper oracle S image).
Proof. unfold shrinkFilesystemsHelper. grows_tac. Qed.

Lemma grows_extractPartitionsHelper raw dir base fmt :
  grows (@extractPartitionsHelper oracle S raw dir base fmt).
Proof. unfold extractPartitionsHelper. grows_tac. Qed.

End GrowthOfFunctions.

Lemma grows_customizeOSContents (lib : PathLib) (oracle : Oracle) :
  grows (customizeOSContents lib oracle).
Proof.
  unfold customizeOSContents. grows_tac;
    auto using grows_customizeImageHelper, grows_shrinkFilesystemsHelper,
      grows_customizeVerityImageHelper, grows_extractPartitionsHelper.
Qed.

Lemma grows_convertWriteableFormatToOutputImage (oracle : Oracle) :
  grows (convertWriteableFormatToOutputImage oracle).
Proof. unfold convertWriteableFormatToOutputImage. grows_tac. Qed.

Lemma frames_convertWriteableFormatToOutputImage (oracle : Oracle) :
  frames (convertWriteableFormatToOutputImage oracle).
Proof. unfold convertWriteableFormatToOutputImage. frames_tac. Qed.

(** ** [customizeVerityImageHelper]: the NBD node *)

(** X13: once [customizeVerityImageHelper] has attached the image to an
    NBD node, its last call detaches that node, whatever happens in between:
    success, an error, or a panic on a missing section. *)
Theorem customizeVerityImageHelper_detaches_last :
  forall (lib : PathLib) (oracle : Oracle) (S : Type) (s s1 : S)
         (t t1 : trace) (buildDir baseConfigPath : string) (config : Config)
         (buildImageFile : string) (rpmsSources : list string)
         (useBaseImageRpmRepos : bool) (nbdDevice : string),
    let attach := ShellExecuteLiveWithErr 1 "qemu-nbd"
                    ["-c"; nbdDevice; "-f"; "raw"; buildImageFile] in
    let detach := ShellExecuteLiveWithErr 1 "qemu-nbd" ["-d"; nbdDevice] in
    findFreeNBDDevice lib oracle s t = (Return nbdDevice, s1, t1) ->
    oracle t1 _ attach = None ->
    exists (r : outcome unit) (between : trace),
      let t3 := (t1 ++ Call attach None :: between)%list in
      customizeVerityImageHelper lib oracle buildDir baseConfigPath config
                                 buildImageFile rpmsSources
                                 useBaseImageRpmRepos s t
      = (r, s1, (t3 ++ [Call detach (oracle t3 _ detach)])%list).
Proof.
  intros lib oracle S s s1 t t1 buildDir base cfg image rpms useBase dev
         attach detach Hfree Hattach.
  unfold customizeVerityImageHelper.
  unfold bind at 1, wrapErr at 1. rewrite Hfree.
  unfold bind at 1, wrapErr at 1, callE at 1, call at 1, bind at 1.
  fold attach. rewrite Hattach. cbn [liftE ret].
  unfold defer.
  match goal with
  | |- context [bind (callR oracle (GetDiskPartitions dev)) ?k] =>
    set (body := bind (callR oracle (GetDiskPartitions dev)) k)
  end.
  assert (G : grows body).
  { unfold body. grows_tac. apply grows_formatVerityAndPatch. }
  assert (F : frames body).
  { unfold body. frames_tac. apply frames_formatVerityAndPatch. }
  specialize (G s1 (t1 ++ [Call attach None])%list).
  specialize (F s1 (t1 ++ [Call attach None])%list).
  destruct G as (between & G).
  destruct (body s1 (t1 ++ [Call attach None])%list) as [[r s2] t2].
  cbn in G, F. subst s2 t2.
  exists r, between. cbv zeta.
  unfold bind, call, ret. fold detach.
  replace ((t1 ++ [Call attach None]) ++ between)%list
    with (t1 ++ Call attach None :: between)%list
    by (now rewrite <- app_assoc).
  reflexivity.
Qed.

Lemma customizeVerityImageHelper_detaches_last_witness :
  exists (r : outcome unit) (between : trace),
    customizeVerityImageHelper sampleLib verityRunOracle "/build" "/cfg"
                               verityConfig "/build/image.raw" [] false tt []
    = (r, tt,
       (([Call (FilepathGlob "/sys/class/block/nbd*")
               (Ok ["/sys/class/block/nbd0"]);
          Call (OsStat "/sys/class/block/nbd0/pid")
               (StatErr true "no such file or directory")]
         ++ Call (ShellExecuteLiveWithErr 1 "qemu-nbd"
                    ["-c"; "/dev/nbd0"; "-f"; "raw"; "/build/image.raw"]) None
            :: between)
        ++ [Call (ShellExecuteLiveWithErr 1 "qemu-nbd" ["-d"; "/dev/nbd0"])
                 None])%list).
Proof.
  destruct (customizeVerityImageHelper_detaches_last
              sampleLib verityRunOracle unit tt tt []
              [Call (FilepathGlob "/sys/class/block/nbd*")
                    (Ok ["/sys/class/block/nbd0"]);
               Call (OsStat "/sys/class/block/nbd0/pid")
                    (StatErr true "no such file or directory")]
              "/build" "/cfg" verityConfig "/build/image.raw" [] false
              "/dev/nbd0" eq_refl eq_refl) as (r & between & H).
  exists r, between. exact H.
Defined.

(** X14: when one of the two verity partitions cannot be resolved among
    the partitions of the attached node, [customizeVerityImageHelper]
    returns the resolution error as it is, [veritysetup] is not run and
    nothing is mounted: after listing the partitions the helper only
    detaches the node. *)
Theorem customizeVerityImageHelper_unresolved_partition :
  forall (lib : PathLib) (oracle : Oracle) (S : Type) (s s1 : S)
         (t t1 : trace) (buildDir baseConfigPath : string) (config : Config)
         (buildImageFile : string) (rpmsSources : list string)
         (useBaseImageRpmRepos : bool) (nbdDevice : string)
         (diskPartitions : list diskutils.PartitionInfo)
         (os : OS) (v : Verity) (e : error),
    let attach := ShellExecuteLiveWithErr 1 "qemu-nbd"
                    ["-c"; nbdDevice; "-f"; "raw"; buildImageFile] in
    let detach := ShellExecuteLiveWithErr 1 "qemu-nbd" ["-d"; nbdDevice] in
    let t2 := (t1 ++ [Call attach None])%list in
    let t3 := (t2 ++ [Call (GetDiskPartitions nbdDevice)
                           (Ok diskPartitions)])%list in
    findFreeNBDDevice lib oracle s t = (Return nbdDevice, s1, t1) ->
    oracle t1 _ attach = None ->
    oracle t2 _ (GetDiskPartitions nbdDevice) = Ok diskPartitions ->
    OS_ config = Some os ->
    Verity_ os = Some v ->
    idToPartitionBlockDevicePath (IdType_ (DataPartition v))
                                 (Id (DataPartition v)) nbdDevice
                                 diskPartitions = Err e
    \/ ((exists path,
            idToPartitionBlockDevicePath (IdType_ (DataPartition v))
                                         (Id (DataPartition v)) nbdDevice
                                         diskPartitions = Ok path)
        /\ idToPartitionBlockDevicePath (IdType_ (HashPartition v))
                                        (Id (HashPartition v)) nbdDevice
                                        diskPartitions = Err e) ->
    customizeVerityImageHelper lib oracle buildDir baseConfigPath config
                               buildImageFile rpmsSources
                               useBaseImageRpmRepos s t
    = (Error e, s1, (t3 ++ [Call detach (oracle t3 _ detach)])%list).
Proof.
  intros lib oracle S s s1 t t1 buildDir base cfg image rpms useBase dev
         parts os v e attach detach t2 t3 Hfree Hattach Hparts Hos Hv Hres.
  unfold customizeVerityImageHelper.
  unfold bind at 1, wrapErr at 1. rewrite Hfree.
  unfold bind at 1, wrapErr at 1, callE at 1, call at 1, bind at 1.
  fold attach. rewrite Hattach. cbn [liftE ret]. fold t2.
  unfold defer.
  unfold bind at 1, callR at 1, call at 1, bind at 1.
  rewrite Hparts. cbn [liftR ret]. fold t3.
  rewrite Hos, Hv.
  destruct Hres as [Hd | [(path & Hd) Hh]].
  - rewrite Hd. cbn. reflexivity.
  - rewrite Hd. unfold bind at 1. cbn [liftR ret].
    rewrite Hh. cbn. reflexivity.
Qed.

Lemma customizeVerityImageHelper_unresolved_partition_witness :
  customizeVerityImageHelper sampleLib verityRunOracle "/build" "/cfg"
                             missingHashConfig "/build/image.raw" [] false
                             tt []
  = (Error "no partition found for partlabel: nohash", tt,
     [Call (FilepathGlob "/sys/class/block/nbd*") (Ok ["/sys/class/block/nbd0"]);
      Call (OsStat "/sys/class/block/nbd0/pid")
           (StatErr true "no such file or directory");
      Call (ShellExecuteLiveWithErr 1 "qemu-nbd"
              ["-c"; "/dev/nbd0"; "-f"; "raw"; "/build/image.raw"]) None;
      Call (GetDiskPartitions "/dev/nbd0") (Ok examplePartitions);
      Call (ShellExecuteLiveWithErr 1 "qemu-nbd" ["-d"; "/dev/nbd0"]) None]).
Proof.
  refine (customizeVerityImageHelper_unresolved_partition
            sampleLib verityRunOracle unit tt tt []
            [Call (FilepathGlob "/sys/class/block/nbd*")
                  (Ok ["/sys/class/block/nbd0"]);
             Call (OsStat "/sys/class/block/nbd0/pid")
                  (StatErr true "no such file or directory")]
            "/build" "/cfg" missingHashConfig "/build/image.raw" [] false
            "/dev/nbd0" examplePartitions _ _
            "no partition found for partlabel: nohash"
            eq_refl eq_refl eq_refl eq_refl eq_refl _).
  right. split; [exists "/dev/nbd0p2" |]; reflexivity.
Defined.

(** ** The helpers that open an image: what they release *)

(** X15: [customizeImageHelper], [shrinkFilesystemsHelper] and
    [extractPartitionsHelper] release what they opened, and nothing else:
    when the connection (or loop device) cannot be opened, opening it is the
    only call and its error is returned; once it is open, the deferred
    [Close] on it is the last call in every case, the work is the first
    call after the opening, and [CleanClose] is called only when the work
    succeeded, its error being the result. *)
Theorem helpers_close_what_they_open :
  forall (oracle : Oracle) (S : Type) (s : S) (t : trace),
    (forall (buildDir baseConfigPath : string) (config : Config)
            (rawImageFile : string) (rpmsSources : list string)
            (useBaseImageRpmRepos partitionsCustomized : bool),
        let open := ConnectToExistingImage rawImageFile buildDir
                                           "imageroot" true in
        let run := customizeImageHelper oracle buildDir baseConfigPath config
                     rawImageFile rpmsSources useBaseImageRpmRepos
                     partitionsCustomized s t in
        match oracle t _ open with
        | Err e => run = (Error e, s, (t ++ [Call open (Err e)])%list)
        | Ok c =>
          let work := DoCustomizations buildDir baseConfigPath config c
                        rpmsSources useBaseImageRpmRepos
                        partitionsCustomized in
          let t1 := (t ++ [Call open (Ok c)])%list in
          let t2 := (t1 ++ [Call work (oracle t1 _ work)])%list in
          match oracle t1 _ work with
          | Some e =>
            run = (Error e, s, (t2 ++ [Call (ImageConnectionClose c) tt])%list)
          | None =>
            let clean := ImageConnectionCleanClose c in
            run = (match oracle t2 _ clean with
                   | None => Return tt
                   | Some e => Error e
                   end, s,
                   (t2 ++ [Call clean (oracle t2 _ clean);
                           Call (ImageConnectionClose c) tt])%list)
          end
        end)
    /\ (forall (buildImageFile : string),
           let open := NewLoopback buildImageFile in
           let run := shrinkFilesystemsHelper oracle buildImageFile s t in
           match oracle t _ open with
           | Err e => run = (Error e, s, (t ++ [Call open (Err e)])%list)
           | Ok l =>
             let work := ShrinkFilesystems (DevicePath l) in
             let t1 := (t ++ [Call open (Ok l)])%list in
             let t2 := (t1 ++ [Call work (oracle t1 _ work)])%list in
             match oracle t1 _ work with
             | Some e =>
               run = (Error e, s, (t2 ++ [Call (LoopbackClose l) tt])%list)
             | None =>
               let clean := LoopbackCleanClose l in
               run = (match oracle t2 _ clean with
                      | None => Return tt
                      | Some e => Error e
                      end, s,
                      (t2 ++ [Call clean (oracle t2 _ clean);
                              Call (LoopbackClose l) tt])%list)
             end
           end)
    /\ (forall (rawImageFile outputDir outputBasename : string)
               (outputSplitPartitionsFormat : string),
           let open := NewLoopback rawImageFile in
           let run := extractPartitionsHelper oracle rawImageFile outputDir
                        outputBasename outputSplitPartitionsFormat s t in
           match oracle t _ open with
           | Err e => run = (Error e, s, (t ++ [Call open (Err e)])%list)
           | Ok l =>
             let work := ExtractPartitions (DevicePath l) outputDir
                           outputBasename outputSplitPartitionsFormat in
             let t1 := (t ++ [Call open (Ok l)])%list in
             let t2 := (t1 ++ [Call work (oracle t1 _ work)])%list in
             match oracle t1 _ work with
             | Some e =>
               run = (Error e, s, (t2 ++ [Call (LoopbackClose l) tt])%list)
             | None =>
               let clean := LoopbackCleanClose l in
               run = (match oracle t2 _ clean with
                      | None => Return tt
                      | Some e => Error e
                      end, s,
                      (t2 ++ [Call clean (oracle t2 _ clean);
                              Call (LoopbackClose l) tt])%list)
             end
           end).
Proof.
  intros oracle S s t. split; [| split]; intros; subst run;
    [unfold customizeImageHelper | unfold shrinkFilesystemsHelper
     | unfold extractPartitionsHelper];
    go_unfold; fold open;
    (destruct (oracle t _ open) as [c|e]; cbn iota beta; [| reflexivity]);
    cbv zeta;
    repeat match goal with
           | |- context [oracle ?u ?R ?o] =>
             destruct (oracle u R o); cbn iota beta
           end;
    rewrite <- ?app_assoc; reflexivity.
Qed.

(** ** [CustomizeImage]: the deferred clean-up and the output step *)

Lemma customizeOSContents_rawImageFile (lib : PathLib) (oracle : Oracle)
      (cp : CommonParameters) (t : trace) :
  rawImageFile (snd (fst (customizeOSContents lib oracle cp t)))
  = workingImageAfter oracle cp t.
Proof.
  unfold customizeOSContents, workingImageAfter.
  unfold bind at 1, get at 1.
  destruct (customizeOSPartitions cp); cbn [negb]; [| reflexivity].
  unfold callR, call. unfold bind at 1. unfold bind at 1.
  destruct (oracle t _ (CustomizePartitions (buildDirAbs cp) (configPath cp)
                          (config cp) (rawImageFile cp))) as [[pc new]|e];
    [| reflexivity].
  unfold liftR, ret at 1. cbn iota beta.
  unfold bind at 1, modify at 1.
  match goal with
  | |- rawImageFile (snd (fst (?m ?s ?u))) = _ =>
    assert (K : keeps rawImageFile m);
      [| exact (K s u)]
  end.
  keeps_tac; apply frames_keeps;
    auto using frames_customizeImageHelper, frames_shrinkFilesystemsHelper,
      frames_customizeVerityImageHelper, frames_extractPartitionsHelper.
Qed.

Lemma customizeAndConvert_rawImageFile (lib : PathLib) (oracle : Oracle)
      (cp : CommonParameters) (t : trace) :
  rawImageFile (snd (fst (customizeAndConvert lib oracle cp t)))
  = workingImageAfter oracle cp t.
Proof.
  rewrite <- (customizeOSContents_rawImageFile lib).
  unfold customizeAndConvert, bind, wrapErr.
  destruct (customizeOSContents lib oracle cp t) as [[[u|e|p] cp1] t1];
    try reflexivity.
  pose proof (frames_convertWriteableFormatToOutputImage oracle cp1 t1) as F.
  destruct (convertWriteableFormatToOutputImage oracle cp1 t1)
    as [[[u2|e2|p2] cp2] t2]; cbn in *; now subst.
Qed.

Lemma grows_customizeAndConvert (lib : PathLib) (oracle : Oracle) :
  grows (customizeAndConvert lib oracle).
Proof.
  unfold customizeAndConvert. grows_tac;
    auto using grows_customizeOSContents,
      grows_convertWriteableFormatToOutputImage.
Qed.

Lemma CustomizeImage_after_conversion
      (lib : PathLib) (oracle : Oracle) (S : Type) (s s1 s2 : S)
      (t t1 t2 t3 t4 : trace) (buildDir base image outFile fmt split : string)
      (cfg cfg' : Config) (rpms : list string) (useBase shrink : bool)
      (cp cp3 cp4 : CommonParameters) (r : outcome unit) :
  validateConfig lib oracle base cfg rpms useBase s t
  = (Return cfg', s1, t1) ->
  initCommonParameters lib oracle buildDir image base cfg' useBase rpms
                       shrink split fmt outFile s1 t1
  = (Return cp, s2, t2) ->
  convertInputImageToWriteableFormat oracle cp t2 = (Return tt, cp3, t3) ->
  customizeAndConvert lib oracle cp3 t3 = (r, cp4, t4) ->
  CustomizeImage lib oracle buildDir base cfg image rpms outFile fmt split
                 useBase shrink s t
  = (r, s2,
     (t4 ++ [Call (FileRemoveFileIfExists (rawImageFile cp4))
                  (oracle t4 _ (FileRemoveFileIfExists (rawImageFile cp4)))])%list).
Proof.
  intros Hval Hinit Hconv Hstages.
  unfold CustomizeImage.
  unfold bind at 1. unfold wrapErr at 1. rewrite Hval.
  unfold bind at 1. unfold wrapErr at 1. rewrite Hinit.
  unfold withObject.
  unfold bind at 1. unfold wrapErr at 1. rewrite Hconv.
  unfold defer. fold (customizeAndConvert lib oracle). rewrite Hstages.
  reflexivity.
Qed.

(** X16: once the input image has been converted, [CustomizeImage] ends
    with one call that removes the working image, whether the customization
    and the output step succeeded, failed or panicked.  The file removed is
    the one [customizePartitions] answered with if it was asked and did not
    fail, else the one the input conversion wrote; and the result of the run
    is that of the two stages: what the removal answers does not enter
    it. *)
Theorem CustomizeImage_removes_working_image :
  forall (lib : PathLib) (oracle : Oracle) (S : Type) (s s1 s2 : S)
         (t t1 t2 t3 t4 : trace)
         (buildDir base image outFile fmt split : string)
         (cfg cfg' : Config) (rpms : list string) (useBase shrink : bool)
         (cp cp3 cp4 : CommonParameters) (r : outcome unit),
    validateConfig lib oracle base cfg rpms useBase s t
    = (Return cfg', s1, t1) ->
    initCommonParameters lib oracle buildDir image base cfg' useBase rpms
                         shrink split fmt outFile s1 t1
    = (Return cp, s2, t2) ->
    convertInputImageToWriteableFormat oracle cp t2 = (Return tt, cp3, t3) ->
    customizeAndConvert lib oracle cp3 t3 = (r, cp4, t4) ->
    let remove := FileRemoveFileIfExists (workingImageAfter oracle cp3 t3) in
    CustomizeImage lib oracle buildDir base cfg image rpms outFile fmt split
                   useBase shrink s t
    = (r, s2, (t4 ++ [Call remove (oracle t4 _ remove)])%list)
    /\ exists between : trace, t4 = (t3 ++ between)%list.
Proof.
  intros lib oracle S s s1 s2 t t1 t2 t3 t4 buildDir base image outFile fmt
         split cfg cfg' rpms useBase shrink cp cp3 cp4 r
         Hval Hinit Hconv Hstages remove.
  split.
  - pose proof (customizeAndConvert_rawImageFile lib oracle cp3 t3) as Hraw.
    rewrite Hstages in Hraw. cbn in Hraw. subst remove. rewrite <- Hraw.
    exact (CustomizeImage_after_conversion lib oracle S s s1 s2 t t1 t2 t3 t4
             buildDir base image outFile fmt split cfg cfg' rpms useBase
             shrink cp cp3 cp4 r Hval Hinit Hconv Hstages).
  - destruct (grows_customizeAndConvert lib oracle cp3 t3) as (ext & E).
    rewrite Hstages in E. now exists ext.
Qed.

Lemma CustomizeImage_removes_working_image_witness :
  CustomizeImage sampleLib repartitionOracle "/build" "/cfg" osOnlyConfig
                 "/in/base.vhdx" [] "/out/image.vhd" "vhd" "" false false
                 tt []
  = (Error ("failed to customize raw image:" ++ nl ++ "rpm failed"), tt,
     [Call (ConfigIsValid osOnlyConfig) None;
      Call (CollectPackagesList "/cfg" [] []) (Ok []);
      Call (CollectPackagesList "/cfg" [] []) (Ok []);
      Call (CollectPackagesList "/cfg" [] []) (Ok []);
      Call (FilepathAbs "/build") (Ok "/build");
      Call (OsMkdirAll "/build" ModePerm) None;
      Call (OsMkdirAll "/out" ModePerm) None;
      Call (ShellExecuteLiveWithErr 1 "qemu-img"
              ["convert"; "-O"; "raw"; "/in/base.vhdx"; "/build/image.raw"])
           None;
      Call (CustomizePartitions "/build" "/cfg" osOnlyConfig
              "/build/image.raw") (Ok (true, "/build/image2.raw"));
      Call (ConnectToExistingImage "/build/image2.raw" "/build" "imageroot"
              true) (Ok (ImageConnectionRef 0));
      Call (DoCustomizations "/build" "/cfg" osOnlyConfig
              (ImageConnectionRef 0) [] false true) (Some "rpm failed");
      Call (ImageConnectionClose (ImageConnectionRef 0)) tt;
      Call (FileRemoveFileIfExists "/build/image2.raw") (Some "busy")]).
Proof.
  refine (proj1 (CustomizeImage_removes_working_image
                   sampleLib repartitionOracle unit tt tt tt [] _ _ _ _
                   "/build" "/cfg" "/in/base.vhdx" "/out/image.vhd" "vhd" ""
                   osOnlyConfig _ [] false false _ _ _ _
                   eq_refl eq_refl eq_refl eq_refl)).
Defined.

Lemma initCommonParameters_output
      (lib : PathLib) (oracle : Oracle) (S : Type) (s s' : S) (t t' : trace)
      buildDir image base cfg useBase rpms shrink split fmt outFile cp :
  initCommonParameters lib oracle buildDir image base cfg useBase rpms shrink
                       split fmt outFile s t = (Return cp, s', t') ->
  outputImageFormat cp = fmt
  /\ outputImageFile cp = outFile
  /\ (if negb (String.eqb fmt "") && negb (String.eqb fmt ImageFormatIso)
      then toQemuImageFormat fmt = Ok (qemuOutputImageFormat cp)
      else qemuOutputImageFormat cp = "").
Proof.
  unfold initCommonParameters. go_unfold.
  destruct (oracle t _ (FilepathAbs buildDir)) as [abs|e]; [| discriminate].
  cbn iota beta.
  destruct (oracle _ _ (OsMkdirAll abs ModePerm)); [discriminate |].
  cbn iota beta.
  destruct (negb (String.eqb fmt "") && negb (String.eqb fmt ImageFormatIso));
    [destruct (toQemuImageFormat fmt); [| discriminate] |];
    cbn iota beta;
    (destruct (oracle _ _ (OsMkdirAll _ ModePerm)); [discriminate |]);
    intros [= <- _ _]; repeat split.
Qed.

(** X17: a run for one of the disk formats [vhd], [vhdx], [raw], [qcow2]
    whose validation, initialization, input conversion and customization
    succeed ends with two calls: [qemu-img convert -O] with the format name
    [toQemuImageFormat] gives (so [vpc] for [vhd]), from the working image
    as the customization left it to the requested output file, and then the
    removal of that working image.  The run returns nil when the conversion
    succeeds and its error, wrapped twice, when it fails; the working image
    is removed in both cases. *)
Theorem CustomizeImage_converts_to_mapped_format :
  forall (lib : PathLib) (oracle : Oracle) (S : Type) (s s1 s2 : S)
         (t t1 t2 t3 t4 : trace)
         (buildDir base image outFile fmt split : string)
         (cfg cfg' : Config) (rpms : list string) (useBase shrink : bool)
         (cp cp3 cp4 : CommonParameters),
    In fmt supportedFormats ->
    validateConfig lib oracle base cfg rpms useBase s t
    = (Return cfg', s1, t1) ->
    initCommonParameters lib oracle buildDir image base cfg' useBase rpms
                         shrink split fmt outFile s1 t1
    = (Return cp, s2, t2) ->
    convertInputImageToWriteableFormat oracle cp t2 = (Return tt, cp3, t3) ->
    customizeOSContents lib oracle cp3 t3 = (Return tt, cp4, t4) ->
    exists q : string,
      toQemuImageFormat fmt = Ok q
      /\ let convert := ShellExecuteLiveWithErr 1 "qemu-img"
                          ["convert"; "-O"; q; rawImageFile cp4; outFile] in
         let t5 := (t4 ++ [Call convert (oracle t4 _ convert)])%list in
         let remove := FileRemoveFileIfExists (rawImageFile cp4) in
         CustomizeImage lib oracle buildDir base cfg image rpms outFile fmt
                        split useBase shrink s t
         = (match oracle t4 _ convert with
            | None => Return tt
            | Some e =>
              Error ("failed to convert customized raw image to output format:"
                     ++ nl ++ "failed to convert image file to format: "
                     ++ fmt ++ ":" ++ nl ++ e)
            end, s2, (t5 ++ [Call remove (oracle t5 _ remove)])%list).
Proof.
  intros lib oracle S s s1 s2 t t1 t2 t3 t4 buildDir base image outFile fmt
         split cfg cfg' rpms useBase shrink cp cp3 cp4
         Hfmt Hval Hinit Hconv Hcust.
  destruct (initCommonParameters_output _ _ _ _ _ _ _ _ _ _ _ _ _ _ _ _ _ _
              Hinit) as (Hf & Ho & Hq).
  assert (K : forall X (field : CommonParameters -> X),
             (forall v c, field (set_rawImageFile v c) = field c) ->
             (forall v c, field (set_isoBuilder v c) = field c) ->
             field cp4 = field cp).
  { intros X field H1 H2.
    pose proof (keeps_customizeOSContents lib oracle X field H1 cp3 t3) as K1.
    pose proof (keeps_convertInputImageToWriteableFormat oracle X field H2
                  cp t2) as K2.
    rewrite Hcust in K1. rewrite Hconv in K2. cbn in K1, K2. congruence. }
  pose proof (K _ outputImageFormat (fun _ _ => eq_refl) (fun _ _ => eq_refl))
    as Kf.
  pose proof (K _ outputImageFile (fun _ _ => eq_refl) (fun _ _ => eq_refl))
    as Ko.
  pose proof (K _ qemuOutputImageFormat (fun _ _ => eq_refl)
                (fun _ _ => eq_refl)) as Kq.
  exists (qemuOutputImageFormat cp4). rewrite Kq.
  assert (Hcond : negb (String.eqb fmt "")
                  && negb (String.eqb fmt ImageFormatIso) = true
                  /\ (String.eqb fmt ImageFormatVhd
                      || String.eqb fmt ImageFormatVhdx
                      || String.eqb fmt ImageFormatQCow2
                      || String.eqb fmt ImageFormatRaw) = true).
  { unfold supportedFormats in Hfmt. cbn [In] in Hfmt.
    destruct Hfmt as [<- | [<- | [<- | [<- | []]]]]; split; reflexivity. }
  destruct Hcond as (Hc1 & Hc2). rewrite Hc1 in Hq.
  split; [exact Hq |]. cbv zeta.
  apply (CustomizeImage_after_conversion lib oracle S s s1 s2 t t1 t2 t3 _
           buildDir base image outFile fmt split cfg cfg' rpms useBase
           shrink cp cp3 cp4 _ Hval Hinit Hconv).
  unfold customizeAndConvert. unfold bind at 1, wrapErr at 1.
  rewrite Hcust. unfold convertWriteableFormatToOutputImage.
  unfold wrapErr at 1, bind at 1, get at 1. cbv zeta.
  rewrite Kf, Hf, Hc2, Kq, Ko, Ho. go_unfold.
  destruct (oracle t4 _ _); reflexivity.
Qed.

Lemma CustomizeImage_converts_to_mapped_format_witness :
  exists (cp4 : CommonParameters) (t4 : trace) (q : string),
    toQemuImageFormat "vhd" = Ok q
    /\ let convert := ShellExecuteLiveWithErr 1 "qemu-img"
                        ["convert"; "-O"; q; rawImageFile cp4;
                         "/out/image.vhd"] in
       let t5 := (t4 ++ [Call convert (successOracle t4 _ convert)])%list in
       let remove := FileRemoveFileIfExists (rawImageFile cp4) in
       CustomizeImage sampleLib successOracle "/build" "/cfg" osOnlyConfig
                      "/in/base.vhdx" [] "/out/image.vhd" "vhd" "" false
                      false tt []
       = (match successOracle t4 _ convert with
          | None => Return tt
          | Some e =>
            Error ("failed to convert customized raw image to output format:"
                   ++ nl ++ "failed to convert image file to format: "
                   ++ "vhd" ++ ":" ++ nl ++ e)
          end, tt, (t5 ++ [Call remove (successOracle t5 _ remove)])%list).
Proof.
  eexists. eexists.
  eapply (CustomizeImage_converts_to_mapped_format
            sampleLib successOracle unit tt tt tt []);
    [left; reflexivity | cbv; reflexivity ..].
Defined.

(** ** [buildDracutModule]: the kernel version *)

Lemma substring_all (s : string) : substring 0 (String.length s) s = s.
Proof. induction s as [|c s IH]; simpl; [reflexivity | now rewrite IH]. Qed.

Lemma substring_skip (p s : string) (n : nat) :
  substring (String.length p) n (p ++ s) = substring 0 n s.
Proof. induction p as [|c p IH]; simpl; [reflexivity | exact IH]. Qed.

Lemma TrimPrefix_append (p s : string) : TrimPrefix (p ++ s) p = s.
Proof.
  unfold TrimPrefix. rewrite HasPrefix_append, append_length, substring_skip.
  replace (String.length p + String.length s - String.length p)%nat
    with (String.length s) by lia.
  apply substring_all.
Qed.

(** X18: with exactly one kernel in [boot], whose base name is
    [vmlinuz-] followed by a version, [buildDracutModule] hands [Run] one
    piece of work, which is the command [dracut -f --kver] with that
    version, [-a] and the module name; what [Run] returns is the result,
    an error being wrapped with the module name. *)
Theorem buildDracutModule_kernel_version :
  forall (lib : PathLib) (oracle : Oracle)
         (chrootRun : forall S : Type, Chroot -> M S unit -> M S unit)
         (S : Type) (s : S) (t : trace) (dracutModuleName : string)
         (imageChroot : Chroot) (file version : string),
    let glob := FilepathGlob
                  (Join lib [Join lib [RootDir imageChroot; "boot"];
                             "vmlinuz-*"]) in
    oracle t _ glob = Ok [file] ->
    Base lib file = "vmlinuz-" ++ version ->
    buildDracutModule lib oracle chrootRun dracutModuleName imageChroot s t
    = wrapErr (fun e => "failed to build dracut module - ("
                        ++ dracutModuleName ++ "):" ++ nl ++ e)
              (chrootRun S imageChroot
                 (callE oracle
                    (ShellExecuteLiveWithErr 1 "dracut"
                       ["-f"; "--kver"; version; "-a"; dracutModuleName])))
              s (t ++ [Call glob (Ok [file])])%list.
Proof.
  intros lib oracle run S s t name c file version glob Hglob Hbase.
  unfold buildDracutModule, listKernels.
  unfold bind at 1, wrapErr at 1, bind at 1, callR, call, bind at 1.
  fold glob. rewrite Hglob. cbn [liftR ret map List.length Nat.eqb Nat.ltb
                                  Nat.leb nth].
  rewrite Hbase, TrimPrefix_append. reflexivity.
Qed.

Lemma buildDracutModule_kernel_version_witness :
  buildDracutModule sampleLib oneKernelOracle plainRun "systemd-veritysetup"
                    {| RootDir := "/root" |} tt []
  = (Return tt, tt,
     [Call (FilepathGlob "/root/boot/vmlinuz-*")
           (Ok ["/root/boot/vmlinuz-6.1.0"]);
      Call (ShellExecuteLiveWithErr 1 "dracut"
              ["-f"; "--kver"; "6.1.0"; "-a"; "systemd-veritysetup"]) None]).
Proof.
  exact (buildDracutModule_kernel_version sampleLib oneKernelOracle plainRun
           unit tt [] "systemd-veritysetup" {| RootDir := "/root" |}
           "/root/boot/vmlinuz-6.1.0" "6.1.0" eq_refl eq_refl).
Defined.

(** ** [dmsquash-live-root.sh]: the overlay specification *)

Lemma hasColon_append (a b : string) :
  LiveOverlay.hasColon (a ++ b)
  = LiveOverlay.hasColon a || LiveOverlay.hasColon b.
Proof.
  induction a as [|c a IH]; simpl; [reflexivity |].
  now rewrite IH, orb_assoc.
Qed.

Lemma beforeFirstColon_append (dev rest : string) :
  LiveOverlay.hasColon dev = false ->
  LiveOverlay.beforeFirstColon (dev ++ ":" ++ rest) = dev.
Proof.
  induction dev as [|c dev IH]; simpl; [reflexivity |].
  intro H. apply orb_false_iff in H. destruct H as [Hc Hd].
  rewrite Hc. f_equal. now apply IH.
Qed.

Lemma afterLastColon_append (pre path : string) :
  LiveOverlay.hasColon path = false ->
  LiveOverlay.afterLastColon (pre ++ ":" ++ path) = path.
Proof.
  intro H. induction pre as [|c pre IH]; simpl.
  - now rewrite H.
  - rewrite hasColon_append. simpl. rewrite orb_true_r. exact IH.
Qed.

(** X19: for an overlay specification with a colon, [do_live_overlay]
    takes as device what stands before the first colon and as path what
    stands after the last one, whatever stands between the two; a path that
    is empty or [auto] is replaced by [/<live_dir>/overlay-<label>-<uuid>]. *)
Theorem overlay_specification_is_split :
  forall (v : LiveOverlay.SpecVars) (dev rest pre path : string),
    LiveOverlay.overlay v = dev ++ ":" ++ rest ->
    LiveOverlay.hasColon dev = false ->
    LiveOverlay.overlay v = pre ++ ":" ++ path ->
    LiveOverlay.hasColon path = false ->
    LiveOverlay.devspec v = dev
    /\ LiveOverlay.pathspec v
       = (if String.eqb path "" || String.eqb path "auto"
          then "/" ++ LiveOverlay.live_dir v ++ "/overlay-"
               ++ LiveOverlay.label v ++ "-" ++ LiveOverlay.uuid v
          else path).
Proof.
  intros v dev rest pre path Hdev Hnd Hpath Hnp. split.
  - unfold LiveOverlay.devspec. rewrite Hdev.
    now apply beforeFirstColon_append.
  - unfold LiveOverlay.pathspec, LiveOverlay.isEmpty.
    assert (Hne : String.eqb (LiveOverlay.overlay v) "" = false).
    { rewrite Hdev. now destruct dev. }
    assert (Hc : LiveOverlay.hasColon (LiveOverlay.overlay v) = true).
    { rewrite Hdev, hasColon_append. simpl. now rewrite orb_true_r. }
    rewrite Hne, Hc, Hpath, afterLastColon_append by exact Hnp.
    reflexivity.
Qed.

Lemma overlay_specification_is_split_witness :
  LiveOverlay.devspec sampleSpec = "LABEL=data"
  /\ LiveOverlay.pathspec sampleSpec = "/ovl".
Proof.
  exact (overlay_specification_is_split sampleSpec "LABEL=data" "x:/ovl"
           "LABEL=data:x" "/ovl" eq_refl eq_refl eq_refl eq_refl).
Defined.

Lemma pathspec_not_empty (v : LiveOverlay.SpecVars) :
  LiveOverlay.isEmpty (LiveOverlay.pathspec v) = false.
Proof.
  unfold LiveOverlay.pathspec.
  match goal with
  | |- context [if ?b then _ else _] => destruct b eqn:E
  end; [reflexivity |].
  now apply orb_false_iff in E.
Qed.

(** X20: after the defaults the path of the overlay is never empty, and
    [do_live_overlay] looks for a persistent overlay exactly when no set-up
    was decided before, the overlay specification is not empty and does not
    start with a colon, and neither the device nor the path taken from it is
    a binary operator of [test]; when [$setup], the device or the path is
    such an operator, the test is a syntax error and no overlay is looked
    for. *)
Theorem persistent_overlay_is_looked_for :
  forall v : LiveOverlay.SpecVars,
    LiveOverlay.pathspec v <> ""
    /\ (LiveOverlay.looksForPersistentOverlay v = true <->
        LiveOverlay.setup0 v = ""
        /\ (exists c rest, LiveOverlay.overlay v = String c rest
                           /\ c <> ":"%char)
        /\ LiveRoot.testBinop (LiveOverlay.devspec v) = false
        /\ LiveRoot.testBinop (LiveOverlay.pathspec v) = false)
    /\ (LiveRoot.testBinop (LiveOverlay.setup0 v) = true
        \/ LiveRoot.testBinop (LiveOverlay.devspec v) = true
        \/ LiveRoot.testBinop (LiveOverlay.pathspec v) = true ->
        LiveOverlay.persistentOverlayTest v = LiveOverlay.SyntaxError
        /\ LiveOverlay.looksForPersistentOverlay v = false).
Proof.
  intro v. pose proof (pathspec_not_empty v) as Hp. split; [| split].
  - intro E. rewrite E in Hp. discriminate.
  - unfold LiveOverlay.looksForPersistentOverlay,
      LiveOverlay.persistentOverlayTest. rewrite Hp.
    destruct (LiveRoot.testBinop (LiveOverlay.devspec v)) eqn:Hd.
    { rewrite orb_true_r. cbn. split; [discriminate |].
      intros (_ & _ & H & _). discriminate. }
    destruct (LiveRoot.testBinop (LiveOverlay.pathspec v)) eqn:Hq.
    { rewrite orb_true_r. split; [discriminate |].
      intros (_ & _ & _ & H). discriminate. }
    rewrite !orb_false_r.
    destruct (LiveRoot.testBinop (LiveOverlay.setup0 v)) eqn:Hs.
    { split; [discriminate |]. intros (E & _). rewrite E in Hs.
      discriminate. }
    unfold LiveOverlay.devspec, LiveOverlay.isEmpty in *.
    destruct (LiveOverlay.overlay v) as [|c rest]; simpl.
    + rewrite andb_false_r. split; [discriminate |].
      intros (_ & (c & rest & E & _) & _). discriminate.
    + rewrite !andb_true_r.
      destruct (Ascii.eqb_spec c ":") as [-> | Hc]; simpl.
      * rewrite andb_false_r. split; [discriminate |].
        intros (_ & (c & rest' & [= <- _] & Hc) & _). now contradiction Hc.
      * rewrite andb_true_r.
        destruct (String.eqb_spec (LiveOverlay.setup0 v) "") as [E | E].
        -- split; [| reflexivity]. intros _.
           split; [exact E |]. split; [now exists c, rest | now split].
        -- split; [discriminate |]. intros (H & _). now contradiction E.
  - intro H. unfold LiveOverlay.looksForPersistentOverlay,
               LiveOverlay.persistentOverlayTest.
    assert (E : LiveRoot.testBinop (LiveOverlay.setup0 v)
                || LiveRoot.testBinop (LiveOverlay.devspec v)
                || LiveRoot.testBinop (LiveOverlay.pathspec v) = true).
    { destruct H as [-> | [-> | ->]]; rewrite ?orb_true_r; reflexivity. }
    rewrite E. split; reflexivity.
Qed.

Lemma persistent_overlay_is_looked_for_witness :
  LiveOverlay.persistentOverlayTest equalsSpec = LiveOverlay.SyntaxError
  /\ LiveOverlay.looksForPersistentOverlay equalsSpec = false.
Proof.
  apply (proj2 (proj2 (persistent_overlay_is_looked_for equalsSpec))).
  right. left. reflexivity.
Defined.

(** ** [dmsquash-live-root.sh]: the thin-pool sizes *)

(** X21: for an overlay size written as one integer constant, which shell
    arithmetic reads as the number [n] (in MiB; in decimal, in octal after a
    leading [0], in hexadecimal after [0x]; 32768 when none is given), with
    [n] not negative and below 2^43, the arithmetic of the thin-pool branch
    does not wrap around: the data size is 2048 blocks per MiB, the metadata
    size is a tenth of it, cut down to a whole number of blocks, and the
    data file gets the same apparent size as the file [/overlay] of the
    plain branch, [n] MiB in bytes.  A constant with a digit its base does
    not have is an arithmetic error, and no size is computed. *)
Theorem thin_pool_sizes :
  forall (arg : string),
    let size := LiveRoot.readConstant (LiveRoot.overlay_size arg) in
    (forall n : Z,
        size = Some (LiveRoot.Value n) ->
        (0 <= n < 2 ^ 43)%Z ->
        LiveOverlay.thin_data_sz arg = Some (LiveRoot.Value (n * 2048)%Z)
        /\ LiveOverlay.thin_meta_sz arg
           = Some (LiveRoot.Value (n * 2048 / 10)%Z)
        /\ LiveOverlay.thinDataFileSize arg = Some (n * 1024 * 1024)%Z
        /\ LiveOverlay.thinDataFileSize arg = LiveRoot.overlayFileSize arg
        /\ LiveOverlay.thinMetaFileSize arg
           = Some (n * 2048 / 10 * 512)%Z)
    /\ (size = Some LiveRoot.ArithError ->
        LiveOverlay.thin_data_sz arg = Some LiveRoot.ArithError
        /\ LiveOverlay.thin_meta_sz arg = Some LiveRoot.ArithError
        /\ LiveOverlay.thinDataFileSize arg = None
        /\ LiveOverlay.thinMetaFileSize arg = None).
Proof.
  intros arg size. subst size. split.
  - intros n Hsize H.
    assert (Hq : (0 <= n * 2048 / 10 <= n * 2048)%Z).
    { split; [apply Z.div_pos; lia | apply Z.div_le_upper_bound; lia]. }
    assert (Hd : LiveOverlay.thin_data_sz arg
                 = Some (LiveRoot.Value (n * 2048)%Z)).
    { unfold LiveOverlay.thin_data_sz. rewrite Hsize.
      unfold LiveOverlay.shellDiv, LiveRoot.shellMul.
      rewrite (wrap64_small (n * 1024)) by lia.
      rewrite (wrap64_small (n * 1024 * 1024)) by lia.
      replace (n * 1024 * 1024)%Z with (n * 2048 * 512)%Z by lia.
      rewrite Z.quot_mul by lia. rewrite wrap64_small by lia. reflexivity. }
    assert (Hm : LiveOverlay.thin_meta_sz arg
                 = Some (LiveRoot.Value (n * 2048 / 10)%Z)).
    { unfold LiveOverlay.thin_meta_sz. rewrite Hd.
      unfold LiveOverlay.shellDiv.
      rewrite Z.quot_div_nonneg by lia.
      rewrite wrap64_small by lia. reflexivity. }
    assert (Hdata : LiveOverlay.thinDataFileSize arg
                    = Some (n * 1024 * 1024)%Z).
    { unfold LiveOverlay.thinDataFileSize, LiveOverlay.thinFileSize.
      rewrite Hd. unfold LiveRoot.ddApparentSize, LiveRoot.OFF_T_MAX.
      replace ((0 <=? n * 2048) && (n * 2048 * 512 <=? 2 ^ 63 - 1))%Z
        with true
        by (symmetry; apply andb_true_iff; split; apply Z.leb_le; lia).
      f_equal. lia. }
    split; [exact Hd |]. split; [exact Hm |]. split; [exact Hdata |].
    split.
    + rewrite Hdata.
      unfold LiveRoot.overlayFileSize, LiveRoot.overlaySeek. rewrite Hsize.
      unfold LiveRoot.ddApparentSize, LiveRoot.OFF_T_MAX, LiveRoot.shellMul.
      rewrite (wrap64_small (n * 1024)) by lia.
      replace ((0 <=? n * 1024) && (n * 1024 * 1024 <=? 2 ^ 63 - 1))%Z
        with true
        by (symmetry; apply andb_true_iff; split; apply Z.leb_le; lia).
      reflexivity.
    + unfold LiveOverlay.thinMetaFileSize, LiveOverlay.thinFileSize.
      rewrite Hm. unfold LiveRoot.ddApparentSize, LiveRoot.OFF_T_MAX.
      replace ((0 <=? n * 2048 / 10)
               && (n * 2048 / 10 * 512 <=? 2 ^ 63 - 1))%Z
        with true
        by (symmetry; apply andb_true_iff; split; apply Z.leb_le; lia).
      reflexivity.
  - intro He.
    unfold LiveOverlay.thinDataFileSize, LiveOverlay.thinMetaFileSize,
      LiveOverlay.thin_meta_sz, LiveOverlay.thin_data_sz.
    rewrite He. repeat split.
Qed.

Lemma thin_pool_sizes_witness :
  LiveOverlay.thin_data_sz "" = Some (LiveRoot.Value 67108864%Z)
  /\ LiveOverlay.thin_meta_sz "" = Some (LiveRoot.Value 6710886%Z)
  /\ LiveOverlay.thinDataFileSize "" = Some 34359738368%Z
  /\ LiveOverlay.thinDataFileSize "" = LiveRoot.overlayFileSize ""
  /\ LiveOverlay.thinMetaFileSize "" = Some 3435973632%Z.
Proof.
  apply (proj1 (thin_pool_sizes "") 32768%Z).
  - reflexivity.
  - cbv. split; [discriminate | reflexivity].
Defined.

(** ** [dmsquash-live-root.sh]: read-write image or overlay *)

(** X22: [$opt] is left empty (so that [losetup] attaches the base image
    without [-r]) only when the root is then a linear map straight on the
    base loop device; and unless [$setup] already says [rw], the root is
    such a map exactly when the image is to be writable (an uncompressed
    image copied to RAM without OverlayFS, a writable file-system image, or
    the overlay given as [none], [None] or [NONE]) and no read-only overlay
    is asked for: with a read-only overlay [do_live_overlay] always runs. *)
Theorem root_is_linear_only_when_writable :
  forall v : LiveOverlay.RwVars,
    (fst (LiveOverlay.optAndSetup v) = "" ->
     LiveOverlay.rootDeviceFor v = LiveOverlay.LinearLiveRw)
    /\ (LiveOverlay.rwSetup0 v <> "rw" ->
        (LiveOverlay.rootDeviceFor v = LiveOverlay.LinearLiveRw <->
         LiveOverlay.writableImage v = true
         /\ LiveOverlay.readonly_overlay v = "")
        /\ (LiveOverlay.readonly_overlay v <> "" ->
            LiveOverlay.rootDeviceFor v = LiveOverlay.DoLiveOverlay)).
Proof.
  intro v. unfold LiveOverlay.rootDeviceFor, LiveOverlay.optAndSetup,
             LiveOverlay.isEmpty.
  destruct (LiveOverlay.writableImage v);
    destruct (String.eqb_spec (LiveOverlay.readonly_overlay v) "") as [Hr|Hr];
    cbn [fst snd].
  - split; [reflexivity |]. intros _. cbn. split.
    + split; auto.
    + intro H. now contradiction H.
  - split; [discriminate |]. intros _. cbn. split.
    + split; [discriminate | now intros [_ H]].
    + reflexivity.
  - split; [discriminate |]. intro Hs.
    apply eqb_false_of_neq in Hs. rewrite Hs. split.
    + split; [discriminate | intros [H _]; discriminate].
    + reflexivity.
  - split; [discriminate |]. intro Hs.
    apply eqb_false_of_neq in Hs. rewrite Hs. split.
    + split; [discriminate | intros [H _]; discriminate].
    + reflexivity.
Qed.

(** ** [convertInputImageToWriteableFormat]: which inputs are ISO images *)

Lemma extScan_found (r acc : list ascii) :
  filepath.extScan r acc <> [] ->
  exists k rest,
    r = (k ++ "."%char :: rest)%list
    /\ filepath.extScan r acc = ("."%char :: rev k ++ acc)%list.
Proof.
  revert acc. induction r as [|c r IH]; intros acc H; simpl in *.
  - now contradiction H.
  - destruct (Ascii.eqb c "/"); [now contradiction H |].
    destruct (Ascii.eqb_spec c ".") as [-> | Hc].
    + exists (@nil ascii). exists r. split; reflexivity.
    + destruct (IH (c :: acc) H) as (k & rest & -> & E).
      exists (c :: k). exists rest. split; [reflexivity |].
      rewrite E. simpl. now rewrite <- app_assoc.
Qed.

Lemma string_of_list_ascii_append (a b : list ascii) :
  string_of_list_ascii (a ++ b)
  = string_of_list_ascii a ++ string_of_list_ascii b.
Proof. induction a as [|c a IH]; simpl; [reflexivity | now rewrite IH]. Qed.

Lemma Ext_is_iso (path : string) :
  filepath.Ext path = ".iso" <-> exists stem, path = stem ++ ".iso".
Proof.
  unfold filepath.Ext. split.
  - intro H.
    assert (Hl : filepath.extScan (rev (list_ascii_of_string path)) []
                 = list_ascii_of_string ".iso").
    { rewrite <- H. now rewrite list_ascii_of_string_of_list_ascii. }
    destruct (extScan_found (rev (list_ascii_of_string path)) [])
      as (k & rest & Hr & E).
    { rewrite Hl. discriminate. }
    rewrite E, app_nil_r in Hl. simpl in Hl. injection Hl as Hk.
    exists (string_of_list_ascii (rev rest)).
    apply (f_equal (@rev ascii)) in Hr. rewrite rev_involutive in Hr.
    rewrite rev_app_distr in Hr. simpl in Hr. rewrite Hk in Hr.
    rewrite <- (string_of_list_ascii_of_string path), Hr.
    rewrite <- app_assoc. simpl.
    rewrite string_of_list_ascii_append. reflexivity.
  - intros (stem & ->).
    assert (E : list_ascii_of_string (stem ++ ".iso")
                = (list_ascii_of_string stem ++ list_ascii_of_string ".iso")%list).
    { rewrite <- (string_of_list_ascii_of_string stem) at 1.
      rewrite <- (string_of_list_ascii_of_string ".iso") at 1.
      rewrite <- string_of_list_ascii_append.
      apply list_ascii_of_string_of_list_ascii. }
    rewrite E, rev_app_distr. reflexivity.
Qed.

Lemma first_call_of_bind {S A B : Type} (oracle : Oracle)
      (f : error -> error) (o : op (result A)) (k : A -> M S B)
      (s : S) (t : trace) :
  (forall a, grows (k a)) ->
  exists rest : trace,
    snd (bind (wrapErr f (callR oracle o)) k s t)
    = (t ++ Call o (oracle t _ o) :: rest)%list.
Proof.
  intro G. unfold bind, wrapErr, callR, call, bind.
  destruct (oracle t _ o) as [a|e]; cbn.
  - destruct (G a s (t ++ [Call o (Ok a)])%list) as (ext & E).
    exists ext. rewrite E. now rewrite <- app_assoc.
  - exists (@nil event). reflexivity.
Qed.

(** X23: [convertInputImageToWriteableFormat] takes the input for an ISO
    image exactly when its name ends in [.iso], in lower case.  Then its
    first call makes the folder the ISO is expanded into; for any other
    name it runs [qemu-img convert -O raw] from the input to the working
    image, which is its only call, changes nothing in the state, and returns
    the error of that call wrapped, or nil. *)
Theorem convertInputImageToWriteableFormat_iso_by_name :
  forall (oracle : Oracle) (cp : CommonParameters) (t : trace),
    let run := convertInputImageToWriteableFormat oracle cp t in
    let expand := IoutilTempDir (buildDirAbs cp) "expanded-input-iso-" in
    let convert := ShellExecuteLiveWithErr 1 "qemu-img"
                     ["convert"; "-O"; "raw"; inputImageFile cp;
                      rawImageFile cp] in
    ((exists stem, inputImageFile cp = stem ++ ".iso") ->
     exists rest : trace,
       snd run = (t ++ Call expand (oracle t _ expand) :: rest)%list)
    /\ ((forall stem, inputImageFile cp <> stem ++ ".iso") ->
        run = (match oracle t _ convert with
               | None => Return tt
               | Some e =>
                 Error ("failed to convert image file to raw format:"
                        ++ nl ++ e)
               end, cp, (t ++ [Call convert (oracle t _ convert)])%list)).
Proof.
  intros oracle cp t run expand convert. subst run. split.
  - intro Hiso. apply Ext_is_iso in Hiso.
    unfold convertInputImageToWriteableFormat.
    unfold bind at 1, get at 1. rewrite Hiso. cbn [String.eqb Ascii.eqb].
    cbn iota beta.
    apply first_call_of_bind. intro folder. grows_tac.
  - intro Hno.
    assert (E : String.eqb (filepath.Ext (inputImageFile cp)) ".iso" = false).
    { apply eqb_false_of_neq. intro H. apply Ext_is_iso in H.
      destruct H as (stem & H). exact (Hno stem H). }
    unfold convertInputImageToWriteableFormat.
    unfold bind at 1, get at 1. rewrite E. go_unfold. fold convert.
    destruct (oracle t _ convert); reflexivity.
Qed.

(** ** The earlier validator: it stops at the first bad source *)

Lemma grows_forRange {S A : Type} (f : nat -> A -> M S unit) (l : list A) :
  (forall i x, grows (f i x)) -> forall i, grows (forRange f i l).
Proof.
  intro G. induction l as [|x l IH]; intro i; simpl.
  - apply grows_ret.
  - apply grows_bind; [apply G | intros _; apply IH].
Qed.

Lemma grows_validateScript (lib : PathLib) (oracle : Oracle) (S : Type)
      (base : string) (script : Script) :
  grows (@validateScript lib oracle S base script).
Proof. unfold validateScript. grows_tac. Qed.

Lemma validateAdditionalFilesIn_stops (lib : PathLib) (oracle : Oracle)
      (S : Type) (base : string) (files : AdditionalFilesMap)
      (s : S) (t : trace) :
  exists answers : list (bool * option error),
    (List.length answers <= List.length files)%nat
    /\ Earlier.validateAdditionalFilesIn lib oracle base files s t
       = (match find (fun a => negb (plainFile a)) answers with
          | None => Return tt
          | Some _ =>
            fst (fst (Earlier.validateAdditionalFilesIn lib oracle base files
                        s t))
          end, s, (t ++ joinedIsFileCalls lib base files answers)%list)
    /\ forallb plainFile (removelast answers) = true
    /\ (forallb plainFile answers = true ->
        List.length answers = List.length files)
    /\ (forallb plainFile answers = false ->
        exists e, fst (fst (Earlier.validateAdditionalFilesIn
                              lib oracle base files s t)) = Error e).
Proof.
  revert t. induction files as [|[src dst] files IH]; intro t.
  - exists (@nil (bool * option error)). cbn. rewrite app_nil_r.
    repeat split; auto; discriminate.
  - cbn [Earlier.validateAdditionalFilesIn]. unfold bind, call.
    remember (oracle t _ (FileIsFile (Join lib [base; src]))) as a eqn:Ea.
    clear Ea.
    destruct (plainFile a) eqn:Hp.
    + destruct a as [[|] [e|]]; try discriminate. cbn iota beta. cbn [negb].
      destruct (IH (t ++ [Call (FileIsFile (Join lib [base; src]))
                               (true, None)])%list)
        as (answers & Hlen & Hrun & Hinit & Hall & Hbad).
      exists (cons (true, None) answers).
      split; [cbn; lia |].
      split.
      { cbn [find plainFile negb].
        rewrite Hrun at 1. cbn [fst snd joinedIsFileCalls combine map].
        rewrite <- app_assoc. reflexivity. }
      split.
      { destruct answers as [|b answers]; [reflexivity |].
        change (removelast ((true, None) :: b :: answers))
          with ((true, @None error) :: removelast (b :: answers)).
        cbn [forallb plainFile andb]. exact Hinit. }
      split.
      { cbn [forallb plainFile andb]. intro H. cbn. now rewrite (Hall H). }
      { cbn [forallb plainFile andb]. exact Hbad. }
    + exists (cons a nil).
      split; [cbn; lia |].
      split.
      { cbn [find]. rewrite Hp. cbn [negb fst snd joinedIsFileCalls combine
                                       map].
        destruct a as [[|] [e|]]; try discriminate; destruct files;
          reflexivity. }
      split; [reflexivity |].
      split.
      { cbn [forallb]. rewrite Hp. discriminate. }
      { intros _. destruct a as [[|] [e|]]; try discriminate; eexists;
          reflexivity. }
Qed.

(** X24: the earlier [validateSystemConfig] returns from inside its loop
    over the additional files: it asks [file.IsFile] about the sources in
    the order of iteration only up to the first one that cannot be examined
    or is not a file, returns an error for that one, and then checks no
    further source and no script; only when every source is a file does it
    go on to the scripts. *)
Theorem earlier_validateSystemConfig_stops_at_first_bad_source :
  forall (lib : PathLib) (oracle : Oracle) (S : Type) (s : S) (t : trace)
         (baseConfigPath : string) (config : Earlier.SystemConfig),
    let files := Earlier.AdditionalFiles config in
    let run := Earlier.validateSystemConfig lib oracle baseConfigPath config
                                            s t in
    exists (answers : list (bool * option error)) (scripts : trace),
      (List.length answers <= List.length files)%nat
      /\ snd run = (t ++ joinedIsFileCalls lib baseConfigPath files answers
                      ++ scripts)%list
      /\ forallb plainFile (removelast answers) = true
      /\ (forallb plainFile answers = true ->
          List.length answers = List.length files)
      /\ (forallb plainFile answers = false ->
          scripts = [] /\ exists e, fst (fst run) = Error e).
Proof.
  intros lib oracle S s t base config files run. subst run.
  destruct (validateAdditionalFilesIn_stops lib oracle S base files s t)
    as (answers & Hlen & Hrun & Hinit & Hall & Hbad).
  destruct (forallb plainFile answers) eqn:Hf.
  - assert (Hfind : find (fun a => negb (plainFile a)) answers = None).
    { clear - Hf. induction answers as [|a l IH]; [reflexivity |].
      cbn in *. apply andb_true_iff in Hf. destruct Hf as [Ha Hl].
      rewrite Ha. cbn. now apply IH. }
    rewrite Hfind in Hrun.
    assert (G : exists ext,
               snd (Earlier.validateSystemConfig lib oracle base config s t)
               = ((t ++ joinedIsFileCalls lib base files answers) ++ ext)%list).
    { unfold Earlier.validateSystemConfig. fold files. unfold bind at 1.
      rewrite Hrun.
      match goal with
      | |- exists ext, snd (?m ?x ?u) = _ => assert (G : grows m)
      end.
      { grows_tac; apply grows_forRange; intros; grows_tac;
          apply grows_validateScript. }
      apply G. }
    destruct G as (ext & E).
    exists answers, ext.
    split; [exact Hlen |].
    split; [rewrite E; now rewrite <- app_assoc |].
    split; [exact Hinit |].
    split; [intros _; exact (Hall eq_refl) | intro H; congruence].
  - destruct (Hbad eq_refl) as (e & He).
    exists answers, (@nil event).
    assert (Hrun' : Earlier.validateAdditionalFilesIn lib oracle base files s t
                    = (Error e, s,
                       (t ++ joinedIsFileCalls lib base files answers)%list)).
    { rewrite Hrun. rewrite He.
      destruct (find (fun a => negb (plainFile a)) answers) eqn:F;
        [reflexivity |].
      exfalso. clear - F Hf. induction answers as [|a l IH]; [discriminate |].
      cbn in *. destruct (plainFile a); cbn in *; [auto | discriminate]. }
    assert (Hwhole : Earlier.validateSystemConfig lib oracle base config s t
                     = (Error e, s,
                        (t ++ joinedIsFileCalls lib base files answers)%list)).
    { unfold Earlier.validateSystemConfig. fold files. unfold bind at 1.
      now rewrite Hrun'. }
    rewrite Hwhole. cbn [fst snd]. rewrite app_nil_r.
    split; [exact Hlen |].
    split; [reflexivity |].
    split; [exact Hinit |].
    split; [intro H; congruence |].
    intros _. split; [reflexivity | now exists e].
Qed.

(** ** [dmsquash-live-root.sh]: OverlayFS that cannot be loaded *)

(** X25: when OverlayFS is asked for and [modprobe overlay] fails,
    [do_live_overlay] dies with "OverlayFS is required but not available."
    exactly when OverlayFS is required; otherwise it forgets both
    [$overlayfs] and [$setup] and goes on, and the next step then allocates
    the temporary Device-mapper store: the sparse file [/overlay] of the
    overlay size, attached to a loop device, and no OverlayFS directory (the
    seek of [dd] being the overlay size as shell arithmetic reads it, times
    1024; when that is an arithmetic error the step runs no command). *)
Theorem overlayfs_unavailable_falls_back :
  forall (v : LiveOverlay.DriverVars) (readonly_overlay sizeArg : string),
    LiveOverlay.drvOverlayfs v <> "" ->
    LiveOverlay.modprobeOverlay v = false ->
    let after := snd (LiveOverlay.loadOverlayDriver v) in
    let store :=
      LiveRoot.allocateTemporaryStore
        {| LiveRoot.setup := LiveOverlay.drvSetup after;
           LiveRoot.readonly_overlay := readonly_overlay;
           LiveRoot.overlayfs := LiveOverlay.drvOverlayfs after;
           LiveRoot.sizeArg := sizeArg |} in
    (LiveOverlay.drvOverlayfs v = "required" ->
     fst (LiveOverlay.loadOverlayDriver v)
     = LiveRoot.Dies "OverlayFS is required but not available.")
    /\ (LiveOverlay.drvOverlayfs v <> "required" ->
        fst (LiveOverlay.loadOverlayDriver v) = LiveRoot.GoesOn
        /\ (forall n : Z,
               LiveRoot.readConstant (LiveRoot.overlay_size sizeArg)
               = Some (LiveRoot.Value n) ->
               store
               = Some (LiveRoot.Ran
                         [LiveRoot.DdSparse "/overlay" 1024
                            (LiveRoot.shellMul n 1024);
                          LiveRoot.Losetup "/overlay"]))
        /\ (LiveRoot.readConstant (LiveRoot.overlay_size sizeArg)
            = Some LiveRoot.ArithError ->
            store = Some (LiveRoot.GaveUp []))).
Proof.
  intros v ro sizeArg Hne Hfail after store. subst after store.
  unfold LiveOverlay.loadOverlayDriver, LiveOverlay.isEmpty.
  rewrite (eqb_false_of_neq _ _ Hne), Hfail. cbn [negb].
  split.
  - intros ->. reflexivity.
  - intro Hreq. rewrite (eqb_false_of_neq _ _ Hreq).
    split; [reflexivity |].
    cbn [snd LiveOverlay.drvSetup LiveOverlay.drvOverlayfs].
    unfold LiveRoot.allocateTemporaryStore, LiveRoot.wantsTemporaryStore,
      LiveRoot.overlaySeek.
    cbn [LiveRoot.setup LiveRoot.overlayfs LiveRoot.sizeArg
         LiveRoot.readonly_overlay].
    change (LiveRoot.testBinop "") with false.
    change (LiveRoot.nonEmpty "") with false. cbn [negb orb].
    split.
    + intros n Hn. now rewrite Hn.
    + intros He. now rewrite He.
Qed.

Lemma overlayfs_unavailable_falls_back_witness :
  LiveRoot.allocateTemporaryStore
    {| LiveRoot.setup := ""; LiveRoot.readonly_overlay := "";
       LiveRoot.overlayfs := ""; LiveRoot.sizeArg := "" |}
  = Some (LiveRoot.Ran [LiveRoot.DdSparse "/overlay" 1024 33554432;
                        LiveRoot.Losetup "/overlay"]).
Proof.
  refine (proj1 (proj2 (proj2 (overlayfs_unavailable_falls_back
                                 {| LiveOverlay.drvOverlayfs := "yes";
                                    LiveOverlay.drvSetup := "";
                                    LiveOverlay.drvSystemd := "1";
                                    LiveOverlay.drvReload := "";
                                    LiveOverlay.drvMessage := "";
                                    LiveOverlay.modprobeOverlay := false |}
                                 "" "" _ eq_refl) _))
                32768%Z eq_refl); discriminate.
Defined.

Lemma root_is_linear_only_when_writable_witness :
  LiveOverlay.rootDeviceFor sampleRw = LiveOverlay.DoLiveOverlay.
Proof.
  refine (proj2 (proj2 (root_is_linear_only_when_writable sampleRw) _) _);
    discriminate.
Defined.


(** ** [validateSystemConfig]: which script an error names *)

Lemma forRange_error {S A : Type} (f : nat -> A -> M S unit) (l : list A) :
  forall (i : nat) (s s' : S) (t t' : trace) (e : error),
    forRange f i l s t = (Error e, s', t') ->
    exists (k : nat) (x : A) (sk : S) (tk : trace),
      nth_error l k = Some x /\ f (i + k)%nat x sk tk = (Error e, s', t').
Proof.
  induction l as [|x l IH]; intros i s s' t t' e H; simpl in H.
  - discriminate H.
  - unfold bind in H.
    destruct (f i x s t) as [[[u|e1|p1] s1] t1] eqn:E; try discriminate H.
    + destruct (IH _ _ _ _ _ _ H) as (k & y & sk & tk & Hn & Hf).
      exists (Datatypes.S k), y, sk, tk. split; [exact Hn |].
      now rewrite Nat.add_succ_r.
    + injection H as <- <- <-.
      exists 0%nat, x, s, t. split; [reflexivity |].
      now rewrite Nat.add_0_r.
Qed.

Lemma wrapErr_error {S A : Type} (f : error -> error) (m : M S A)
      (s s' : S) (t t' : trace) (e : error) :
  wrapErr f m s t = (Error e, s', t') ->
  exists e0, e = f e0 /\ m s t = (Error e0, s', t').
Proof.
  unfold wrapErr. destruct (m s t) as [[[u|e0|p] s1] t1]; intro H;
    try discriminate H.
  injection H as <- <- <-. now exists e0.
Qed.

(** X26: once the package lists and the additional files of the [os]
    section are accepted, an error of [validateSystemConfig] comes from one
    of the two script lists and names the place of a script of that list
    which [validateScript] rejected: it reads
    [invalid PostInstallScripts item at index k: ] (or
    [invalid FinalizeImageScripts item at index k: ]) followed by the error
    [validateScript] gave for the script at index [k], counted from 0. *)
Theorem validateSystemConfig_names_the_script :
  forall (lib : PathLib) (oracle : Oracle) (S : Type) (s s1 s2 s' : S)
         (t t1 t2 t' : trace) (baseConfigPath : string) (os os1 : OS)
         (rpmsSources : list string)
         (useBaseImageRpmRepos partitionsCustomized : bool) (e : error),
    validatePackageLists oracle baseConfigPath (Some os) rpmsSources
                         useBaseImageRpmRepos partitionsCustomized s t
    = (Return os1, s1, t1) ->
    validateAdditionalFiles lib oracle baseConfigPath (AdditionalFiles os1)
                            s1 t1
    = (Return tt, s2, t2) ->
    validateSystemConfig lib oracle baseConfigPath (Some os) rpmsSources
                         useBaseImageRpmRepos partitionsCustomized s t
    = (Error e, s', t') ->
    exists (k : nat) (script : Script) (e0 : error) (sk : S) (tk : trace),
      validateScript lib oracle baseConfigPath script sk tk = (Error e0, s', t')
      /\ ((nth_error (PostInstallScripts os) k = Some script
           /\ e = "invalid PostInstallScripts item at index " ++ itoa k
                  ++ ": " ++ e0)
          \/ (nth_error (FinalizeImageScripts os) k = Some script
              /\ e = "invalid FinalizeImageScripts item at index " ++ itoa k
                     ++ ": " ++ e0)).
Proof.
  intros lib oracle S s s1 s2 s' t t1 t2 t' base os os1 rpms useBase pc e
         Hpk Hfiles H.
  assert (Hos : PostInstallScripts os1 = PostInstallScripts os
                /\ FinalizeImageScripts os1 = FinalizeImageScripts os).
  { revert Hpk. unfold validatePackageLists. go_unfold.
    repeat match goal with
           | |- context [match oracle ?u ?R ?o with _ => _ end] =>
             destruct (oracle u R o); cbn iota beta; try discriminate
           end;
      repeat match goal with
             | |- context [if ?b then _ else _] =>
               destruct b; cbn iota beta; try discriminate
             end;
      intros [= <- _ _]; split; reflexivity. }
  destruct Hos as [Hpost Hfin].
  unfold validateSystemConfig in H.
  unfold bind at 1 in H. rewrite Hpk in H.
  unfold bind at 1 in H. rewrite Hfiles in H.
  unfold bind at 1 in H. rewrite Hpost, Hfin in H.
  match type of H with
  | context [forRange ?f 0 (PostInstallScripts os) s2 t2] =>
    destruct (forRange f 0 (PostInstallScripts os) s2 t2)
      as [[[u|e1|p1] s3] t3] eqn:E1
  end; try discriminate H.
  - unfold bind at 1 in H.
    match type of H with
    | context [forRange ?f 0 (FinalizeImageScripts os) s3 t3] =>
      destruct (forRange f 0 (FinalizeImageScripts os) s3 t3)
        as [[[u2|e2|p2] s4] t4] eqn:E2
    end; try discriminate H.
    injection H as <- <- <-.
    destruct (forRange_error _ _ _ _ _ _ _ _ E2) as (k & x & sk & tk & Hn & Hf).
    destruct (wrapErr_error _ _ _ _ _ _ _ Hf) as (e0 & -> & Hv).
    exists k, x, e0, sk, tk. split; [exact Hv |]. right. now split.
  - injection H as <- <- <-.
    destruct (forRange_error _ _ _ _ _ _ _ _ E1) as (k & x & sk & tk & Hn & Hf).
    destruct (wrapErr_error _ _ _ _ _ _ _ Hf) as (e0 & -> & Hv).
    exists k, x, e0, sk, tk. split; [exact Hv |]. left. now split.
Qed.

Lemma validateSystemConfig_names_the_script_witness :
  exists (e : error) (t' : trace) (k : nat) (script : Script) (e0 : error)
         (sk : unit) (tk : trace),
    validateScript sampleLib plainScriptOracle "/cfg" script sk tk
    = (Error e0, tt, t')
    /\ ((nth_error (PostInstallScripts twoScriptsOS) k = Some script
         /\ e = "invalid PostInstallScripts item at index " ++ itoa k
                ++ ": " ++ e0)
        \/ (nth_error (FinalizeImageScripts twoScriptsOS) k = Some script
            /\ e = "invalid FinalizeImageScripts item at index " ++ itoa k
                   ++ ": " ++ e0)).
Proof.
  eexists. eexists.
  eapply (validateSystemConfig_names_the_script sampleLib plainScriptOracle
            unit tt tt tt tt [] _ _ _ "/cfg" twoScriptsOS _ [] true false);
    cbv; reflexivity.
Defined.

(** The two validators of additional files on the same three sources, the
    second of which is a directory: the earlier one stops there, the later
    one goes on and reports at the end. *)
Example earlier_validateSystemConfig_example :
  Earlier.validateSystemConfig
    sampleLib secondIsDirectoryOracle "/cfg"
    {| Earlier.AdditionalFiles := threeFiles;
       Earlier.PostInstallScripts := [ {| Path := "a.sh" |} ];
       Earlier.FinalizeImageScripts := [] |} tt []
  = (Error "invalid AdditionalFiles source file (files/b): not a file", tt,
     [Call (FileIsFile "/cfg/files/a") (true, None);
      Call (FileIsFile "/cfg/files/b") (false, None)]).
Proof. vm_compute. reflexivity. Qed.

Example validateAdditionalFiles_example :
  validateAdditionalFiles sampleLib secondIsDirectoryOracle "/cfg" threeFiles
                          tt []
  = (Error "invalid additionalFiles source file (files/b): not a file", tt,
     [Call (FileIsFile "/cfg/files/a") (true, None);
      Call (FileIsFile "/cfg/files/b") (false, None);
      Call (FileIsFile "/cfg/files/c") (true, None)]).
Proof. vm_compute. reflexivity. Qed.

(** ** [dmsquash-live-root.sh]: mounting the backing of the live image *)

Lemma liverwFrom_snoc (l0 w : string) (words : list string) :
  LiveBacking.liverwFrom l0 (words ++ [w])
  = if LiveBacking.isRoRw w then w else LiveBacking.liverwFrom l0 words.
Proof.
  revert l0. induction words as [|a words IH]; intro l0; simpl.
  - reflexivity.
  - apply IH.
Qed.

Lemma liverwFrom_last (l0 : string) (words : list string) :
  LiveBacking.liverwFrom l0 words
  = match find LiveBacking.isRoRw (rev words) with
    | Some w => w
    | None => l0
    end.
Proof.
  induction words as [|w words IH] using rev_ind; [reflexivity |].
  rewrite liverwFrom_snoc, rev_app_distr. simpl.
  destruct (LiveBacking.isRoRw w); [reflexivity | exact IH].
Qed.

Lemma find_isRoRw_not_empty (words : list string) (w : string) :
  find LiveBacking.isRoRw words = Some w -> String.eqb w "" = false.
Proof.
  intro H. apply find_some in H. destruct H as [_ H].
  unfold LiveBacking.isRoRw in H.
  destruct (String.eqb_spec w "") as [-> |]; [discriminate | reflexivity].
Qed.

(** X27: (1) a live image that is a squashfs, as a file or as a block
    device, is not mounted: it becomes [$SQUASHED] and the script goes on;
    (2) a block device with any other file system but NTFS is mounted on
    [/run/initramfs/live] with the option the kernel command line gives,
    which is the last of its words [ro] and [rw], and [ro] when it has
    neither (and [$liverw] was not set); the type handed to [mount] is
    [$fstype] as it was, not the type found on the device; and the script
    dies exactly when that mount fails. *)
Theorem backing_is_mounted_as_the_command_line_says :
  forall e : LiveBacking.Env,
    ((if LiveBacking.isRegularFile e
      then LiveBacking.imageFsType e else LiveBacking.deviceFsType e)
     = "squashfs" ->
     forallb (fun c => negb (mounts c)) (fst (fst (LiveBacking.mountBacking e)))
     = true
     /\ snd (fst (LiveBacking.mountBacking e)) = LiveRoot.GoesOn
     /\ LiveBacking.SQUASHED (snd (LiveBacking.mountBacking e))
        = LiveBacking.livedev e)
    /\ (LiveBacking.isRegularFile e = false ->
        LiveBacking.deviceFsType e <> "squashfs" ->
        LiveBacking.deviceFsType e <> "ntfs" ->
        LiveBacking.mountBacking e
        = ([LiveBacking.Modprobe "squashfs";
            LiveBacking.Mkdir "/run/initramfs/live";
            LiveBacking.Mount (LiveBacking.fstype0 e) (lastRoRw e)
                              (LiveBacking.livedev e) "/run/initramfs/live"],
           if LiveBacking.mountSucceeds e then LiveRoot.GoesOn
           else LiveRoot.Dies "Failed to mount block device of live image",
           {| LiveBacking.fstype := LiveBacking.fstype0 e;
              LiveBacking.SQUASHED := LiveBacking.SQUASHED0 e;
              LiveBacking.FSIMG := LiveBacking.FSIMG0 e |})).
Proof.
  intro e. split.
  - unfold LiveBacking.mountBacking.
    destruct (LiveBacking.isRegularFile e); intros ->;
      cbn [String.eqb Ascii.eqb Bool.eqb].
    + destruct (LiveBacking.sysFsKnown e); repeat split.
    + repeat split.
  - intros Hfile Hsq Hntfs. unfold LiveBacking.mountBacking.
    rewrite Hfile, (eqb_false_of_neq _ _ Hsq), (eqb_false_of_neq _ _ Hntfs).
    cbn [negb app].
    assert (E : LiveBacking.liverwOrRo
                  (LiveBacking.liverwFrom (LiveBacking.liverw0 e)
                                          (LiveBacking.cmdline e))
                = lastRoRw e).
    { rewrite liverwFrom_last. unfold lastRoRw, LiveBacking.liverwOrRo.
      destruct (find LiveBacking.isRoRw (rev (LiveBacking.cmdline e)))
        as [w|] eqn:F; [| reflexivity].
      now rewrite (find_isRoRw_not_empty _ _ F). }
    now rewrite E.
Qed.

Lemma backing_is_mounted_as_the_command_line_says_witness :
  LiveBacking.mountBacking sampleBacking
  = ([LiveBacking.Modprobe "squashfs";
      LiveBacking.Mkdir "/run/initramfs/live";
      LiveBacking.Mount "" "ro" "/dev/sr0" "/run/initramfs/live"],
     LiveRoot.GoesOn,
     {| LiveBacking.fstype := ""; LiveBacking.SQUASHED := "";
        LiveBacking.FSIMG := "" |}).
Proof.
  refine (proj2 (backing_is_mounted_as_the_command_line_says sampleBacking)
                eq_refl _ _); discriminate.
Defined.
